(** * Debate platform: the session orchestrator of [backend/]

    A shallow embedding of the Go server's debate manager (the file that
    declares [DebateManager]), of the storage layer [database.go], of the
    judge client [chatgpt.go] and of the message types, followed by the
    properties of the specification that were checked against them.

    Conventions of the embedding:
    - Go [int] values are [Z]; the only unbounded counter that is
      incremented, [CurrentRound], wraps at 64 bits as in Go.  Speech
      counts are lengths of the in-memory transcript, far below 2^62, so
      the scorer's arithmetic is written without wrap-around.
    - Go [string] is [string] (a sequence of bytes); [len] is the byte
      length.  The empty string plays the role Go gives it (an absent
      [debate_id], an unset [LastSpeaker]).
    - A nil-able pointer is an [option].  [SupportingBot] and
      [OpposingBot] alias the [ConnectedBot] stored in [BotA] or [BotB];
      they are modelled as a reference to the slot, so that a write
      through one name is seen through the other.
    - A [time.Time] is an instant (seconds since the Unix epoch and
      nanoseconds) together with the offset of the zone it is read in; the
      monotonic clock reading is not modelled.  A bare number stands for
      that whole second read in UTC.
    - A handler is a function in the monad [M]: it reads and updates the
      [World] (live registry, storage, timers, spawned goroutines, frames
      written to connections, the broadcast queue) or panics.
    - Handlers run one at a time; goroutines started by [go f()] and by
      [time.AfterFunc] are recorded in the world and run as separate
      steps. *)

From Stdlib Require Import ZArith String Ascii List Bool Lia.
From Stdlib Require OrderedTypeEx.
From stdpp Require Import base option gmap strings list pretty.
Import ListNotations.

Open Scope string_scope.
Open Scope Z_scope.

(** ** Message and storage types (the [package main] type declarations) *)

(** [time.Time]: the seconds since the Unix epoch, the nanoseconds within
    the second, and the offset of the value's zone in seconds east of
    UTC. *)
Record Time := mkTime {
  Unix : Z;
  Nanos : Z;
  Offset : Z
}.

Definition utc (unix : Z) : Time := {| Unix := unix; Nanos := 0; Offset := 0 |}.
Coercion utc : Z >-> Time.

Definition Conn := nat.

(** ** Timestamps in storage

    [database/sql] hands a [time.Time] argument to the go-sqlite3 driver,
    which binds it as the text
    [t.Format("2006-01-02 15:04:05.999999999-07:00")]: the wall clock
    reading in the value's own zone, followed by the zone's offset. *)

Definition digit (n : Z) : ascii := ascii_of_N (48 + Z.to_N n).

Definition digits2 (n : Z) : string :=
  String (digit (n / 10)) (String (digit (n mod 10)) EmptyString).

Fixpoint zeros (n : nat) : string :=
  match n with
  | O => EmptyString
  | S n' => String "0" (zeros n')
  end.

(** [appendInt] of package [time]: the decimal form of [x], padded with
    zeros to [width]; two and four digit fields are written digit by
    digit. *)
Definition appendInt (x : Z) (width : nat) : string :=
  let u := Z.abs x in
  (if x <? 0 then "-" else "")
  ++ (if (width =? 2)%nat && (u <? 100) then digits2 u
      else if (width =? 4)%nat && (u <? 10000)
      then digits2 (u / 100) ++ digits2 (u mod 100)
      else zeros (width - String.length (pretty u)) ++ pretty u).

(** The days of one 400-year cycle of the Gregorian calendar, counted from
    a first of March: the year of the cycle and the day of that year
    (which starts in March), and the month and the day of the month of a
    day of such a year. *)
Definition yearOfEra (doe : Z) : Z :=
  (doe - doe / 1460 + doe / 36524 - doe / 146096) / 365.

Definition dayOfYear (doe : Z) : Z :=
  let yoe := yearOfEra doe in
  doe - (365 * yoe + yoe / 4 - yoe / 100).

Definition monthOf (doy : Z) : Z :=
  let mp := (5 * doy + 2) / 153 in
  if mp <? 10 then mp + 3 else mp - 9.

Definition dayOf (doy : Z) : Z :=
  let mp := (5 * doy + 2) / 153 in
  doy - (153 * mp + 2) / 5 + 1.

(** The proleptic Gregorian date of a day, counted from 1970-01-01. *)
Definition civil (days : Z) : Z * Z * Z :=
  let z := days + 719468 in
  let era := z / 146097 in
  let doe := z mod 146097 in
  let doy := dayOfYear doe in
  let m := monthOf doy in
  (400 * era + yearOfEra doe + (if m <=? 2 then 1 else 0), m, dayOf doy).

(** [appendNano] of package [time] for the layout [.999999999]: the
    nanoseconds as nine digits after a point, trailing zeros removed, and
    nothing at all for a whole second. *)
Fixpoint fracDigits (n : nat) (k : Z) : string :=
  match n with
  | O => EmptyString
  | S n' =>
      if k =? 0 then EmptyString
      else String (digit (k / 10 ^ Z.of_nat n'))
                  (fracDigits n' (k mod 10 ^ Z.of_nat n'))
  end.

Definition appendNano (nanos : Z) : string :=
  if nanos =? 0 then EmptyString else String "." (fracDigits 9 nanos).

Definition sqliteTimestamp (t : Time) : string :=
  let wall := Unix t + Offset t in
  let '(year, month, day) := civil (wall / 86400) in
  let clock := wall mod 86400 in
  let zone := Z.quot (Offset t) 60 in
  appendInt year 4 ++ "-" ++ appendInt month 2 ++ "-" ++ appendInt day 2
  ++ " " ++ appendInt (clock / 3600) 2 ++ ":" ++ appendInt (clock / 60 mod 60) 2
  ++ ":" ++ appendInt (clock mod 60) 2 ++ appendNano (Nanos t)
  ++ (if zone <? 0 then "-" else "+")
  ++ appendInt (Z.abs zone / 60) 2 ++ ":" ++ appendInt (Z.abs zone mod 60) 2.

(** The wall clock reading of [t] falls in the years 0000 to 9999, which
    the format writes with four digits. *)
Definition fourDigitYear (t : Time) : Prop :=
  -62167219200 <= Unix t + Offset t < 253402300800.

(** The nanoseconds of a [time.Time] are below one second. *)
Definition wellFormedTime (t : Time) : Prop := 0 <= Nanos t < 1000000000.

(** [!t.After(u)]: the instant of [t] is not later than that of [u]. *)
Definition notAfter (t u : Time) : Prop :=
  Unix t < Unix u ∨ (Unix t = Unix u ∧ Nanos t <= Nanos u).

(** The text of a zone offset starts with a sign, which sorts before the
    point and the digits of a fraction. *)
Definition signed (z : string) : Prop :=
  ∃ c rest, z = String c rest ∧ (c = "+"%char ∨ c = "-"%char).

(** Dates (year, month, day) in calendar order. *)
Definition dateLt (a b : Z * Z * Z) : Prop :=
  a.1.1 < b.1.1 ∨ (a.1.1 = b.1.1 ∧ (a.1.2 < b.1.2 ∨ (a.1.2 = b.1.2 ∧ a.2 < b.2))).

Record Debate := mkDebate {
  ID : string;
  Topic : string;
  TotalRounds : Z;
  CurrentRound : Z;
  Status : string;  (* waiting, active, completed, timeout, error *)
  CreatedAt : Time;
  UpdatedAt : Time
}.

Record Bot := mkBot {
  BotName : string;
  BotUUID : string;
  BotIdentifier : string;  (* name+uuid (first 8 chars) *)
  DebateID : string;
  DebateKey : string;
  Side : string;           (* supporting, opposing, or empty *)
  ConnectedAt : Time
}.

Record LoginRequest := mkLoginRequest {
  lr_BotName : string;
  lr_BotUUID : string;
  lr_DebateID : string
}.

Record LoginConfirmed := mkLoginConfirmed {
  lc_Status : string;
  lc_Message : string;
  lc_DebateID : string;
  lc_DebateKey : string;
  lc_BotIdentifier : string;
  lc_Topic : string;
  lc_JoinedBots : list string
}.

Record LoginRejected := mkLoginRejected {
  rej_Status : string;
  rej_Reason : string;
  rej_Message : string;
  rej_DebateID : string;
  rej_RetryAfter : Z
}.

Record SpeechMessage := mkSpeechMessage {
  Format : string;
  Content : string
}.

Record DebateSpeech := mkDebateSpeech {
  sp_DebateID : string;
  sp_DebateKey : string;
  sp_Speaker : string;
  sp_Message : SpeechMessage
}.

Record DebateLogEntry := mkDebateLogEntry {
  e_Round : Z;
  e_Speaker : string;
  e_Side : string;
  e_Timestamp : Time;
  e_Message : SpeechMessage
}.

(** The three summaries of [generateDebateResult] and the summaries of the
    judge client are [fmt.Sprintf] renderings of fixed Markdown templates;
    the embedding keeps the template chosen and its arguments. *)
Inductive ReasonDesc :=
| RdCompleted
| RdSpeechTimeout (seconds : Z)
| RdInactivity (seconds : Z)
| RdMaxDuration (seconds : Z)
| RdBotDisconnected (botID : string)
| RdHeartbeatTimeout (botID : string)
| RdOther (reason : string).

Inductive SummaryText :=
| SumTimeoutNoSpeech (topic supportingID opposingID : string) (rd : ReasonDesc)
| SumTimeoutOneSide (topic supportingID : string) (supportingCount : Z)
                    (opposingID : string) (opposingCount : Z) (rd : ReasonDesc)
| SumScored (topic supportingID : string) (supportingCount supportingScore : Z)
            (opposingID : string) (opposingCount opposingScore : Z)
            (winner : string)
| SumJudge (summary : string)
| SumJudgeUnparsed (response : string).

Record DebateResult := mkDebateResult {
  Winner : string;
  SupportingScore : Z;
  OpposingScore : Z;
  Summary : SummaryText;   (* format is always markdown *)
  Reason : string
}.

Record DebateStart := mkDebateStart {
  ds_DebateID : string;
  ds_Topic : string;
  ds_SupportingSide : string;
  ds_OpposingSide : string;
  ds_TotalRounds : Z;
  ds_CurrentRound : Z;
  ds_YourSide : string;
  ds_YourIdentifier : string;
  ds_NextSpeaker : string;
  ds_TimeoutSeconds : Z;
  ds_MinContentLength : Z;
  ds_MaxContentLength : Z
}.

Record DebateUpdate := mkDebateUpdate {
  du_DebateID : string;
  du_Topic : string;
  du_SupportingSide : string;
  du_OpposingSide : string;
  du_TotalRounds : Z;
  du_CurrentRound : Z;
  du_YourSide : string;
  du_YourIdentifier : string;
  du_NextSpeaker : string;
  du_TimeoutSeconds : Z;
  du_MinContentLength : Z;
  du_MaxContentLength : Z;
  du_DebateLog : list DebateLogEntry
}.

Record DebateEnd := mkDebateEnd {
  de_DebateID : string;
  de_Topic : string;
  de_SupportingSide : string;
  de_OpposingSide : string;
  de_TotalRounds : Z;
  de_Status : string;
  de_DebateLog : list DebateLogEntry;
  de_DebateResult : DebateResult
}.

Record DebateWaiting := mkDebateWaiting {
  dw_DebateID : string;
  dw_Topic : string;
  dw_TotalRounds : Z;
  dw_Status : string;
  dw_JoinedBots : list string
}.

Record ErrorMessage := mkErrorMessage {
  ErrorCode : string;
  em_Message : string;
  em_DebateID : string;
  Recoverable : bool
}.

(** [Message] is the envelope built by [createMessage]: the [type] tag and
    the payload (the timestamp of the envelope is left out). *)
Inductive MessageData :=
| DataDebateWaiting (d : DebateWaiting)
| DataDebateStart (d : DebateStart)
| DataDebateUpdate (d : DebateUpdate)
| DataDebateEnd (d : DebateEnd).

Record Message := mkMessage {
  msg_Type : string;
  msg_Data : MessageData
}.

Definition createMessage (msgType : string) (data : MessageData) : Message :=
  {| msg_Type := msgType; msg_Data := data |}.

Record BroadcastMessage := mkBroadcastMessage {
  bm_DebateID : string;
  bm_Message : Message
}.

(** ** Configuration ([Config.Debate]) *)

Record DebateConfig := mkDebateConfig {
  SpeechTimeout : Z;
  InactivityTimeout : Z;
  MaxDuration : Z;
  MinContentLength : Z;
  MaxContentLength : Z
}.

(** The values [LoadConfig] installs when the file leaves them unset. *)
Definition defaultConfig : DebateConfig :=
  {| SpeechTimeout := 120; InactivityTimeout := 1800; MaxDuration := 3600;
     MinContentLength := 50; MaxContentLength := 2000 |}.

(** ** Storage ([database.go])

    Each table is the list of its rows in insertion order; the primary
    keys of the schema are enforced by the inserts. *)

Record ResultRow := mkResultRow {
  rr_debate_id : string;
  rr_winner : string;
  rr_supporting_score : Z;
  rr_opposing_score : Z;
  rr_summary : SummaryText
}.

Record Database := mkDatabase {
  tbl_debates : list Debate;                      (* PRIMARY KEY id *)
  tbl_bots : list Bot;                            (* PRIMARY KEY (debate_id, bot_uuid) *)
  tbl_debate_log : list (string * DebateLogEntry);
  tbl_debate_results : list ResultRow             (* PRIMARY KEY debate_id *)
}.

Definition emptyDatabase : Database :=
  {| tbl_debates := []; tbl_bots := []; tbl_debate_log := [];
     tbl_debate_results := [] |}.

Module Db.

(** A storage call returns [None] where the Go method returns an error
    because of the data (a missing row, a violated primary key); failures
    of the database connection itself are outside the model. *)

Definition CreateDebate (d : Database) (debate : Debate) : option Database :=
  if existsb (fun r => String.eqb (ID r) (ID debate)) (tbl_debates d)
  then None
  else Some {| tbl_debates := tbl_debates d ++ [debate];
               tbl_bots := tbl_bots d;
               tbl_debate_log := tbl_debate_log d;
               tbl_debate_results := tbl_debate_results d |}.

Definition GetDebate (d : Database) (debateID : string) : option Debate :=
  List.find (fun r => String.eqb (ID r) debateID) (tbl_debates d).

Definition set_status (status : string) (now : Time) (r : Debate) : Debate :=
  {| ID := ID r; Topic := Topic r; TotalRounds := TotalRounds r;
     CurrentRound := CurrentRound r; Status := status;
     CreatedAt := CreatedAt r; UpdatedAt := now |}.

Definition set_round (round : Z) (now : Time) (r : Debate) : Debate :=
  {| ID := ID r; Topic := Topic r; TotalRounds := TotalRounds r;
     CurrentRound := round; Status := Status r;
     CreatedAt := CreatedAt r; UpdatedAt := now |}.

Definition update_debates (f : Debate -> Debate) (debateID : string)
    (d : Database) : Database :=
  {| tbl_debates :=
       map (fun r => if String.eqb (ID r) debateID then f r else r)
           (tbl_debates d);
     tbl_bots := tbl_bots d;
     tbl_debate_log := tbl_debate_log d;
     tbl_debate_results := tbl_debate_results d |}.

Definition UpdateDebateStatus (d : Database) (debateID status : string)
    (now : Time) : Database :=
  update_debates (set_status status now) debateID d.

Definition UpdateDebateRound (d : Database) (debateID : string) (round : Z)
    (now : Time) : Database :=
  update_debates (set_round round now) debateID d.

Definition AddBot (d : Database) (bot : Bot) : option Database :=
  if existsb (fun r => String.eqb (DebateID r) (DebateID bot)
                       && String.eqb (BotUUID r) (BotUUID bot))
             (tbl_bots d)
  then None
  else Some {| tbl_debates := tbl_debates d;
               tbl_bots := tbl_bots d ++ [bot];
               tbl_debate_log := tbl_debate_log d;
               tbl_debate_results := tbl_debate_results d |}.

Definition set_side (side : string) (b : Bot) : Bot :=
  {| BotName := BotName b; BotUUID := BotUUID b;
     BotIdentifier := BotIdentifier b; DebateID := DebateID b;
     DebateKey := DebateKey b; Side := side; ConnectedAt := ConnectedAt b |}.

Definition UpdateBotSide (d : Database) (debateID botIdentifier side : string)
    : Database :=
  {| tbl_debates := tbl_debates d;
     tbl_bots :=
       map (fun b => if String.eqb (DebateID b) debateID
                        && String.eqb (BotIdentifier b) botIdentifier
                     then set_side side b else b)
           (tbl_bots d);
     tbl_debate_log := tbl_debate_log d;
     tbl_debate_results := tbl_debate_results d |}.

Definition AddDebateLog (d : Database) (entry : DebateLogEntry)
    (debateID : string) : Database :=
  {| tbl_debates := tbl_debates d;
     tbl_bots := tbl_bots d;
     tbl_debate_log := tbl_debate_log d ++ [(debateID, entry)];
     tbl_debate_results := tbl_debate_results d |}.

(** The insert stores the winner, the scores and the summary (not the
    reason); a second row for the same debate violates the primary key
    and the statement fails. *)
Definition SaveDebateResult (d : Database) (debateID : string)
    (result : DebateResult) : option Database :=
  if existsb (fun r => String.eqb (rr_debate_id r) debateID)
             (tbl_debate_results d)
  then None
  else Some {| tbl_debates := tbl_debates d;
               tbl_bots := tbl_bots d;
               tbl_debate_log := tbl_debate_log d;
               tbl_debate_results :=
                 tbl_debate_results d ++
                 [ {| rr_debate_id := debateID;
                      rr_winner := Winner result;
                      rr_supporting_score := SupportingScore result;
                      rr_opposing_score := OpposingScore result;
                      rr_summary := Summary result |} ] |}.

Definition GetDebateResult (d : Database) (debateID : string)
    : option ResultRow :=
  List.find (fun r => String.eqb (rr_debate_id r) debateID) (tbl_debate_results d).

(** [SELECT COUNT( * ) FROM bots GROUP BY debate_id], for one debate. *)
Definition bot_count (d : Database) (debateID : string) : nat :=
  length (List.filter (fun b => String.eqb (DebateID b) debateID) (tbl_bots d)).

(** The [WHERE] clause of [GetAvailableDebate]. *)
Definition available (d : Database) (r : Debate) : bool :=
  String.eqb (Status r) "waiting" && (bot_count d (ID r) <? 2)%nat.

(** The text in the [created_at] column of a row. *)
Definition created_at (r : Debate) : string := sqliteTimestamp (CreatedAt r).

(** [ORDER BY d.created_at ASC LIMIT 1]: the column holds text, which
    SQLite compares byte by byte; the result is a row whose text is least
    (the query does not say which one among rows of equal text; the
    embedding takes the earliest inserted one, and what is proved below
    holds for any of them). *)
Fixpoint first_created_at (rows : list Debate) : option Debate :=
  match rows with
  | [] => None
  | r :: rest =>
      match first_created_at rest with
      | None => Some r
      | Some r' =>
          if String.leb (created_at r) (created_at r') then Some r else Some r'
      end
  end.

Definition GetAvailableDebate (d : Database) : option Debate :=
  first_created_at (List.filter (available d) (tbl_debates d)).

End Db.

(** ** The live registry ([DebateManager], [ActiveDebate], [ConnectedBot]) *)

(** [ConnectedBot]: the bot record and its connection.  The heartbeat
    fields of the struct are never read or written by the manager. *)
Record ConnectedBot := mkConnectedBot {
  cb_Bot : Bot;
  cb_Conn : option Conn
}.

Inductive Slot := SlotA | SlotB.

(** One-shot timers made by [time.AfterFunc].  A timer is [Pending] until
    it is stopped or expires; when it expires its callback is handed to a
    new goroutine, after which [Stop] no longer prevents the callback. *)
Inductive TimerKind :=
| WaitingT
| SpeechT (speaker : string)
| InactivityT
| MaxDurationT.

Inductive TimerStatus := Pending | Stopped | Fired.

Record Timer := mkTimer {
  t_kind : TimerKind;
  t_debate : string;
  t_status : TimerStatus
}.

Record ActiveDebate := mkActiveDebate {
  Debate_ : Debate;
  BotA : option ConnectedBot;
  BotB : option ConnectedBot;
  SupportingBot : option Slot;
  OpposingBot : option Slot;
  DebateLog : list DebateLogEntry;
  LastSpeaker : string;
  WaitingTimer : option nat;
  TimeoutTimer : option nat;
  InactivityTimer : option nat;
  MaxDurationTimer : option nat;
  StartTime : Time;
  LastActivityTime : Time
}.

(** What [&ActiveDebate{Debate: debate, DebateLog: ..., FrontendConns: ...}]
    builds (the set of observer connections is not part of the model). *)
Definition newActiveDebate (debate : Debate) : ActiveDebate :=
  {| Debate_ := debate; BotA := None; BotB := None;
     SupportingBot := None; OpposingBot := None;
     DebateLog := []; LastSpeaker := "";
     WaitingTimer := None; TimeoutTimer := None;
     InactivityTimer := None; MaxDurationTimer := None;
     StartTime := 0; LastActivityTime := 0 |}.

Definition set_Debate (v : Debate) (a : ActiveDebate) : ActiveDebate :=
  mkActiveDebate v (BotA a) (BotB a) (SupportingBot a) (OpposingBot a)
    (DebateLog a) (LastSpeaker a) (WaitingTimer a) (TimeoutTimer a)
    (InactivityTimer a) (MaxDurationTimer a) (StartTime a) (LastActivityTime a).
Definition set_BotA (v : option ConnectedBot) (a : ActiveDebate) : ActiveDebate :=
  mkActiveDebate (Debate_ a) v (BotB a) (SupportingBot a) (OpposingBot a)
    (DebateLog a) (LastSpeaker a) (WaitingTimer a) (TimeoutTimer a)
    (InactivityTimer a) (MaxDurationTimer a) (StartTime a) (LastActivityTime a).
Definition set_BotB (v : option ConnectedBot) (a : ActiveDebate) : ActiveDebate :=
  mkActiveDebate (Debate_ a) (BotA a) v (SupportingBot a) (OpposingBot a)
    (DebateLog a) (LastSpeaker a) (WaitingTimer a) (TimeoutTimer a)
    (InactivityTimer a) (MaxDurationTimer a) (StartTime a) (LastActivityTime a).
Definition set_sides (s o : option Slot) (a : ActiveDebate) : ActiveDebate :=
  mkActiveDebate (Debate_ a) (BotA a) (BotB a) s o
    (DebateLog a) (LastSpeaker a) (WaitingTimer a) (TimeoutTimer a)
    (InactivityTimer a) (MaxDurationTimer a) (StartTime a) (LastActivityTime a).
Definition set_DebateLog (v : list DebateLogEntry) (a : ActiveDebate) : ActiveDebate :=
  mkActiveDebate (Debate_ a) (BotA a) (BotB a) (SupportingBot a) (OpposingBot a)
    v (LastSpeaker a) (WaitingTimer a) (TimeoutTimer a)
    (InactivityTimer a) (MaxDurationTimer a) (StartTime a) (LastActivityTime a).
Definition set_LastSpeaker (v : string) (a : ActiveDebate) : ActiveDebate :=
  mkActiveDebate (Debate_ a) (BotA a) (BotB a) (SupportingBot a) (OpposingBot a)
    (DebateLog a) v (WaitingTimer a) (TimeoutTimer a)
    (InactivityTimer a) (MaxDurationTimer a) (StartTime a) (LastActivityTime a).
Definition set_WaitingTimer (v : option nat) (a : ActiveDebate) : ActiveDebate :=
  mkActiveDebate (Debate_ a) (BotA a) (BotB a) (SupportingBot a) (OpposingBot a)
    (DebateLog a) (LastSpeaker a) v (TimeoutTimer a)
    (InactivityTimer a) (MaxDurationTimer a) (StartTime a) (LastActivityTime a).
Definition set_TimeoutTimer (v : option nat) (a : ActiveDebate) : ActiveDebate :=
  mkActiveDebate (Debate_ a) (BotA a) (BotB a) (SupportingBot a) (OpposingBot a)
    (DebateLog a) (LastSpeaker a) (WaitingTimer a) v
    (InactivityTimer a) (MaxDurationTimer a) (StartTime a) (LastActivityTime a).
Definition set_InactivityTimer (v : option nat) (a : ActiveDebate) : ActiveDebate :=
  mkActiveDebate (Debate_ a) (BotA a) (BotB a) (SupportingBot a) (OpposingBot a)
    (DebateLog a) (LastSpeaker a) (WaitingTimer a) (TimeoutTimer a)
    v (MaxDurationTimer a) (StartTime a) (LastActivityTime a).
Definition set_MaxDurationTimer (v : option nat) (a : ActiveDebate) : ActiveDebate :=
  mkActiveDebate (Debate_ a) (BotA a) (BotB a) (SupportingBot a) (OpposingBot a)
    (DebateLog a) (LastSpeaker a) (WaitingTimer a) (TimeoutTimer a)
    (InactivityTimer a) v (StartTime a) (LastActivityTime a).
Definition set_StartTime (v : Time) (a : ActiveDebate) : ActiveDebate :=
  mkActiveDebate (Debate_ a) (BotA a) (BotB a) (SupportingBot a) (OpposingBot a)
    (DebateLog a) (LastSpeaker a) (WaitingTimer a) (TimeoutTimer a)
    (InactivityTimer a) (MaxDurationTimer a) v (LastActivityTime a).
Definition set_LastActivityTime (v : Time) (a : ActiveDebate) : ActiveDebate :=
  mkActiveDebate (Debate_ a) (BotA a) (BotB a) (SupportingBot a) (OpposingBot a)
    (DebateLog a) (LastSpeaker a) (WaitingTimer a) (TimeoutTimer a)
    (InactivityTimer a) (MaxDurationTimer a) (StartTime a) v.

(** Writes to the fields of [activeDebate.Debate]. *)
Definition set_Status (v : string) (a : ActiveDebate) : ActiveDebate :=
  let d := Debate_ a in
  set_Debate (mkDebate (ID d) (Topic d) (TotalRounds d) (CurrentRound d) v
                       (CreatedAt d) (UpdatedAt d)) a.
Definition set_CurrentRound (v : Z) (a : ActiveDebate) : ActiveDebate :=
  let d := Debate_ a in
  set_Debate (mkDebate (ID d) (Topic d) (TotalRounds d) v (Status d)
                       (CreatedAt d) (UpdatedAt d)) a.

(** Dereferencing a slot reference, and writing through it. *)
Definition slotBot (a : ActiveDebate) (s : Slot) : option ConnectedBot :=
  match s with SlotA => BotA a | SlotB => BotB a end.

Definition supporting (a : ActiveDebate) : option ConnectedBot :=
  match SupportingBot a with Some s => slotBot a s | None => None end.
Definition opposing (a : ActiveDebate) : option ConnectedBot :=
  match OpposingBot a with Some s => slotBot a s | None => None end.

Definition set_cb_Side (side : string) (c : ConnectedBot) : ConnectedBot :=
  {| cb_Bot := Db.set_side side (cb_Bot c); cb_Conn := cb_Conn c |}.

Definition set_slot_Side (s : Slot) (side : string) (a : ActiveDebate)
    : ActiveDebate :=
  match s with
  | SlotA => set_BotA (set_cb_Side side <$> BotA a) a
  | SlotB => set_BotB (set_cb_Side side <$> BotB a) a
  end.

(** Goroutines that were started and have not run yet. *)
Inductive Task :=
| TaskStartDebate (debateID : string)
| TaskTimer (tid : nat).

Record World := mkWorld {
  debates : gmap string ActiveDebate;   (* dm.debates *)
  db : Database;                        (* dm.db *)
  timers : list Timer;                  (* every timer ever created *)
  goroutines : list Task;
  written : list (Conn * Message);      (* WriteJSON on bot connections *)
  broadcast : list BroadcastMessage     (* sends on dm.broadcast *)
}.

Definition emptyWorld : World :=
  {| debates := ∅; db := emptyDatabase; timers := []; goroutines := [];
     written := []; broadcast := [] |}.

Definition set_debates (v : gmap string ActiveDebate) (w : World) : World :=
  mkWorld v (db w) (timers w) (goroutines w) (written w) (broadcast w).
Definition set_db (v : Database) (w : World) : World :=
  mkWorld (debates w) v (timers w) (goroutines w) (written w) (broadcast w).
Definition set_timers (v : list Timer) (w : World) : World :=
  mkWorld (debates w) (db w) v (goroutines w) (written w) (broadcast w).
Definition set_goroutines (v : list Task) (w : World) : World :=
  mkWorld (debates w) (db w) (timers w) v (written w) (broadcast w).
Definition set_written (v : list (Conn * Message)) (w : World) : World :=
  mkWorld (debates w) (db w) (timers w) (goroutines w) v (broadcast w).
Definition set_broadcast (v : list BroadcastMessage) (w : World) : World :=
  mkWorld (debates w) (db w) (timers w) (goroutines w) (written w) v.

(** ** The handler monad *)

Inductive Outcome (A : Type) :=
| Ok (a : A) (w : World)
| Panic.
Arguments Ok {A} a w.
Arguments Panic {A}.

Definition M (A : Type) : Type := World → Outcome A.

#[global] Instance M_ret : MRet M := λ A a w, Ok a w.
#[global] Instance M_bind : MBind M := λ A B k m w,
  match m w with
  | Ok a w' => k a w'
  | Panic => Panic
  end.

Definition panic {A} : M A := λ _, Panic.
Definition modify (f : World → World) : M unit := λ w, Ok () (f w).
Definition gets {A} (f : World → A) : M A := λ w, Ok (f w) w.

(** [dm.debates[id]] *)
Definition getDebate (debateID : string) : M (option ActiveDebate) :=
  gets (λ w, debates w !! debateID).

(** A read through the pointer [activeDebate] that the handler obtained
    from the registry. *)
Definition deref (debateID : string) : M ActiveDebate :=
  o ← getDebate debateID;
  match o with Some a => mret a | None => panic end.

(** A write through that pointer. *)
Definition assign (debateID : string) (f : ActiveDebate → ActiveDebate) : M unit :=
  modify (λ w, set_debates (alter f debateID (debates w)) w).

(** [conn.WriteJSON(msg)]; a nil connection is a nil dereference. *)
Definition WriteJSON (conn : option Conn) (msg : Message) : M unit :=
  match conn with
  | Some c => modify (λ w, set_written (written w ++ [(c, msg)]) w)
  | None => panic
  end.

(** [dm.broadcast <- BroadcastMessage{...}] *)
Definition send_broadcast (debateID : string) (msg : Message) : M unit :=
  modify (λ w, set_broadcast
                 (broadcast w ++ [ {| bm_DebateID := debateID; bm_Message := msg |} ]) w).

(** [time.AfterFunc(d, f)]: a new pending timer; the result is its handle. *)
Definition AfterFunc (kind : TimerKind) (debateID : string) : M nat :=
  λ w, Ok (length (timers w))
          (set_timers (timers w ++
             [ {| t_kind := kind; t_debate := debateID; t_status := Pending |} ]) w).

Definition stop_timer (t : Timer) : Timer :=
  match t_status t with
  | Pending => {| t_kind := t_kind t; t_debate := t_debate t; t_status := Stopped |}
  | _ => t
  end.

(** [if timer != nil { timer.Stop() }] *)
Definition Stop (handle : option nat) : M unit :=
  match handle with
  | Some tid => modify (λ w, set_timers (alter stop_timer tid (timers w)) w)
  | None => mret ()
  end.

(** Storage calls whose error result the manager drops. *)
Definition db_exec (f : Database → Database) : M unit :=
  modify (λ w, set_db (f (db w)) w).
Definition db_try (f : Database → option Database) : M unit :=
  modify (λ w, set_db (default (db w) (f (db w))) w).

(** ** The judge client ([chatgpt.go]) *)

(** The fields that [parseJudgeResponse] decodes. *)
Record JudgeData := mkJudgeData {
  jd_Winner : string;
  jd_SupportingScore : Z;
  jd_OpposingScore : Z;
  jd_Summary : string
}.

(** The client: its API key and the remote completion service.  The
    service is given what [JudgeDebate] renders into the prompt (topic,
    transcript, the two identifiers) and answers with the text of the first
    choice, or fails (transport error, timeout, non-200 status, undecodable
    body, no choice). *)
Record ChatGPTClient := mkChatGPTClient {
  APIKey : string;
  completion : string → list DebateLogEntry → string → string → option string
}.

(** The process-wide values the manager reads: [config], [chatgptClient]
    (nil when the judge is disabled), and the two library functions
    [strings.TrimSpace] and [json.Unmarshal] (into the judge's struct). *)
Record Env := mkEnv {
  config : DebateConfig;
  chatgptClient : option ChatGPTClient;
  TrimSpace : string → string;
  Unmarshal : string → option JudgeData
}.

(** A call that may return a value, return an error, or panic. *)
Inductive Res (A : Type) :=
| Val (a : A)
| Err
| Panicked.
Arguments Val {A} a.
Arguments Err {A}.
Arguments Panicked {A}.

(** [strings.Index(s, c)] and [strings.LastIndex(s, c)] for a one-byte [c];
    [None] is Go's [-1]. *)
Fixpoint Index (c : ascii) (s : string) : option nat :=
  match s with
  | EmptyString => None
  | String x s' =>
      if Ascii.eqb x c then Some 0%nat
      else S <$> Index c s'
  end.

Fixpoint LastIndex (c : ascii) (s : string) : option nat :=
  match s with
  | EmptyString => None
  | String x s' =>
      match LastIndex c s' with
      | Some i => Some (S i)
      | None => if Ascii.eqb x c then Some 0%nat else None
      end
  end.

(** [s[lo:hi]]; out-of-range bounds panic. *)
Definition slice (s : string) (lo hi : nat) : option string :=
  if ((lo <=? hi) && (hi <=? String.length s))%nat
  then Some (String.substring lo (hi - lo) s)
  else None.

Definition SendMessage (c : ChatGPTClient) (topic : string)
    (debateLog : list DebateLogEntry) (supportingBot opposingBot : string)
    : option string :=
  if String.eqb (APIKey c) "" || String.eqb (APIKey c) "your-api-key-here"
  then None
  else completion c topic debateLog supportingBot opposingBot.

Section Judge.

Variable env : Env.

Definition parseJudgeResponse (response : string) : Res DebateResult :=
  match Index "{"%char response, LastIndex "}"%char response with
  | Some startIdx, Some endIdx =>
      match slice response startIdx (endIdx + 1) with
      | None => Panicked
      | Some jsonStr =>
          match Unmarshal env jsonStr with
          | None => Err
          | Some judgeData =>
              let supportingScore :=
                if (jd_SupportingScore judgeData <? 0)
                   || (100 <? jd_SupportingScore judgeData)
                then 50 else jd_SupportingScore judgeData in
              let opposingScore :=
                if (jd_OpposingScore judgeData <? 0)
                   || (100 <? jd_OpposingScore judgeData)
                then 50 else jd_OpposingScore judgeData in
              let winner :=
                if negb (String.eqb (jd_Winner judgeData) "supporting")
                   && negb (String.eqb (jd_Winner judgeData) "opposing")
                   && negb (String.eqb (jd_Winner judgeData) "draw")
                then "draw" else jd_Winner judgeData in
              Val {| Winner := winner;
                     SupportingScore := supportingScore;
                     OpposingScore := opposingScore;
                     Summary := SumJudge (jd_Summary judgeData);
                     Reason := "" |}
          end
      end
  | _, _ => Err
  end.

Definition JudgeDebate (c : ChatGPTClient) (topic : string)
    (debateLog : list DebateLogEntry) (supportingBot opposingBot : string)
    : Res DebateResult :=
  match SendMessage c topic debateLog supportingBot opposingBot with
  | None => Err
  | Some response =>
      match parseJudgeResponse response with
      | Val result => Val result
      | Err =>
          (* If parsing fails, create a fallback result *)
          Val {| Winner := "draw";
                 SupportingScore := 50;
                 OpposingScore := 50;
                 Summary := SumJudgeUnparsed response;
                 Reason := "" |}
      | Panicked => Panicked
      end
  end.

(** ** The result synthesizer *)

Definition TrimPrefix (s prefix : string) : string :=
  if String.prefix prefix s
  then String.substring (String.length prefix)
                        (String.length s - String.length prefix) s
  else s.

Definition getReasonDescription (reason supportingBot opposingBot : string)
    : ReasonDesc :=
  if String.eqb reason "completed" then RdCompleted
  else if String.eqb reason "speech_timeout"
  then RdSpeechTimeout (SpeechTimeout (config env))
  else if String.eqb reason "inactivity_timeout"
  then RdInactivity (InactivityTimeout (config env))
  else if String.eqb reason "max_duration_timeout"
  then RdMaxDuration (MaxDuration (config env))
  else if String.prefix "bot_disconnected_" reason
  then RdBotDisconnected (TrimPrefix reason "bot_disconnected_")
  else if String.prefix "heartbeat_timeout_" reason
  then RdHeartbeatTimeout (TrimPrefix reason "heartbeat_timeout_")
  else RdOther reason.

(** The loop that counts the speeches of each side. *)
Definition countSpeeches (debateLog : list DebateLogEntry) : Z * Z :=
  fold_left (λ '(supportingCount, opposingCount) entry,
               if String.eqb (e_Side entry) "supporting"
               then (supportingCount + 1, opposingCount)
               else (supportingCount, opposingCount + 1))
            debateLog (0, 0).

Definition botID (b : option ConnectedBot) : string :=
  match b with
  | Some c => BotIdentifier (cb_Bot c)
  | None => "未连接"
  end.

(** The part of [generateDebateResult] after the judge: the simple
    scoring, from the two counts. *)
Definition fallbackResult (a : ActiveDebate) (status reason : string)
    (supportingCount opposingCount : Z) : DebateResult :=
  let supportingScore := 45 + supportingCount * 2 in
  let opposingScore := 45 + opposingCount * 2 in
  let supportingScore := if 50 <? supportingScore then 50 else supportingScore in
  let opposingScore := if 50 <? opposingScore then 50 else opposingScore in
  (* Normalize to 100 *)
  let total := supportingScore + opposingScore in
  let supportingScore := Z.quot (supportingScore * 100) total in
  let opposingScore := 100 - supportingScore in
  (* Only determine winner if both sides have spoken *)
  let winner :=
    if (0 <? supportingCount) && (0 <? opposingCount) then
      if opposingScore + 5 <? supportingScore then "supporting"
      else if supportingScore + 5 <? opposingScore then "opposing"
      else "none"
    else "none" in
  let supportingID := botID (supporting a) in
  let opposingID := botID (opposing a) in
  let reasonDesc := getReasonDescription reason supportingID opposingID in
  let summary :=
    if String.eqb status "timeout"
       && ((supportingCount =? 0) && (opposingCount =? 0))
    then SumTimeoutNoSpeech (Topic (Debate_ a)) supportingID opposingID reasonDesc
    else if String.eqb status "timeout"
            && ((supportingCount =? 0) || (opposingCount =? 0))
    then SumTimeoutOneSide (Topic (Debate_ a)) supportingID supportingCount
                           opposingID opposingCount reasonDesc
    else SumScored (Topic (Debate_ a)) supportingID supportingCount supportingScore
                   opposingID opposingCount opposingScore winner in
  {| Winner := winner;
     SupportingScore := supportingScore;
     OpposingScore := opposingScore;
     Summary := summary;
     Reason := reason |}.

Definition generateDebateResult (a : ActiveDebate) (status reason : string)
    : Res DebateResult :=
  let '(supportingCount, opposingCount) := countSpeeches (DebateLog a) in
  match chatgptClient env, supporting a, opposing a with
  | Some client, Some sup, Some opp =>
      if (0 <? supportingCount) && (0 <? opposingCount) then
        match JudgeDebate client (Topic (Debate_ a)) (DebateLog a)
                          (BotIdentifier (cb_Bot sup))
                          (BotIdentifier (cb_Bot opp)) with
        | Val result => Val result
        | Err => Val (fallbackResult a status reason supportingCount opposingCount)
        | Panicked => Panicked
        end
      else Val (fallbackResult a status reason supportingCount opposingCount)
  | _, _, _ => Val (fallbackResult a status reason supportingCount opposingCount)
  end.

End Judge.

(** ** The debate manager *)

(** [CurrentRound++] on a Go [int]. *)
Definition wrap64 (z : Z) : Z := (z + 2 ^ 63) mod 2 ^ 64 - 2 ^ 63.

Section Manager.

Variable env : Env.

(** [getNextSpeaker]; the result is absent where the Go code dereferences
    a nil side. *)
Definition getNextSpeaker (a : ActiveDebate) : option string :=
  if String.eqb (LastSpeaker a) "" then
    c ← supporting a; Some (BotIdentifier (cb_Bot c))
  else
    c ← supporting a;
    if String.eqb (LastSpeaker a) (BotIdentifier (cb_Bot c)) then
      o ← opposing a; Some (BotIdentifier (cb_Bot o))
    else Some (BotIdentifier (cb_Bot c)).

Definition startTimeout (debateID speaker : string) : M unit :=
  o ← getDebate debateID;
  match o with
  | None => mret ()
  | Some _ =>
      tid ← AfterFunc (SpeechT speaker) debateID;
      assign debateID (set_TimeoutTimer (Some tid))
  end.

Definition startInactivityTimer (debateID : string) : M unit :=
  o ← getDebate debateID;
  match o with
  | None => mret ()
  | Some _ =>
      tid ← AfterFunc InactivityT debateID;
      assign debateID (set_InactivityTimer (Some tid))
  end.

Definition resetInactivityTimer (debateID : string) : M unit :=
  o ← getDebate debateID;
  match o with
  | None => mret ()
  | Some a =>
      Stop (InactivityTimer a);;
      startInactivityTimer debateID
  end.

Definition startMaxDurationTimer (debateID : string) : M unit :=
  o ← getDebate debateID;
  match o with
  | None => mret ()
  | Some _ =>
      tid ← AfterFunc MaxDurationT debateID;
      assign debateID (set_MaxDurationTimer (Some tid))
  end.

Definition startWaitingTimer (debateID : string) : M unit :=
  o ← getDebate debateID;
  match o with
  | None => mret ()
  | Some _ =>
      tid ← AfterFunc WaitingT debateID;
      assign debateID (set_WaitingTimer (Some tid))
  end.

(** The closure armed by [startWaitingTimer]. *)
Definition waitingTimeout (debateID : string) (now : Time) : M unit :=
  o ← getDebate debateID;
  match o with
  | None => mret ()
  | Some debate =>
      (* Check if debate is still in waiting state *)
      if String.eqb (Status (Debate_ debate)) "waiting" then
        db_exec (λ d, Db.UpdateDebateStatus d debateID "timeout" now);;
        assign debateID (set_Status "timeout");;
        (* Clean up from active debates map *)
        modify (λ w, set_debates (delete debateID (debates w)) w)
      else mret ()
  end.

Definition CreateDebate (uuid topic : string) (totalRounds : Z) (now : Time)
    : M (option Debate) :=
  let debate :=
    {| ID := "debate-" ++ uuid; Topic := topic; TotalRounds := totalRounds;
       CurrentRound := 1; Status := "waiting";
       CreatedAt := now; UpdatedAt := now |} in
  d ← gets db;
  match Db.CreateDebate d debate with
  | None => mret None
  | Some d' =>
      modify (set_db d');;
      modify (λ w, set_debates (<[ID debate := newActiveDebate debate]> (debates w)) w);;
      startWaitingTimer (ID debate);;
      mret (Some debate)
  end.

(** The HTTP entry point in front of [CreateDebate]. *)
Definition handleCreateDebate (uuid topic : string) (totalRounds : Z)
    (now : Time) : M (option Debate) :=
  if String.eqb topic "" then mret None
  else CreateDebate uuid topic (if totalRounds <=? 0 then 5 else totalRounds) now.

Definition rejected (reason message debateID : string) (retryAfter : Z)
    : LoginRejected :=
  {| rej_Status := "rejected"; rej_Reason := reason; rej_Message := message;
     rej_DebateID := debateID; rej_RetryAfter := retryAfter |}.

(** The first part of [BotLogin]: the debate the login is for.  The
    request's [DebateID] is overwritten with the auto-assigned one. *)
Definition resolveDebate (loginReq : LoginRequest)
    : M (LoginRejected + (string * ActiveDebate)) :=
  d ← gets db;
  let assigned :=
    if String.eqb (lr_DebateID loginReq) "" then
      (* If no debate_id provided, auto-assign an available debate *)
      match Db.GetAvailableDebate d with
      | None => None
      | Some availableDebate => Some (ID availableDebate)
      end
    else Some (lr_DebateID loginReq) in
  match assigned with
  | None =>
      mret (inl (rejected "no_available_debate"
        "No available debates found. Please create a debate first or specify a debate_id."
        "" 0))
  | Some debateID =>
      o ← getDebate debateID;
      match o with
      | Some activeDebate => mret (inr (debateID, activeDebate))
      | None =>
          (* Try to load from database *)
          match Db.GetDebate d debateID with
          | None =>
              mret (inl (rejected "debate_not_found" "Debate not found" debateID 0))
          | Some debate =>
              if negb (String.eqb (Status debate) "waiting") then
                mret (inl (rejected "debate_not_ready"
                                    "Debate not ready yet, try later" debateID 5))
              else
                let activeDebate := newActiveDebate debate in
                modify (λ w, set_debates (<[debateID := activeDebate]> (debates w)) w);;
                mret (inr (debateID, activeDebate))
          end
      end
  end.

Definition joined (b : option ConnectedBot) : list string :=
  match b with Some c => [BotIdentifier (cb_Bot c)] | None => [] end.

Definition joinedExcept (botIdentifier : string) (b : option ConnectedBot)
    : list string :=
  match b with
  | Some c =>
      if negb (String.eqb (BotIdentifier (cb_Bot c)) botIdentifier)
      then [BotIdentifier (cb_Bot c)] else []
  | None => []
  end.

Definition BotLogin (loginReq : LoginRequest) (conn : Conn)
    (debateKey : string) (now : Time) : M (LoginConfirmed + LoginRejected) :=
  r ← resolveDebate loginReq;
  match r with
  | inl rej => mret (inr rej)
  | inr (debateID, activeDebate) =>
      (* Check if debate is full *)
      if bool_decide (is_Some (BotA activeDebate))
         && bool_decide (is_Some (BotB activeDebate))
      then mret (inr (rejected "debate_full" "Debate already has two bots" debateID 0))
      else
        (* Generate bot identifier and debate key *)
        match slice (lr_BotUUID loginReq) 0 8 with
        | None => panic
        | Some prefix =>
            let botIdentifier := lr_BotName loginReq ++ "-" ++ prefix in
            let bot :=
              {| BotName := lr_BotName loginReq; BotUUID := lr_BotUUID loginReq;
                 BotIdentifier := botIdentifier; DebateID := debateID;
                 DebateKey := debateKey; Side := ""; ConnectedAt := now |} in
            d ← gets db;
            match Db.AddBot d bot with
            | None =>
                mret (inr (rejected "internal_error" "Failed to register bot" debateID 0))
            | Some d' =>
                modify (set_db d');;
                let connectedBot := {| cb_Bot := bot; cb_Conn := Some conn |} in
                (* Assign bot slot *)
                let activeDebate :=
                  match BotA activeDebate with
                  | None => set_BotA (Some connectedBot) activeDebate
                  | Some _ => set_BotB (Some connectedBot) activeDebate
                  end in
                assign debateID (λ _, activeDebate);;
                let joinedBots :=
                  (joinedExcept botIdentifier (BotA activeDebate)
                   ++ joinedExcept botIdentifier (BotB activeDebate))%list in
                let allJoinedBots :=
                  (joined (BotA activeDebate) ++ joined (BotB activeDebate))%list in
                send_broadcast debateID
                  (createMessage "debate_waiting" (DataDebateWaiting
                     {| dw_DebateID := debateID;
                        dw_Topic := Topic (Debate_ activeDebate);
                        dw_TotalRounds := TotalRounds (Debate_ activeDebate);
                        dw_Status := "waiting";
                        dw_JoinedBots := allJoinedBots |}));;
                (* If both bots are connected, start debate *)
                (if bool_decide (is_Some (BotA activeDebate))
                    && bool_decide (is_Some (BotB activeDebate))
                 then modify (λ w, set_goroutines
                                     (goroutines w ++ [TaskStartDebate debateID]) w)
                 else mret ());;
                mret (inl {| lc_Status := "confirmed";
                             lc_Message := "Wait for other bot";
                             lc_DebateID := debateID;
                             lc_DebateKey := debateKey;
                             lc_BotIdentifier := botIdentifier;
                             lc_Topic := Topic (Debate_ activeDebate);
                             lc_JoinedBots := joinedBots |})
            end
        end
  end.

(** [endDebate]: the terminal transition. *)
Definition endDebate (debateID status reason : string) (now : Time) : M unit :=
  o ← getDebate debateID;
  match o with
  | None => mret ()
  | Some activeDebate =>
      (* Cancel any pending timers *)
      Stop (WaitingTimer activeDebate);;
      Stop (TimeoutTimer activeDebate);;
      Stop (InactivityTimer activeDebate);;
      Stop (MaxDurationTimer activeDebate);;
      (* Update status *)
      db_exec (λ d, Db.UpdateDebateStatus d debateID status now);;
      assign debateID (set_Status status);;
      activeDebate ← deref debateID;
      match generateDebateResult env activeDebate status reason with
      | Err | Panicked => panic
      | Val result =>
          (* Save result *)
          db_try (λ d, Db.SaveDebateResult d debateID result);;
          let endMsg := createMessage "debate_end" (DataDebateEnd
            {| de_DebateID := debateID;
               de_Topic := Topic (Debate_ activeDebate);
               de_SupportingSide := botID (supporting activeDebate);
               de_OpposingSide := botID (opposing activeDebate);
               de_TotalRounds := TotalRounds (Debate_ activeDebate);
               de_Status := status;
               de_DebateLog := DebateLog activeDebate;
               de_DebateResult := result |}) in
          match supporting activeDebate with
          | Some {| cb_Conn := Some c |} => WriteJSON (Some c) endMsg
          | _ => mret ()
          end;;
          match opposing activeDebate with
          | Some {| cb_Conn := Some c |} => WriteJSON (Some c) endMsg
          | _ => mret ()
          end;;
          (* Broadcast to frontend *)
          send_broadcast debateID endMsg
      end
  end.

Definition startDebate (debateID : string) (coin : bool) (now : Time) : M unit :=
  o ← getDebate debateID;
  match o with
  | None => mret ()
  | Some activeDebate =>
      (* Cancel waiting timer since both bots are connected *)
      match WaitingTimer activeDebate with
      | Some tid => Stop (Some tid);; assign debateID (set_WaitingTimer None)
      | None => mret ()
      end;;
      (* Randomly assign sides *)
      let refA := match BotA activeDebate with
                  | Some _ => Some SlotA | None => None end in
      let refB := match BotB activeDebate with
                  | Some _ => Some SlotB | None => None end in
      (if coin then assign debateID (set_sides refA refB)
       else assign debateID (set_sides refB refA));;
      activeDebate ← deref debateID;
      match SupportingBot activeDebate, OpposingBot activeDebate,
            supporting activeDebate, opposing activeDebate with
      | Some supSlot, Some oppSlot, Some sup, Some opp =>
          let supportingID := BotIdentifier (cb_Bot sup) in
          let opposingID := BotIdentifier (cb_Bot opp) in
          (* Update sides in database *)
          db_exec (λ d, Db.UpdateBotSide d debateID supportingID "supporting");;
          db_exec (λ d, Db.UpdateBotSide d debateID opposingID "opposing");;
          assign debateID (set_slot_Side supSlot "supporting");;
          assign debateID (set_slot_Side oppSlot "opposing");;
          (* Update debate status *)
          db_exec (λ d, Db.UpdateDebateStatus d debateID "active" now);;
          assign debateID (set_Status "active");;
          activeDebate ← deref debateID;
          match supporting activeDebate, opposing activeDebate with
          | Some sup, Some opp =>
              let start yourSide yourIdentifier :=
                createMessage "debate_start" (DataDebateStart
                  {| ds_DebateID := debateID;
                     ds_Topic := Topic (Debate_ activeDebate);
                     ds_SupportingSide := supportingID;
                     ds_OpposingSide := opposingID;
                     ds_TotalRounds := TotalRounds (Debate_ activeDebate);
                     ds_CurrentRound := 1;
                     ds_YourSide := yourSide;
                     ds_YourIdentifier := yourIdentifier;
                     ds_NextSpeaker := supportingID;
                     ds_TimeoutSeconds := 120;
                     ds_MinContentLength := MinContentLength (config env);
                     ds_MaxContentLength := MaxContentLength (config env) |}) in
              let startMsgA := start (Side (cb_Bot sup)) supportingID in
              let startMsgB := start (Side (cb_Bot opp)) opposingID in
              WriteJSON (cb_Conn sup) startMsgA;;
              WriteJSON (cb_Conn opp) startMsgB;;
              (* Broadcast to frontend *)
              send_broadcast debateID startMsgA;;
              (* Set timing *)
              assign debateID (set_StartTime now);;
              assign debateID (set_LastActivityTime now);;
              assign debateID (set_LastSpeaker "");;
              (* Start timers *)
              startTimeout debateID supportingID;;
              startInactivityTimer debateID;;
              startMaxDurationTimer debateID
          | _, _ => panic
          end
      | _, _, _, _ => panic
      end
  end.

Definition sendDebateUpdate (debateID nextSpeaker : string) : M unit :=
  activeDebate ← deref debateID;
  match supporting activeDebate, opposing activeDebate with
  | Some sup, Some opp =>
      let update yourSide yourIdentifier :=
        createMessage "debate_update" (DataDebateUpdate
          {| du_DebateID := ID (Debate_ activeDebate);
             du_Topic := Topic (Debate_ activeDebate);
             du_SupportingSide := BotIdentifier (cb_Bot sup);
             du_OpposingSide := BotIdentifier (cb_Bot opp);
             du_TotalRounds := TotalRounds (Debate_ activeDebate);
             du_CurrentRound := CurrentRound (Debate_ activeDebate);
             du_YourSide := yourSide;
             du_YourIdentifier := yourIdentifier;
             du_NextSpeaker := nextSpeaker;
             du_TimeoutSeconds := 120;
             du_MinContentLength := MinContentLength (config env);
             du_MaxContentLength := MaxContentLength (config env);
             du_DebateLog := DebateLog activeDebate |}) in
      let updateMsgA := update "supporting" (BotIdentifier (cb_Bot sup)) in
      let updateMsgB := update "opposing" (BotIdentifier (cb_Bot opp)) in
      WriteJSON (cb_Conn sup) updateMsgA;;
      WriteJSON (cb_Conn opp) updateMsgB;;
      (* Broadcast to frontend *)
      send_broadcast (ID (Debate_ activeDebate)) updateMsgA
  | _, _ => panic
  end.

Definition errorMessage (code message debateID : string) (recoverable : bool)
    : ErrorMessage :=
  {| ErrorCode := code; em_Message := message; em_DebateID := debateID;
     Recoverable := recoverable |}.

(** The bot that [speech.Speaker] names, if it is one of the two sides. *)
Definition speakerOf (a : ActiveDebate) (speaker : string) : option ConnectedBot :=
  match supporting a with
  | Some c =>
      if String.eqb (BotIdentifier (cb_Bot c)) speaker then Some c
      else match opposing a with
           | Some o => if String.eqb (BotIdentifier (cb_Bot o)) speaker
                       then Some o else None
           | None => None
           end
  | None =>
      match opposing a with
      | Some o => if String.eqb (BotIdentifier (cb_Bot o)) speaker
                  then Some o else None
      | None => None
      end
  end.

Definition HandleSpeech (speech : DebateSpeech) (now : Time)
    : M (option ErrorMessage) :=
  let debateID := sp_DebateID speech in
  o ← getDebate debateID;
  match o with
  | None =>
      mret (Some (errorMessage "DEBATE_NOT_FOUND" "Debate not found" debateID false))
  | Some activeDebate =>
      (* Verify debate key *)
      match speakerOf activeDebate (sp_Speaker speech) with
      | None =>
          mret (Some (errorMessage "INVALID_DEBATE_KEY" "Invalid debate key"
                                   debateID false))
      | Some speakerBot =>
          if negb (String.eqb (DebateKey (cb_Bot speakerBot)) (sp_DebateKey speech))
          then mret (Some (errorMessage "INVALID_DEBATE_KEY" "Invalid debate key"
                                        debateID false))
          else
            (* Check turn *)
            match getNextSpeaker activeDebate with
            | None => panic
            | Some expectedSpeaker =>
                if negb (String.eqb (sp_Speaker speech) expectedSpeaker)
                then mret (Some (errorMessage "NOT_YOUR_TURN"
                                   "It's not your turn to speak" debateID true))
                else
                  (* Cancel timeout *)
                  Stop (TimeoutTimer activeDebate);;
                  (* Update last activity time and reset inactivity timer *)
                  assign debateID (set_LastActivityTime now);;
                  resetInactivityTimer debateID;;
                  (* Validate content length *)
                  let contentLen :=
                    Z.of_nat (String.length
                                (TrimSpace env (Content (sp_Message speech)))) in
                  if contentLen <? MinContentLength (config env)
                  then mret (Some (errorMessage "CONTENT_TOO_SHORT"
                                     ("Speech content too short (minimum "
                                      ++ pretty (MinContentLength (config env))
                                      ++ " characters)")
                                     debateID true))
                  else if MaxContentLength (config env) <? contentLen
                  then mret (Some (errorMessage "CONTENT_TOO_LONG"
                                     ("Speech content too long (maximum "
                                      ++ pretty (MaxContentLength (config env))
                                      ++ " characters)")
                                     debateID true))
                  else
                    (* Add to debate log *)
                    let logEntry :=
                      {| e_Round := CurrentRound (Debate_ activeDebate);
                         e_Speaker := sp_Speaker speech;
                         e_Side := Side (cb_Bot speakerBot);
                         e_Timestamp := now;
                         e_Message := sp_Message speech |} in
                    assign debateID
                      (λ a, set_DebateLog (DebateLog a ++ [logEntry]) a);;
                    assign debateID (set_LastSpeaker (sp_Speaker speech));;
                    (* Save to database *)
                    db_exec (λ d, Db.AddDebateLog d logEntry debateID);;
                    (* Determine next speaker and update round *)
                    activeDebate ← deref debateID;
                    match supporting activeDebate with
                    | None => panic
                    | Some sup =>
                        if String.eqb (sp_Speaker speech) (BotIdentifier (cb_Bot sup))
                        then
                          (* Supporting spoke, opposing is next *)
                          match opposing activeDebate with
                          | None => panic
                          | Some opp =>
                              let nextSpeaker := BotIdentifier (cb_Bot opp) in
                              sendDebateUpdate debateID nextSpeaker;;
                              startTimeout debateID nextSpeaker;;
                              mret None
                          end
                        else
                          (* Opposing spoke, round complete *)
                          let round := wrap64 (CurrentRound (Debate_ activeDebate) + 1) in
                          assign debateID (set_CurrentRound round);;
                          db_exec (λ d, Db.UpdateDebateRound d debateID round now);;
                          (* Check if debate is complete *)
                          if TotalRounds (Debate_ activeDebate) <? round
                          then
                            endDebate debateID "completed" "completed" now;;
                            mret None
                          else
                            let nextSpeaker := BotIdentifier (cb_Bot sup) in
                            sendDebateUpdate debateID nextSpeaker;;
                            startTimeout debateID nextSpeaker;;
                            mret None
                    end
            end
      end
  end.

Definition HandleBotDisconnect (debateID botIdentifier reason : string)
    (now : Time) : M unit :=
  o ← getDebate debateID;
  match o with
  | None => mret ()
  | Some activeDebate =>
      (* Only end debate if it's currently active *)
      if String.eqb (Status (Debate_ activeDebate)) "active" then
        let detailedReason := reason ++ "_" ++ botIdentifier in
        endDebate debateID "timeout" detailedReason now
      else mret ()
  end.

(** The function a timer was armed with. *)
Definition timerCallback (t : Timer) (now : Time) : M unit :=
  match t_kind t with
  | WaitingT => waitingTimeout (t_debate t) now
  | SpeechT _ => endDebate (t_debate t) "timeout" "speech_timeout" now
  | InactivityT => endDebate (t_debate t) "timeout" "inactivity_timeout" now
  | MaxDurationT => endDebate (t_debate t) "timeout" "max_duration_timeout" now
  end.

(** ** The server as a transition system

    What can happen to the manager: a request or frame arrives, a
    connection is lost, a pending timer expires (its callback becomes a
    goroutine), or a spawned goroutine runs. *)
Inductive Event :=
| EvCreate (uuid topic : string) (totalRounds : Z) (now : Time)
| EvLogin (loginReq : LoginRequest) (conn : Conn) (debateKey : string) (now : Time)
| EvSpeech (speech : DebateSpeech) (now : Time)
| EvDisconnect (debateID botIdentifier reason : string) (now : Time)
| EvExpire (tid : nat)
| EvRun (i : nat) (coin : bool) (now : Time).

Definition fire_timer (t : Timer) : Timer :=
  {| t_kind := t_kind t; t_debate := t_debate t; t_status := Fired |}.

Definition expire (tid : nat) : M unit :=
  ts ← gets timers;
  match ts !! tid with
  | Some {| t_status := Pending |} =>
      modify (λ w, set_timers (alter fire_timer tid (timers w)) w);;
      modify (λ w, set_goroutines (goroutines w ++ [TaskTimer tid]) w)
  | _ => mret ()
  end.

Definition runTask (i : nat) (coin : bool) (now : Time) : M unit :=
  gs ← gets goroutines;
  match gs !! i with
  | None => mret ()
  | Some task =>
      modify (λ w, set_goroutines (delete i (goroutines w)) w);;
      match task with
      | TaskStartDebate debateID => startDebate debateID coin now
      | TaskTimer tid =>
          ts ← gets timers;
          match ts !! tid with
          | Some t => timerCallback t now
          | None => mret ()
          end
      end
  end.

Definition step (ev : Event) : M unit :=
  match ev with
  | EvCreate uuid topic totalRounds now =>
      handleCreateDebate uuid topic totalRounds now;; mret ()
  | EvLogin loginReq conn debateKey now =>
      BotLogin loginReq conn debateKey now;; mret ()
  | EvSpeech speech now => HandleSpeech speech now;; mret ()
  | EvDisconnect debateID botIdentifier reason now =>
      HandleBotDisconnect debateID botIdentifier reason now
  | EvExpire tid => expire tid
  | EvRun i coin now => runTask i coin now
  end.

Fixpoint run (evs : list Event) : M unit :=
  match evs with
  | [] => mret ()
  | ev :: evs' => step ev;; run evs'
  end.

End Manager.

(** ** A concrete environment

    Used to run the manager on concrete inputs: the default configuration,
    and [strings.TrimSpace] restricted to the ASCII white space it removes
    (tab, line feed, vertical tab, form feed, carriage return, space). *)

Definition isSpace (c : ascii) : bool :=
  let n := nat_of_ascii c in
  ((9 <=? n) && (n <=? 13) || (n =? 32))%nat.

Fixpoint trimLeft (s : string) : string :=
  match s with
  | String c s' => if isSpace c then trimLeft s' else s
  | EmptyString => EmptyString
  end.

Fixpoint trimRight (s : string) : string :=
  match s with
  | String c s' =>
      match trimRight s' with
      | EmptyString => if isSpace c then EmptyString else String c EmptyString
      | t => String c t
      end
  | EmptyString => EmptyString
  end.

Definition asciiTrimSpace (s : string) : string := trimRight (trimLeft s).

(** No judge configured: [chatgptClient] is nil. *)
Definition envNoJudge : Env :=
  {| config := defaultConfig; chatgptClient := None;
     TrimSpace := asciiTrimSpace; Unmarshal := λ _, None |}.

(** ** Concrete sessions

    One debate "T" created through the HTTP entry point, joined by two bots
    without a session id, and started with the first bot supporting. *)

Definition loginAlpha : LoginRequest :=
  {| lr_BotName := "alpha"; lr_BotUUID := "aaaaaaaa-1"; lr_DebateID := "" |}.
Definition loginBeta : LoginRequest :=
  {| lr_BotName := "beta"; lr_BotUUID := "bbbbbbbb-2"; lr_DebateID := "" |}.

Definition created (totalRounds : Z) : list Event :=
  [ EvCreate "u1" "T" totalRounds 10 ].

Definition joinedOnce (totalRounds : Z) : list Event :=
  (created totalRounds ++ [ EvLogin loginAlpha 1%nat "key-a" 11 ])%list.

Definition started (totalRounds : Z) : list Event :=
  (joinedOnce totalRounds ++
   [ EvLogin loginBeta 2%nat "key-b" 12;
     EvRun 0 true 13 ])%list.

(** A speech of 61 bytes, within the default bounds [50, 2000]. *)
Definition content61 : string :=
  "0123456789012345678901234567890123456789012345678901234567890".

Definition speechOf (speaker debateKey content : string) : DebateSpeech :=
  {| sp_DebateID := "debate-u1"; sp_DebateKey := debateKey;
     sp_Speaker := speaker;
     sp_Message := {| Format := "markdown"; Content := content |} |}.

Definition alphaSpeaks : DebateSpeech := speechOf "alpha-aaaaaaaa" "key-a" content61.
Definition betaSpeaks : DebateSpeech := speechOf "beta-bbbbbbbb" "key-b" content61.

(** Observations of the outcome of a run. *)
Definition observe {A} (f : World → A) (o : Outcome unit) : option A :=
  match o with
  | Ok _ w => Some (f w)
  | Panic => None
  end.

Definition session (debateID : string) (w : World) : option ActiveDebate :=
  debates w !! debateID.

Definition isDebateEnd (m : Message) : bool := String.eqb (msg_Type m) "debate_end".

(** The [debate_end] events queued for the observers of a debate, and the
    [debate_end] frames written to one connection. *)
Definition endBroadcasts (debateID : string) (w : World) : list Message :=
  List.filter isDebateEnd
    (map bm_Message
       (List.filter (λ b, String.eqb (bm_DebateID b) debateID) (broadcast w))).

Definition endFrames (c : Conn) (w : World) : list Message :=
  List.filter isDebateEnd
    (map snd (List.filter (λ p, Nat.eqb (fst p) c) (written w))).

Definition pendingTimers (w : World) : list Timer :=
  List.filter (λ t, match t_status t with Pending => true | _ => false end)
              (timers w).

(** ** The scoring rule in the words of the specification *)

(** "score = 45 + 2 x (utterance count for that side), capped at 50". *)
Definition rawScore (count : Z) : Z := Z.min 50 (45 + 2 * count).

(** "winner is the higher score if the margin exceeds 5 points, else draw
    (or none if either side never spoke)". *)
Definition specWinner (supportingCount opposingCount supportingScore opposingScore : Z)
    : string :=
  if (supportingCount =? 0) || (opposingCount =? 0) then "none"
  else if opposingScore + 5 <? supportingScore then "supporting"
  else if supportingScore + 5 <? opposingScore then "opposing"
  else "draw".

(** The utterances of a transcript: the entries tagged supporting, and all
    the others (the manager only ever tags an entry supporting or
    opposing). *)
Definition isSupporting (e : DebateLogEntry) : bool :=
  String.eqb (e_Side e) "supporting".

Definition supportingUtterances (debateLog : list DebateLogEntry) : Z :=
  Z.of_nat (length (List.filter isSupporting debateLog)).
Definition opposingUtterances (debateLog : list DebateLogEntry) : Z :=
  Z.of_nat (length (List.filter (λ e, negb (isSupporting e)) debateLog)).

(** The rule the scorer implements: as [specWinner], with [none] where the
    specification says [draw]. *)
Definition scoredWinner (supportingCount opposingCount supportingScore opposingScore : Z)
    : string :=
  if (supportingCount =? 0) || (opposingCount =? 0) then "none"
  else if opposingScore + 5 <? supportingScore then "supporting"
  else if supportingScore + 5 <? opposingScore then "opposing"
  else "none".

(** Whether [generateDebateResult] consults the judge and the completion
    service answers: the judge is configured, both sides are assigned, both
    have spoken, and [SendMessage] returns text. *)
Definition judgeAnswers (env : Env) (a : ActiveDebate) : option string :=
  match chatgptClient env, supporting a, opposing a with
  | Some client, Some sup, Some opp =>
      if (0 <? supportingUtterances (DebateLog a))
         && (0 <? opposingUtterances (DebateLog a))
      then SendMessage client (Topic (Debate_ a)) (DebateLog a)
                       (BotIdentifier (cb_Bot sup)) (BotIdentifier (cb_Bot opp))
      else None
  | _, _, _ => None
  end.

(** A one-round debate in which both sides spoke once. *)
Definition finishedOnce : list Event :=
  (started 1 ++ [ EvSpeech alphaSpeaks 14; EvSpeech betaSpeaks 15 ])%list.

Definition persistedResult (debateID : string) (w : World)
    : option (string * Z * Z) :=
  (λ r, (rr_winner r, rr_supporting_score r, rr_opposing_score r))
    <$> Db.GetDebateResult (db w) debateID.

(** ** The judge's validation in the words of the specification *)

(** "both scores lie in [0,100], clamping to neutral defaults otherwise". *)
Definition validScore (score : Z) : Z :=
  if (0 <=? score) && (score <=? 100) then score else 50.

Definition allowedWinner (winner : string) : bool :=
  String.eqb winner "supporting" || String.eqb winner "opposing"
  || String.eqb winner "draw".

(** "its winner is one of the three allowed values". *)
Definition validWinner (winner : string) : string :=
  if allowedWinner winner then winner else "draw".

Definition validated (jd : JudgeData) : DebateResult :=
  {| Winner := validWinner (jd_Winner jd);
     SupportingScore := validScore (jd_SupportingScore jd);
     OpposingScore := validScore (jd_OpposingScore jd);
     Summary := SumJudge (jd_Summary jd);
     Reason := "" |}.

(** The neutral result [JudgeDebate] builds around a reply it cannot parse. *)
Definition unparsedResult (response : string) : DebateResult :=
  {| Winner := "draw"; SupportingScore := 50; OpposingScore := 50;
     Summary := SumJudgeUnparsed response; Reason := "" |}.

(** The best-effort extraction of [parseJudgeResponse]: from the first
    opening brace to the last closing brace. *)
Definition extractJSON (response : string) : Res string :=
  match Index "{"%char response, LastIndex "}"%char response with
  | Some startIdx, Some endIdx =>
      match slice response startIdx (endIdx + 1) with
      | Some jsonStr => Val jsonStr
      | None => Panicked
      end
  | _, _ => Err
  end.

(** Whether [generateDebateResult] calls the judge, and with what answer
    from [SendMessage]. *)
Definition judgeInvoked (env : Env) (a : ActiveDebate) : option (option string) :=
  match chatgptClient env, supporting a, opposing a with
  | Some client, Some sup, Some opp =>
      if (0 <? supportingUtterances (DebateLog a))
         && (0 <? opposingUtterances (DebateLog a))
      then Some (SendMessage client (Topic (Debate_ a)) (DebateLog a)
                             (BotIdentifier (cb_Bot sup)) (BotIdentifier (cb_Bot opp)))
      else None
  | _, _, _ => None
  end.

(** Environments with a judge whose service always gives the same answer. *)
Definition judgeClient (answer : option string) : ChatGPTClient :=
  {| APIKey := "sk-test"; completion := λ _ _ _ _, answer |}.

Definition envJudge (answer : option string) (decode : string → option JudgeData)
    : Env :=
  {| config := defaultConfig; chatgptClient := Some (judgeClient answer);
     TrimSpace := asciiTrimSpace; Unmarshal := decode |}.

(** A reply in prose, without any JSON object. *)
Definition proseReply : string := "The supporting side was more convincing.".
Definition envProse : Env := envJudge (Some proseReply) (λ _, None).

(** A reply that wraps a JSON object in prose; the object has an
    out-of-range score and a winner that is not an allowed value:
    [Verdict: {"winner": "alpha", "supporting_score": 150,
    "opposing_score": 30, "summary": "alpha was better"} Thanks.] *)
Definition quoted (s : string) : string :=
  String (ascii_of_nat 34) (s ++ String (ascii_of_nat 34) EmptyString).

Definition oddBody : string :=
  quoted "winner" ++ ": " ++ quoted "alpha" ++ ", "
  ++ quoted "supporting_score" ++ ": 150, "
  ++ quoted "opposing_score" ++ ": 30, "
  ++ quoted "summary" ++ ": " ++ quoted "alpha was better".

Definition oddJSON : string := "{" ++ oddBody ++ "}".
Definition oddReply : string := "Verdict: " ++ oddJSON ++ " Thanks.".

(** What [json.Unmarshal] decodes [oddJSON] to. *)
Definition oddData : JudgeData :=
  {| jd_Winner := "alpha"; jd_SupportingScore := 150; jd_OpposingScore := 30;
     jd_Summary := "alpha was better" |}.

(** [json.Unmarshal] on the texts this judge gives rise to: the object of
    its reply is decoded, and text that is not JSON is refused. *)
Definition envOdd : Env :=
  envJudge (Some oddReply)
    (λ s, if String.eqb s oddJSON then Some oddData else None).

(** The same judge behind a client whose API key was left at the
    placeholder of the sample configuration. *)
Definition envPlaceholderKey : Env :=
  {| config := defaultConfig;
     chatgptClient := Some {| APIKey := "your-api-key-here";
                              completion := λ _ _ _ _, Some oddReply |};
     TrimSpace := asciiTrimSpace;
     Unmarshal := Unmarshal envOdd |}.

(** ** Join requests *)

(** Both slots of a session are filled. *)
Definition full (a : ActiveDebate) : bool :=
  bool_decide (is_Some (BotA a)) && bool_decide (is_Some (BotB a)).

Definition withDebateID (debateID : string) (loginReq : LoginRequest)
    : LoginRequest :=
  {| lr_BotName := lr_BotName loginReq; lr_BotUUID := lr_BotUUID loginReq;
     lr_DebateID := debateID |}.

(** A third bot that asks for the running debate by its id. *)
Definition loginGamma : LoginRequest :=
  {| lr_BotName := "gamma"; lr_BotUUID := "cccccccc-3"; lr_DebateID := "debate-u1" |}.

(** A debate whose join-wait timer expired and ran before anyone joined. *)
Definition waitedOut : list Event :=
  (created 1 ++ [ EvExpire 0; EvRun 0 true 20 ])%list.

(** ** Runs that reach a terminal session *)

Fixpoint replicate_string (n : nat) (c : ascii) : string :=
  match n with
  | O => EmptyString
  | S n' => String c (replicate_string n' c)
  end.

(** Speeches of the supporting bot, whose turn it is, that are too short
    (empty) and too long (2001 bytes) for the default bounds. *)
Definition alphaEmpty : DebateSpeech := speechOf "alpha-aaaaaaaa" "key-a" "".
Definition alphaLong : DebateSpeech :=
  speechOf "alpha-aaaaaaaa" "key-a" (replicate_string 2001 "x"%char).

(** The first speaker lets the speech timer (timer 1) run out; the callback
    ends the debate with status timeout. *)
Definition timedOut : list Event :=
  (started 1 ++ [ EvExpire 1; EvRun 0 true 133 ])%list.

(** After that, both bots go on speaking on their open connections. *)
Definition timedOutThenAlpha : list Event :=
  (timedOut ++ [ EvSpeech alphaSpeaks 140 ])%list.
Definition timedOutThenBoth : list Event :=
  (timedOutThenAlpha ++ [ EvSpeech betaSpeaks 150 ])%list.

(** After the timeout and the late speech of the supporting bot, the
    speech timer that this speech armed for the opposing bot (timer 5) runs
    out as well. *)
Definition timedOutTwice : list Event :=
  (timedOutThenAlpha ++ [ EvExpire 5; EvRun 0 true 260 ])%list.

(** [n] speeches in turn, 116 seconds apart. *)
Fixpoint exchange (n : nat) (t : Z) (alphaTurn : bool) : list Event :=
  match n with
  | O => []
  | S n' =>
      EvSpeech (if alphaTurn then alphaSpeaks else betaSpeaks) t
      :: exchange n' (t + 116) (negb alphaTurn)
  end.

(** A twenty-round debate started at time 13, with thirty speeches from
    time 129 to time 3493.  At 3613 the speech timer armed by the last
    speech (timer 63, 120 seconds) and the max-duration timer (timer 3,
    armed for 3600 seconds at the start) expire together, and their two
    callbacks run one after the other. *)
Definition bothExpired : list Event :=
  (started 20 ++ exchange 30 129 true ++ [ EvExpire 63; EvExpire 3 ])%list.
Definition firstCallback : list Event :=
  (bothExpired ++ [ EvRun 0 true 3613 ])%list.
Definition secondCallback : list Event :=
  (firstCallback ++ [ EvRun 0 true 3613 ])%list.

(** A completed one-round debate in which both bots speak once more. *)
Definition anotherRound : list Event :=
  (finishedOnce ++ [ EvSpeech alphaSpeaks 16; EvSpeech betaSpeaks 17 ])%list.

Definition statusOf (debateID : string) (w : World) : option string :=
  Status ∘ Debate_ <$> session debateID w.
Definition roundOf (debateID : string) (w : World) : option Z :=
  CurrentRound ∘ Debate_ <$> session debateID w.
Definition totalRoundsOf (debateID : string) (w : World) : option Z :=
  TotalRounds ∘ Debate_ <$> session debateID w.
Definition transcriptLength (debateID : string) (w : World) : option nat :=
  length ∘ DebateLog <$> session debateID w.
Definition lastSpeakerOf (debateID : string) (w : World) : option string :=
  LastSpeaker <$> session debateID w.
Definition pendingKinds (w : World) : list TimerKind :=
  map t_kind (pendingTimers w).
Definition storedStatus (debateID : string) (w : World) : option string :=
  Status <$> Db.GetDebate (db w) debateID.
Definition storedResults (debateID : string) (w : World) : nat :=
  length (List.filter (λ r, String.eqb (rr_debate_id r) debateID)
                      (tbl_debate_results (db w))).

(** ** Timer bookkeeping of a speech *)

(** The timers after [if h != nil { h.Stop() }]. *)
Definition stopped (h : option nat) (ts : list Timer) : list Timer :=
  match h with Some tid => alter stop_timer tid ts | None => ts end.

(** The world after arming a timer for a debate and storing its handle
    with [store]. *)
Definition armed (kind : TimerKind) (debateID : string)
    (store : option nat → ActiveDebate → ActiveDebate) (w : World) : World :=
  set_debates (alter (store (Some (length (timers w)))) debateID (debates w))
    (set_timers (timers w ++ [ {| t_kind := kind; t_debate := debateID;
                                  t_status := Pending |} ]) w).

(** The world [HandleSpeech] has produced when it reaches the length
    validation: the speech timer stopped, the activity time set, the
    inactivity timer stopped and a new one armed. *)
Definition touched (debateID : string) (now : Time) (a : ActiveDebate) (w : World)
    : World :=
  armed InactivityT debateID set_InactivityTimer
    (set_timers (stopped (InactivityTimer a)
                   (stopped (TimeoutTimer a) (timers w)))
       (set_debates (alter (set_LastActivityTime now) debateID (debates w)) w)).

(** ** Storage: the read queries ([database.go])

    The queries of [database.go] that the manager itself does not call:
    they serve the observers' snapshot and the HTTP surface.
    [GetDebateLog] orders by the autoincrement key, so its rows come back
    in insertion order.  [GetBots] has no ORDER BY: the query does not fix
    the order of its rows; the embedding lists them in insertion order,
    and what is proved about [GetBots] below holds for every order. *)

Module DbRead.

Definition GetBots (d : Database) (debateID : string) : list Bot :=
  List.filter (fun b => String.eqb (DebateID b) debateID) (tbl_bots d).

Definition GetBotByIdentifier (d : Database) (debateID botIdentifier : string)
    : option Bot :=
  List.find (fun b => String.eqb (DebateID b) debateID
                      && String.eqb (BotIdentifier b) botIdentifier)
            (tbl_bots d).

Definition GetDebateLog (d : Database) (debateID : string) : list DebateLogEntry :=
  map snd (List.filter (fun p => String.eqb (fst p) debateID) (tbl_debate_log d)).

(** [GetDebateResult] as the Go method returns it: a [DebateResult] built
    from the row, whose reason is the zero value (the table has no column
    for it). *)
Definition GetDebateResult (d : Database) (debateID : string)
    : option DebateResult :=
  match Db.GetDebateResult d debateID with
  | Some r => Some {| Winner := rr_winner r;
                      SupportingScore := rr_supporting_score r;
                      OpposingScore := rr_opposing_score r;
                      Summary := rr_summary r;
                      Reason := "" |}
  | None => None
  end.

End DbRead.

(** ** What the manager never undoes

    Relations between an earlier and a later state of the server: a timer
    keeps its function and debate and, once stopped or fired, its status,
    and timers are only ever added; stored rows are only ever added, and
    the stored debates and bots keep everything but the columns the
    manager updates (status, round, updated_at; side); frames written and
    events queued are never taken back; a timer callback is spawned only
    by the expiry of its timer. *)

Definition timer_le (t t' : Timer) : Prop :=
  t_kind t' = t_kind t ∧ t_debate t' = t_debate t
  ∧ (t_status t ≠ Pending → t_status t' = t_status t).

Definition timers_le (ts ts' : list Timer) : Prop :=
  ∃ ts1 more, ts' = (ts1 ++ more)%list ∧ Forall2 timer_le ts ts1.

Definition debateKey (r : Debate) : string * string * Z * Time :=
  (ID r, Topic r, TotalRounds r, CreatedAt r).

Definition botKey (b : Bot) : string * string * string * string * string * Time :=
  (BotName b, BotUUID b, BotIdentifier b, DebateID b, DebateKey b, ConnectedAt b).

Definition db_le (d d' : Database) : Prop :=
  map debateKey (tbl_debates d) `prefix_of` map debateKey (tbl_debates d')
  ∧ map botKey (tbl_bots d) `prefix_of` map botKey (tbl_bots d')
  ∧ tbl_debate_log d `prefix_of` tbl_debate_log d'
  ∧ tbl_debate_results d `prefix_of` tbl_debate_results d'.

(** A timer callback that is waiting to run was waiting already, or its
    timer has expired. *)
Definition spawned_le (w w' : World) : Prop :=
  ∀ tid, TaskTimer tid ∈ goroutines w' →
    TaskTimer tid ∈ goroutines w
    ∨ ∃ t, timers w' !! tid = Some t ∧ t_status t = Fired.

Definition evolves (w w' : World) : Prop :=
  timers_le (timers w) (timers w')
  ∧ db_le (db w) (db w')
  ∧ written w `prefix_of` written w'
  ∧ broadcast w `prefix_of` broadcast w'
  ∧ spawned_le w w'.

(** An action that, run in [w], leaves a state that [w] evolves into. *)
Definition keepsAt {A} (w : World) (m : M A) : Prop :=
  ∀ x w', m w = Ok x w' → evolves w w'.

(** The state a run of events ends in (the state it started from if the
    server panicked on the way). *)
Definition worldAfter (env : Env) (evs : list Event) (w : World) : World :=
  match run env evs w with
  | Ok _ w' => w'
  | Panic => w
  end.

(** ** The start of a debate *)

(** The [debate_start] frame that [startDebate] builds for one bot. *)
Definition debateStartFrame (env : Env) (debateID : string) (debate : Debate)
    (supportingID opposingID yourSide yourIdentifier : string) : Message :=
  createMessage "debate_start" (DataDebateStart
    {| ds_DebateID := debateID;
       ds_Topic := Topic debate;
       ds_SupportingSide := supportingID;
       ds_OpposingSide := opposingID;
       ds_TotalRounds := TotalRounds debate;
       ds_CurrentRound := 1;
       ds_YourSide := yourSide;
       ds_YourIdentifier := yourIdentifier;
       ds_NextSpeaker := supportingID;
       ds_TimeoutSeconds := 120;
       ds_MinContentLength := MinContentLength (config env);
       ds_MaxContentLength := MaxContentLength (config env) |}).

Definition pendingTimer (kind : TimerKind) (debateID : string) : Timer :=
  {| t_kind := kind; t_debate := debateID; t_status := Pending |}.

Definition sideOf (b : option ConnectedBot) : option string :=
  Side ∘ cb_Bot <$> b.
Definition identifierOf (b : option ConnectedBot) : option string :=
  BotIdentifier ∘ cb_Bot <$> b.

(** ** The end of a debate *)

(** The [debate_end] frame that [endDebate] builds. *)
Definition debateEndFrame (debateID : string) (a : ActiveDebate) (status : string)
    (result : DebateResult) : Message :=
  createMessage "debate_end" (DataDebateEnd
    {| de_DebateID := debateID;
       de_Topic := Topic (Debate_ a);
       de_SupportingSide := botID (supporting a);
       de_OpposingSide := botID (opposing a);
       de_TotalRounds := TotalRounds (Debate_ a);
       de_Status := status;
       de_DebateLog := DebateLog a;
       de_DebateResult := result |}).

(** The connection of a side, when the side is assigned and its connection
    is not nil. *)
Definition openConn (b : option ConnectedBot) : list Conn :=
  match b with
  | Some {| cb_Conn := Some c |} => [c]
  | _ => []
  end.

(** A timer handle that, where it is set, names a timer that is not
    pending. *)
Definition notPending (ts : list Timer) (h : option nat) : Prop :=
  match h with
  | Some tid => ∀ t, ts !! tid = Some t → t_status t ≠ Pending
  | None => True
  end.

(** ** Well-formed results *)

(** "winner (supporting|opposing|draw|none), two bounded integer scores
    (0–100)". *)
Definition wellFormedResult (r : DebateResult) : Prop :=
  0 <= SupportingScore r <= 100
  ∧ 0 <= OpposingScore r <= 100
  ∧ (Winner r = "supporting" ∨ Winner r = "opposing"
     ∨ Winner r = "draw" ∨ Winner r = "none").

(** ** An accepted speech *)

(** The [debate_update] frame that [sendDebateUpdate] builds for one bot. *)
Definition debateUpdateFrame (env : Env) (a : ActiveDebate)
    (supportingID opposingID nextSpeaker yourSide yourIdentifier : string) : Message :=
  createMessage "debate_update" (DataDebateUpdate
    {| du_DebateID := ID (Debate_ a);
       du_Topic := Topic (Debate_ a);
       du_SupportingSide := supportingID;
       du_OpposingSide := opposingID;
       du_TotalRounds := TotalRounds (Debate_ a);
       du_CurrentRound := CurrentRound (Debate_ a);
       du_YourSide := yourSide;
       du_YourIdentifier := yourIdentifier;
       du_NextSpeaker := nextSpeaker;
       du_TimeoutSeconds := 120;
       du_MinContentLength := MinContentLength (config env);
       du_MaxContentLength := MaxContentLength (config env);
       du_DebateLog := DebateLog a |}).

(** The transcript entry that [HandleSpeech] builds for a speech. *)
Definition logEntryOf (a : ActiveDebate) (speakerBot : ConnectedBot)
    (speech : DebateSpeech) (now : Time) : DebateLogEntry :=
  {| e_Round := CurrentRound (Debate_ a);
     e_Speaker := sp_Speaker speech;
     e_Side := Side (cb_Bot speakerBot);
     e_Timestamp := now;
     e_Message := sp_Message speech |}.

(** The trimmed length of a speech lies within the configured bounds. *)
Definition withinBounds (env : Env) (speech : DebateSpeech) : Prop :=
  let contentLen :=
    Z.of_nat (String.length (TrimSpace env (Content (sp_Message speech)))) in
  MinContentLength (config env) <= contentLen <= MaxContentLength (config env).

(** The session as [HandleSpeech] has left it when the opposing side has
    spoken and the round is complete: the activity time and the
    inactivity timer renewed, the entry appended, the speaker recorded and
    the round counter set. *)
Definition roundComplete (a : ActiveDebate) (entry : DebateLogEntry) (now : Time)
    (inactivity : nat) (round : Z) : ActiveDebate :=
  set_CurrentRound round
    (set_LastSpeaker (e_Speaker entry)
       (set_DebateLog (DebateLog a ++ [entry])
          (set_InactivityTimer (Some inactivity)
             (set_LastActivityTime now a)))).

(** ** A bot connection ([main.go], [handleBotWebSocket])

    After the login the handler runs two loops over the connection: the
    read loop, and the heartbeat goroutine that wakes up at every tick of
    its ticker.  They share the counter [missedPings].  The embedding
    takes what happens to a connection as a sequence of events, each
    handled in one piece: a tick (with whether the ping can be written),
    a frame read, or a read error.  The frames that [main.go] writes on
    the connection itself are returned as replies. *)

Inductive Reply :=
| ReplyError (e : ErrorMessage)
| ReplyLoginConfirmed (c : LoginConfirmed)
| ReplyLoginRejected (r : LoginRejected)
| ReplyPing.

(** A frame by its [type]; a payload that does not decode is [None]. *)
Inductive BotFrame :=
| FrameLogin (loginReq : option LoginRequest)
| FrameSpeech (speech : option DebateSpeech)
| FramePong
| FrameOther (msgType : string).

Record BotSession := mkBotSession {
  bs_DebateID : string;        (* loginReq.DebateID, as BotLogin left it *)
  bs_BotIdentifier : string;   (* confirmed.BotIdentifier *)
  missedPings : Z;
  heartbeat : bool;            (* the heartbeat goroutine has not returned *)
  reading : bool               (* the read loop has not ended *)
}.

Inductive BotEvent :=
| Tick (pingWritten : bool) (now : Time)
| Receive (frame : BotFrame) (now : Time)
| ReadError (now : Time).

Definition set_missedPings (n : Z) (s : BotSession) : BotSession :=
  {| bs_DebateID := bs_DebateID s; bs_BotIdentifier := bs_BotIdentifier s;
     missedPings := n; heartbeat := heartbeat s; reading := reading s |}.
Definition stop_heartbeat (s : BotSession) : BotSession :=
  {| bs_DebateID := bs_DebateID s; bs_BotIdentifier := bs_BotIdentifier s;
     missedPings := missedPings s; heartbeat := false; reading := reading s |}.
Definition stop_reading (s : BotSession) : BotSession :=
  {| bs_DebateID := bs_DebateID s; bs_BotIdentifier := bs_BotIdentifier s;
     missedPings := missedPings s; heartbeat := false; reading := false |}.

Section Connection.

Variable env : Env.

(** The first frame of a connection. *)
Definition acceptBot (first : option BotFrame) (conn : Conn) (debateKey : string)
    (now : Time) : M (option BotSession * list Reply) :=
  match first with
  | None => mret (None, [])
  | Some (FrameLogin None) =>
      mret (None, [ReplyError (errorMessage "INVALID_MESSAGE_FORMAT"
                                 "Invalid login request format" "" false)])
  | Some (FrameLogin (Some loginReq)) =>
      r ← BotLogin loginReq conn debateKey now;
      match r with
      | inr rejected => mret (None, [ReplyLoginRejected rejected])
      | inl confirmed =>
          mret (Some {| bs_DebateID := lc_DebateID confirmed;
                        bs_BotIdentifier := lc_BotIdentifier confirmed;
                        missedPings := 0; heartbeat := true; reading := true |},
                [ReplyLoginConfirmed confirmed])
      end
  | Some _ =>
      mret (None, [ReplyError (errorMessage "INVALID_MESSAGE_TYPE"
                                 "Expected bot_login message" "" false)])
  end.

Definition handleBotSpeech (speech : option DebateSpeech) (now : Time)
    : M (list Reply) :=
  match speech with
  | None =>
      mret [ReplyError (errorMessage "INVALID_MESSAGE_FORMAT"
                          "Invalid speech format" "" true)]
  | Some speech =>
      errMsg ← HandleSpeech env speech now;
      mret (match errMsg with Some e => [ReplyError e] | None => [] end)
  end.

Definition botEvent (s : BotSession) (ev : BotEvent) : M (BotSession * list Reply) :=
  match ev with
  | Tick pingWritten now =>
      if heartbeat s then
        (* Check if we missed too many pongs (3 strikes) *)
        if 3 <=? missedPings s then
          HandleBotDisconnect env (bs_DebateID s) (bs_BotIdentifier s)
                              "heartbeat_timeout" now;;
          mret (stop_heartbeat s, [])
        else if pingWritten then
          mret (set_missedPings (wrap64 (missedPings s + 1)) s, [ReplyPing])
        else mret (stop_heartbeat s, [])
      else mret (s, [])
  | Receive frame now =>
      if reading s then
        match frame with
        | FrameSpeech speech =>
            replies ← handleBotSpeech speech now;
            mret (s, replies)
        | FramePong => mret (set_missedPings 0 s, [])
        | _ => mret (s, [])
        end
      else mret (s, [])
  | ReadError now =>
      if reading s then
        HandleBotDisconnect env (bs_DebateID s) (bs_BotIdentifier s)
                            "connection_lost" now;;
        mret (stop_reading s, [])
      else mret (s, [])
  end.

Fixpoint serveBot (s : BotSession) (evs : list BotEvent)
    : M (BotSession * list Reply) :=
  match evs with
  | [] => mret (s, [])
  | ev :: evs' =>
      '(s1, replies1) ← botEvent s ev;
      '(s2, replies2) ← serveBot s1 evs';
      mret (s2, (replies1 ++ replies2)%list)
  end.

End Connection.

(** The pings written since the last pong was read. *)
Definition unansweredFrom (n : Z) (evs : list BotEvent) : Z :=
  fold_left (λ n ev, match ev with
                     | Tick true _ => n + 1
                     | Receive FramePong _ => 0
                     | _ => n
                     end) evs n.
Definition unanswered (evs : list BotEvent) : Z := unansweredFrom 0 evs.

Definition freshSession (debateID botIdentifier : string) : BotSession :=
  {| bs_DebateID := debateID; bs_BotIdentifier := botIdentifier;
     missedPings := 0; heartbeat := true; reading := true |}.

(** ** The observers' snapshot ([main.go], [sendCurrentDebateState]) *)

(** The loop that picks the supporting and the opposing bot among the
    stored bots of a debate (the last one of each side wins). *)
Definition pickSides (bots : list Bot) : option Bot * option Bot :=
  fold_left (λ '(supportingBot, opposingBot) bot,
               if String.eqb (Side bot) "supporting" then (Some bot, opposingBot)
               else if String.eqb (Side bot) "opposing" then (supportingBot, Some bot)
               else (supportingBot, opposingBot))
            bots (None, None).

Definition sendCurrentDebateState (env : Env) (conn : Conn) (debateID : string)
    : M unit :=
  d ← gets db;
  match Db.GetDebate d debateID with
  | None => mret ()
  | Some debate =>
      let bots := DbRead.GetBots d debateID in
      let debateLog := DbRead.GetDebateLog d debateID in
      let '(supportingBot, opposingBot) := pickSides bots in
      if String.eqb (Status debate) "completed" || String.eqb (Status debate) "timeout"
      then
        (* Send debate end *)
        match DbRead.GetDebateResult d debateID with
        | None => mret ()
        | Some result =>
            match supportingBot, opposingBot with
            | Some s, Some o =>
                WriteJSON (Some conn) (createMessage "debate_end" (DataDebateEnd
                  {| de_DebateID := debateID;
                     de_Topic := Topic debate;
                     de_SupportingSide := BotIdentifier s;
                     de_OpposingSide := BotIdentifier o;
                     de_TotalRounds := TotalRounds debate;
                     de_Status := Status debate;
                     de_DebateLog := debateLog;
                     de_DebateResult := result |}))
            | _, _ => panic
            end
        end
      else
        match String.eqb (Status debate) "active", supportingBot, opposingBot with
        | true, Some s, Some o =>
            (* Send debate update *)
            WriteJSON (Some conn) (createMessage "debate_update" (DataDebateUpdate
              {| du_DebateID := debateID;
                 du_Topic := Topic debate;
                 du_SupportingSide := BotIdentifier s;
                 du_OpposingSide := BotIdentifier o;
                 du_TotalRounds := TotalRounds debate;
                 du_CurrentRound := CurrentRound debate;
                 du_YourSide := "";
                 du_YourIdentifier := "";
                 du_NextSpeaker := "";
                 du_TimeoutSeconds := 0;
                 du_MinContentLength := MinContentLength (config env);
                 du_MaxContentLength := MaxContentLength (config env);
                 du_DebateLog := debateLog |}))
        | _, _, _ =>
            if String.eqb (Status debate) "waiting" then
              (* Send debate waiting state with joined bots *)
              WriteJSON (Some conn) (createMessage "debate_waiting" (DataDebateWaiting
                {| dw_DebateID := debateID;
                   dw_Topic := Topic debate;
                   dw_TotalRounds := TotalRounds debate;
                   dw_Status := Status debate;
                   dw_JoinedBots := map BotIdentifier bots |}))
            else mret ()
        end
  end.

(** Two bots that derive the same identifier from different uuids, and
    the debate they have ended. *)
Definition loginTwin1 : LoginRequest :=
  {| lr_BotName := "twin"; lr_BotUUID := "12345678-a"; lr_DebateID := "" |}.
Definition loginTwin2 : LoginRequest :=
  {| lr_BotName := "twin"; lr_BotUUID := "12345678-b"; lr_DebateID := "" |}.
Definition twinsStarted : list Event :=
  (created 1 ++
   [ EvLogin loginTwin1 1%nat "key-1" 11; EvLogin loginTwin2 2%nat "key-2" 12;
     EvRun 0 true 13 ])%list.
Definition twinsTimedOut : list Event :=
  (twinsStarted ++ [ EvExpire 1; EvRun 0 true 133 ])%list.

(** The speeches of the two twins: the same speaker, each with its own
    key. *)
Definition twin1Speaks : DebateSpeech := speechOf "twin-12345678" "key-1" content61.
Definition twin2Speaks : DebateSpeech := speechOf "twin-12345678" "key-2" content61.

(** Two debates waiting for bots, created ten seconds apart; and two
    created half an hour apart by servers in different zones, the later
    one five hours west of the earlier one. *)
Definition twoWaiting : list Event :=
  [ EvCreate "u1" "T" 1 10; EvCreate "u2" "T" 1 20 ].
Definition twoZones : list Event :=
  [ EvCreate "u1" "T" 1 {| Unix := 36000; Nanos := 0; Offset := 0 |};
    EvCreate "u2" "T" 1 {| Unix := 37800; Nanos := 0; Offset := -18000 |} ].

(** ** The registry and storage

    What relates the live sessions to the stored debates. *)

(** A debate that is stored, is not waiting and has no session: it has
    left the registry (or never entered it since the server started). *)
Definition gone (w : World) (debateID : string) : Prop :=
  debates w !! debateID = None
  ∧ ∃ row, Db.GetDebate (db w) debateID = Some row ∧ Status row ≠ "waiting".

(** Between an earlier and a later state: a stored debate stays stored
    and does not go back to waiting. *)
Definition rows_le (d d' : Database) : Prop :=
  ∀ debateID row, Db.GetDebate d debateID = Some row →
    ∃ row', Db.GetDebate d' debateID = Some row'
            ∧ (Status row' = "waiting" → Status row = "waiting").

(** A session enters the registry only for a debate that was waiting or
    not stored. *)
Definition births_le (w w' : World) : Prop :=
  ∀ debateID, debates w !! debateID = None → is_Some (debates w' !! debateID) →
    ∀ row, Db.GetDebate (db w) debateID = Some row → Status row = "waiting".

(** The registry agrees with storage: every session is of a stored
    debate and has the stored transcript, and a debate without a session
    that is waiting (or not stored) has no stored speech. *)
Definition consistent (w : World) : Prop :=
  (∀ debateID, is_Some (debates w !! debateID) →
     is_Some (Db.GetDebate (db w) debateID))
  ∧ (∀ debateID a, debates w !! debateID = Some a →
       DbRead.GetDebateLog (db w) debateID = DebateLog a)
  ∧ (∀ debateID, debates w !! debateID = None →
       (∀ row, Db.GetDebate (db w) debateID = Some row → Status row = "waiting") →
       DbRead.GetDebateLog (db w) debateID = []).

Definition sound (w w' : World) : Prop :=
  rows_le (db w) (db w') ∧ births_le w w' ∧ (consistent w → consistent w').

(** An action that, run in [w], leaves a state related to [w]. *)
Definition keepsRel {A} (R : World → World → Prop) (w : World) (m : M A) : Prop :=
  ∀ x w', m w = Ok x w' → R w w'.

(** A storage call that keeps every debate stored, never sets a status
    back to waiting, and leaves the transcripts alone. *)
Definition db_safe (d d' : Database) : Prop :=
  rows_le d d' ∧ tbl_debate_log d' = tbl_debate_log d.

(** * Properties *)

(** ** Result synthesizer: the fallback scorer *)

Lemma countSpeeches_from (debateLog : list DebateLogEntry) (s o : Z) :
  fold_left (λ '(supportingCount, opposingCount) entry,
               if String.eqb (e_Side entry) "supporting"
               then (supportingCount + 1, opposingCount)
               else (supportingCount, opposingCount + 1))
            debateLog (s, o)
  = (s + supportingUtterances debateLog, o + opposingUtterances debateLog).
Proof.
  revert s o.
  induction debateLog as [|e l IH]; intros s o; simpl.
  - unfold supportingUtterances, opposingUtterances. simpl. f_equal; lia.
  - unfold supportingUtterances, opposingUtterances, isSupporting in *.
    simpl. destruct (String.eqb (e_Side e) "supporting"); simpl;
      rewrite IH; f_equal; lia.
Qed.

Lemma countSpeeches_spec (debateLog : list DebateLogEntry) :
  countSpeeches debateLog
  = (supportingUtterances debateLog, opposingUtterances debateLog).
Proof. unfold countSpeeches. now rewrite countSpeeches_from. Qed.

Lemma utterances_nonneg (debateLog : list DebateLogEntry) :
  0 <= supportingUtterances debateLog ∧ 0 <= opposingUtterances debateLog.
Proof. unfold supportingUtterances, opposingUtterances. lia. Qed.

Lemma cap_rawScore (count : Z) :
  (if 50 <? 45 + count * 2 then 50 else 45 + count * 2) = rawScore count.
Proof. unfold rawScore. destruct (Z.ltb_spec 50 (45 + count * 2)); lia. Qed.

(** Without a configured judge the result is the fallback scorer's. *)
Lemma generateDebateResult_no_judge (env : Env) (a : ActiveDebate)
    (status reason : string) :
  chatgptClient env = None →
  generateDebateResult env a status reason
  = Val (fallbackResult env a status reason
           (supportingUtterances (DebateLog a)) (opposingUtterances (DebateLog a))).
Proof.
  intros Hnil. unfold generateDebateResult.
  rewrite countSpeeches_spec, Hnil. reflexivity.
Qed.

Lemma fallbackResult_scores (env : Env) (a : ActiveDebate) (status reason : string)
    (sc oc : Z) :
  let r := fallbackResult env a status reason sc oc in
  SupportingScore r = Z.quot (rawScore sc * 100) (rawScore sc + rawScore oc)
  ∧ OpposingScore r = 100 - SupportingScore r.
Proof.
  unfold fallbackResult; simpl. rewrite !cap_rawScore. split; reflexivity.
Qed.

Lemma fallbackResult_winner (env : Env) (a : ActiveDebate) (status reason : string)
    (sc oc : Z) :
  let r := fallbackResult env a status reason sc oc in
  Winner r =
    if (0 <? sc) && (0 <? oc) then
      if OpposingScore r + 5 <? SupportingScore r then "supporting"
      else if SupportingScore r + 5 <? OpposingScore r then "opposing"
      else "none"
    else "none".
Proof. reflexivity. Qed.

(** The normalized supporting score of two sides that both spoke lies
    between 48 and 51, a margin of at most 4 points, so the fallback scorer
    never names a winner. *)
Lemma fallbackResult_margin (sc oc : Z) :
  0 < sc → 0 < oc →
  let s := Z.quot (rawScore sc * 100) (rawScore sc + rawScore oc) in
  48 <= s <= 51.
Proof.
  intros Hs Ho. unfold rawScore.
  assert (Hrs : 47 <= Z.min 50 (45 + 2 * sc) <= 50) by lia.
  assert (Hro : 47 <= Z.min 50 (45 + 2 * oc) <= 50) by lia.
  set (x := Z.min 50 (45 + 2 * sc)) in *.
  set (y := Z.min 50 (45 + 2 * oc)) in *.
  cbv zeta. rewrite Z.quot_div_nonneg by lia.
  split.
  - apply Z.div_le_lower_bound; lia.
  - apply Z.lt_succ_r. apply Z.div_lt_upper_bound; lia.
Qed.

Remark fallbackResult_never_names_a_winner (env : Env) (a : ActiveDebate)
    (status reason : string) (sc oc : Z) :
  Winner (fallbackResult env a status reason sc oc) = "none".
Proof.
  rewrite fallbackResult_winner.
  destruct (Z.ltb_spec 0 sc) as [Hs|Hs]; [|reflexivity].
  destruct (Z.ltb_spec 0 oc) as [Ho|Ho]; [|reflexivity].
  cbn [andb].
  destruct (fallbackResult_scores env a status reason sc oc) as [Hss Hos].
  cbv zeta in Hss, Hos. rewrite Hos, Hss.
  pose proof (fallbackResult_margin sc oc Hs Ho) as Hm. cbv zeta in Hm.
  destruct (Z.ltb_spec (100 - rawScore sc * 100 ÷ (rawScore sc + rawScore oc) + 5)
                       (rawScore sc * 100 ÷ (rawScore sc + rawScore oc))); [lia|].
  destruct (Z.ltb_spec (rawScore sc * 100 ÷ (rawScore sc + rawScore oc) + 5)
                       (100 - rawScore sc * 100 ÷ (rawScore sc + rawScore oc))); [lia|].
  reflexivity.
Qed.

Lemma generateDebateResult_fallback (env : Env) (a : ActiveDebate)
    (status reason : string) :
  judgeAnswers env a = None →
  generateDebateResult env a status reason
  = Val (fallbackResult env a status reason
           (supportingUtterances (DebateLog a)) (opposingUtterances (DebateLog a))).
Proof.
  unfold judgeAnswers, generateDebateResult, JudgeDebate.
  rewrite countSpeeches_spec.
  destruct (chatgptClient env) as [client|]; [|reflexivity].
  destruct (supporting a) as [sup|]; [|reflexivity].
  destruct (opposing a) as [opp|]; [|reflexivity].
  destruct ((0 <? supportingUtterances (DebateLog a))
            && (0 <? opposingUtterances (DebateLog a))); [|reflexivity].
  intros ->. reflexivity.
Qed.

(** C3 (amended).  For every session judged by the fallback scorer, each
    side's raw score is 45 + 2 x its utterance count capped at 50; the
    supporting score is the raw score times 100 divided (integer division)
    by the sum of the two raw scores and the opposing score is 100 minus
    it, so the two sum to exactly 100; the winner is the side with the
    higher normalized score if the margin exceeds 5 points and both sides
    have spoken, and [none] otherwise, never [draw].  (The margin of two
    sides that spoke is at most 4 points, so the winner is [none].) *)
Theorem fallback_scorer_result (env : Env) (a : ActiveDebate)
    (status reason : string) :
  judgeAnswers env a = None →
  let sc := supportingUtterances (DebateLog a) in
  let oc := opposingUtterances (DebateLog a) in
  ∃ r, generateDebateResult env a status reason = Val r
       ∧ SupportingScore r = Z.quot (rawScore sc * 100) (rawScore sc + rawScore oc)
       ∧ SupportingScore r + OpposingScore r = 100
       ∧ 0 <= SupportingScore r <= 100
       ∧ Winner r = scoredWinner sc oc (SupportingScore r) (OpposingScore r)
       ∧ Winner r = "none"
       ∧ Reason r = reason.
Proof.
  intros Hfb sc oc.
  eexists. split; [apply generateDebateResult_fallback; exact Hfb|].
  fold sc oc.
  destruct (fallbackResult_scores env a status reason sc oc) as [Hs Ho].
  cbv zeta in Hs, Ho.
  pose proof (utterances_nonneg (DebateLog a)) as [Hsc Hoc]. fold sc oc in Hsc, Hoc.
  split; [exact Hs|]. split; [lia|].
  split.
  - rewrite Hs. unfold rawScore.
    rewrite Z.quot_div_nonneg by lia.
    split.
    + apply Z.div_pos; lia.
    + apply Z.div_le_upper_bound; lia.
  - split; [|split; [apply fallbackResult_never_names_a_winner|reflexivity]].
    rewrite fallbackResult_winner. unfold scoredWinner.
    destruct (Z.ltb_spec 0 sc), (Z.eqb_spec sc 0); try lia;
      destruct (Z.ltb_spec 0 oc), (Z.eqb_spec oc 0); try lia; reflexivity.
Qed.

Lemma fallback_scorer_result_witness :
  ∃ a, observe (session "debate-u1") (run envNoJudge finishedOnce emptyWorld)
       = Some (Some a)
     ∧ supportingUtterances (DebateLog a) = 1
     ∧ opposingUtterances (DebateLog a) = 1
     ∧ ∃ r, generateDebateResult envNoJudge a "completed" "completed" = Val r
            ∧ SupportingScore r = 50
            ∧ SupportingScore r + OpposingScore r = 100
            ∧ Winner r = "none".
Proof.
  eexists. split; [vm_compute; reflexivity|].
  split; [reflexivity|]. split; [reflexivity|].
  match goal with
  | |- ∃ r, generateDebateResult _ ?a _ _ = _ ∧ _ =>
      destruct (fallback_scorer_result envNoJudge a "completed" "completed"
                  eq_refl) as (r & Hr & Hs & Hsum & _ & _ & Hw & _)
  end.
  exists r. split; [exact Hr|]. split; [rewrite Hs; reflexivity|].
  split; [exact Hsum|exact Hw].
Defined.

(** C3 (as stated) fails: in a completed one-round debate where each side
    spoke once the normalized scores are 50 and 50, the specification's
    rule gives [draw], and the persisted and announced winner is [none]. *)
Lemma fallback_scorer_draw_counterexample :
  let o := run envNoJudge finishedOnce emptyWorld in
  observe (λ w, Status ∘ Debate_ <$> session "debate-u1" w) o
    = Some (Some "completed")
  ∧ observe (λ w, (supportingUtterances ∘ DebateLog) <$> session "debate-u1" w) o
    = Some (Some 1)
  ∧ observe (λ w, (opposingUtterances ∘ DebateLog) <$> session "debate-u1" w) o
    = Some (Some 1)
  ∧ observe (persistedResult "debate-u1") o = Some (Some ("none", 50, 50))
  ∧ specWinner 1 1 50 50 = "draw"
  ∧ "none" ≠ specWinner 1 1 50 50.
Proof.
  cbv zeta. repeat split; try (vm_compute; reflexivity).
  vm_compute. discriminate.
Qed.

(** ** Result synthesizer: the judge *)

Lemma validScore_spec (z : Z) :
  (if (z <? 0) || (100 <? z) then 50 else z) = validScore z.
Proof.
  unfold validScore.
  destruct (Z.ltb_spec z 0), (Z.ltb_spec 100 z),
           (Z.leb_spec 0 z), (Z.leb_spec z 100); simpl; try lia; reflexivity.
Qed.

Lemma validWinner_spec (w : string) :
  (if negb (String.eqb w "supporting") && negb (String.eqb w "opposing")
      && negb (String.eqb w "draw")
   then "draw" else w) = validWinner w.
Proof.
  unfold validWinner, allowedWinner.
  destruct (String.eqb w "supporting"), (String.eqb w "opposing"),
           (String.eqb w "draw"); reflexivity.
Qed.

Lemma parseJudgeResponse_spec (env : Env) (response : string) :
  parseJudgeResponse env response =
    match extractJSON response with
    | Val jsonStr =>
        match Unmarshal env jsonStr with
        | Some jd => Val (validated jd)
        | None => Err
        end
    | Err => Err
    | Panicked => Panicked
    end.
Proof.
  unfold parseJudgeResponse, extractJSON.
  destruct (Index "{" response) as [i|]; [|reflexivity].
  destruct (LastIndex "}" response) as [j|]; [|reflexivity].
  destruct (slice response i (j + 1)) as [js|]; [|reflexivity].
  destruct (Unmarshal env js) as [jd|]; [|reflexivity].
  unfold validated. rewrite !validScore_spec, validWinner_spec. reflexivity.
Qed.

Lemma validScore_range (z : Z) : 0 <= validScore z <= 100.
Proof.
  unfold validScore.
  destruct (Z.leb_spec 0 z), (Z.leb_spec z 100); simpl; lia.
Qed.

Lemma validWinner_allowed (w : string) : allowedWinner (validWinner w) = true.
Proof.
  unfold validWinner. destruct (allowedWinner w) eqn:E; [exact E|reflexivity].
Qed.

Lemma generateDebateResult_judge (env : Env) (a : ActiveDebate)
    (status reason : string) (answer : option string) :
  judgeInvoked env a = Some answer →
  generateDebateResult env a status reason =
    match answer with
    | None => Val (fallbackResult env a status reason
                     (supportingUtterances (DebateLog a))
                     (opposingUtterances (DebateLog a)))
    | Some response =>
        match parseJudgeResponse env response with
        | Val r => Val r
        | Err => Val (unparsedResult response)
        | Panicked => Panicked
        end
    end.
Proof.
  unfold judgeInvoked, generateDebateResult, JudgeDebate.
  rewrite countSpeeches_spec.
  destruct (chatgptClient env) as [client|]; [|discriminate].
  destruct (supporting a) as [sup|]; [|discriminate].
  destruct (opposing a) as [opp|]; [|discriminate].
  destruct ((0 <? supportingUtterances (DebateLog a))
            && (0 <? opposingUtterances (DebateLog a))); [|discriminate].
  intros [= <-].
  destruct (SendMessage client _ _ _ _) as [response|]; [|reflexivity].
  destruct (parseJudgeResponse env response); reflexivity.
Qed.

(** C8 (amended).  When the judge is invoked: if the completion service
    fails, the result is the fallback scorer's; if it answers and the text
    between the first opening and the last closing brace decodes, the
    result is the decoded one with a winner outside the three allowed
    values replaced by [draw] and a score outside [0,100] replaced by 50
    (valid values are kept); if the answer has no brace pair or the
    extracted text does not decode, the result is not the fallback
    scorer's but a neutral draw, 50 to 50, whose summary is the raw
    answer. *)
Theorem judge_result (env : Env) (a : ActiveDebate) (status reason : string)
    (answer : option string) :
  judgeInvoked env a = Some answer →
  match answer with
  | None =>
      generateDebateResult env a status reason
      = Val (fallbackResult env a status reason
               (supportingUtterances (DebateLog a))
               (opposingUtterances (DebateLog a)))
  | Some response =>
      match extractJSON response with
      | Val jsonStr =>
          match Unmarshal env jsonStr with
          | Some jd =>
              generateDebateResult env a status reason = Val (validated jd)
              ∧ allowedWinner (Winner (validated jd)) = true
              ∧ 0 <= SupportingScore (validated jd) <= 100
              ∧ 0 <= OpposingScore (validated jd) <= 100
              ∧ (allowedWinner (jd_Winner jd) = true →
                 Winner (validated jd) = jd_Winner jd)
              ∧ (allowedWinner (jd_Winner jd) = false →
                 Winner (validated jd) = "draw")
              ∧ (0 <= jd_SupportingScore jd <= 100 →
                 SupportingScore (validated jd) = jd_SupportingScore jd)
              ∧ (¬ 0 <= jd_SupportingScore jd <= 100 →
                 SupportingScore (validated jd) = 50)
              ∧ (0 <= jd_OpposingScore jd <= 100 →
                 OpposingScore (validated jd) = jd_OpposingScore jd)
              ∧ (¬ 0 <= jd_OpposingScore jd <= 100 →
                 OpposingScore (validated jd) = 50)
          | None =>
              generateDebateResult env a status reason
              = Val (unparsedResult response)
          end
      | Err =>
          generateDebateResult env a status reason = Val (unparsedResult response)
      | Panicked => True
      end
  end.
Proof.
  intros Hinv.
  rewrite (generateDebateResult_judge env a status reason answer Hinv).
  destruct answer as [response|]; [|reflexivity].
  rewrite parseJudgeResponse_spec.
  destruct (extractJSON response) as [js| |]; [|reflexivity|exact I].
  destruct (Unmarshal env js) as [jd|]; [|reflexivity].
  split; [reflexivity|].
  split; [apply validWinner_allowed|].
  split; [apply validScore_range|].
  split; [apply validScore_range|].
  cbn [validated Winner SupportingScore OpposingScore].
  unfold validWinner, validScore.
  repeat split.
  - intros ->. reflexivity.
  - intros ->. reflexivity.
  - intros H. destruct (Z.leb_spec 0 (jd_SupportingScore jd)),
                       (Z.leb_spec (jd_SupportingScore jd) 100); simpl; lia.
  - intros H. destruct (Z.leb_spec 0 (jd_SupportingScore jd)),
                       (Z.leb_spec (jd_SupportingScore jd) 100); simpl; lia.
  - intros H. destruct (Z.leb_spec 0 (jd_OpposingScore jd)),
                       (Z.leb_spec (jd_OpposingScore jd) 100); simpl; lia.
  - intros H. destruct (Z.leb_spec 0 (jd_OpposingScore jd)),
                       (Z.leb_spec (jd_OpposingScore jd) 100); simpl; lia.
Qed.

Lemma judge_result_witness :
  ∃ a, observe (session "debate-u1") (run envOdd finishedOnce emptyWorld)
       = Some (Some a)
     ∧ judgeInvoked envOdd a = Some (Some oddReply)
     ∧ generateDebateResult envOdd a "completed" "completed"
       = Val {| Winner := "draw"; SupportingScore := 50; OpposingScore := 30;
                Summary := SumJudge "alpha was better"; Reason := "" |}.
Proof.
  eexists. split; [vm_compute; reflexivity|].
  split; [reflexivity|].
  match goal with
  | |- generateDebateResult _ ?a _ _ = _ =>
      pose proof (judge_result envOdd a "completed" "completed"
                    (Some oddReply) eq_refl) as H
  end.
  change (extractJSON oddReply) with (Val oddJSON) in H.
  change (Unmarshal envOdd oddJSON) with (Some oddData) in H.
  cbv iota beta in H.
  destruct H as [H _]. exact H.
Defined.

(** C8 (as stated) fails: the judge answers in prose, nothing can be
    extracted, and the persisted result of the debate is the judge client's
    neutral draw, not the fallback scorer's result (whose winner is
    [none] and whose summary is the score table). *)
Lemma judge_malformed_counterexample :
  match observe (session "debate-u1") (run envProse finishedOnce emptyWorld) with
  | Some (Some a) =>
      judgeInvoked envProse a = Some (Some proseReply)
      ∧ extractJSON proseReply = Err
      ∧ generateDebateResult envProse a "completed" "completed"
        = Val (unparsedResult proseReply)
      ∧ generateDebateResult envProse a "completed" "completed"
        ≠ Val (fallbackResult envProse a "completed" "completed" 1 1)
  | _ => False
  end
  ∧ observe (persistedResult "debate-u1") (run envProse finishedOnce emptyWorld)
    = Some (Some ("draw", 50, 50)).
Proof.
  split; [|vm_compute; reflexivity].
  vm_compute. repeat split. discriminate.
Qed.

(** ** Turn arbiter *)

Lemma getNextSpeaker_assigned (a : ActiveDebate) (sup opp : ConnectedBot) :
  supporting a = Some sup → opposing a = Some opp →
  getNextSpeaker a =
    Some (if String.eqb (LastSpeaker a) "" then BotIdentifier (cb_Bot sup)
          else if String.eqb (LastSpeaker a) (BotIdentifier (cb_Bot sup))
               then BotIdentifier (cb_Bot opp)
               else BotIdentifier (cb_Bot sup)).
Proof.
  intros Hs Ho. unfold getNextSpeaker. rewrite Hs, Ho. simpl.
  destruct (String.eqb (LastSpeaker a) ""); [reflexivity|].
  destruct (String.eqb (LastSpeaker a) (BotIdentifier (cb_Bot sup))); reflexivity.
Qed.

(** The three rejections that precede any change of the session. *)
Lemma HandleSpeech_unknown_speaker (env : Env) (w : World) (speech : DebateSpeech)
    (now : Time) (a : ActiveDebate) :
  debates w !! sp_DebateID speech = Some a →
  speakerOf a (sp_Speaker speech) = None →
  HandleSpeech env speech now w
  = Ok (Some (errorMessage "INVALID_DEBATE_KEY" "Invalid debate key"
                           (sp_DebateID speech) false)) w.
Proof.
  intros Hl Hs. unfold HandleSpeech, getDebate, gets, mbind, M_bind.
  rewrite Hl, Hs. reflexivity.
Qed.

Lemma HandleSpeech_not_your_turn (env : Env) (w : World) (speech : DebateSpeech)
    (now : Time) (a : ActiveDebate) (bot : ConnectedBot) (expected : string) :
  debates w !! sp_DebateID speech = Some a →
  speakerOf a (sp_Speaker speech) = Some bot →
  DebateKey (cb_Bot bot) = sp_DebateKey speech →
  getNextSpeaker a = Some expected →
  sp_Speaker speech ≠ expected →
  HandleSpeech env speech now w
  = Ok (Some (errorMessage "NOT_YOUR_TURN" "It's not your turn to speak"
                           (sp_DebateID speech) true)) w.
Proof.
  intros Hl Hs Hk Hn Hne. unfold HandleSpeech, getDebate, gets, mbind, M_bind.
  rewrite Hl, Hs, Hk, String.eqb_refl, Hn. simpl.
  apply String.eqb_neq in Hne. rewrite Hne. reflexivity.
Qed.

(** C5 (amended).  In a session whose sides are assigned,
    [getNextSpeaker] is the supporting side's identifier when no one has
    spoken yet ([LastSpeaker] is still empty) and otherwise the identifier
    of the side opposite the last speaker; when the identifiers of the two
    participants differ, a speech that a participant sends under its own
    identifier and with its own key while it is not the next speaker is
    answered with NOT_YOUR_TURN, recoverable, and changes nothing: no
    transcript entry is added. *)
Theorem turn_arbiter (env : Env) (w : World) (speech : DebateSpeech) (now : Time)
    (a : ActiveDebate) (sup opp : ConnectedBot) :
  debates w !! sp_DebateID speech = Some a →
  supporting a = Some sup →
  opposing a = Some opp →
  (LastSpeaker a = "" → getNextSpeaker a = Some (BotIdentifier (cb_Bot sup)))
  ∧ (LastSpeaker a ≠ "" → LastSpeaker a = BotIdentifier (cb_Bot sup) →
     getNextSpeaker a = Some (BotIdentifier (cb_Bot opp)))
  ∧ (LastSpeaker a ≠ "" → LastSpeaker a = BotIdentifier (cb_Bot opp) →
     getNextSpeaker a = Some (BotIdentifier (cb_Bot sup)))
  ∧ (BotIdentifier (cb_Bot sup) ≠ BotIdentifier (cb_Bot opp) →
     ∀ bot,
       bot = sup ∨ bot = opp →
       sp_Speaker speech = BotIdentifier (cb_Bot bot) →
       sp_DebateKey speech = DebateKey (cb_Bot bot) →
       getNextSpeaker a ≠ Some (BotIdentifier (cb_Bot bot)) →
       ∃ e, HandleSpeech env speech now w = Ok (Some e) w
            ∧ ErrorCode e = "NOT_YOUR_TURN"
            ∧ Recoverable e = true
            ∧ (DebateLog <$> debates w !! sp_DebateID speech) = Some (DebateLog a)).
Proof.
  intros Hl Hs Ho.
  pose proof (getNextSpeaker_assigned a sup opp Hs Ho) as Hn.
  repeat split.
  - intros He. rewrite Hn, He. reflexivity.
  - intros Hne He. rewrite Hn.
    apply String.eqb_neq in Hne. rewrite Hne.
    apply String.eqb_eq in He. rewrite He. reflexivity.
  - intros Hne He. rewrite Hn.
    apply String.eqb_neq in Hne. rewrite Hne.
    destruct (String.eqb_spec (LastSpeaker a) (BotIdentifier (cb_Bot sup))) as [E|E].
    + congruence.
    + reflexivity.
  - intros Hids bot Hbot Hspk Hkey Hturn.
    assert (Hb : speakerOf a (sp_Speaker speech) = Some bot).
    { unfold speakerOf. rewrite Hs, Ho, Hspk.
      destruct Hbot as [-> | ->].
      - now rewrite String.eqb_refl.
      - apply String.eqb_neq in Hids. rewrite Hids. now rewrite String.eqb_refl. }
    destruct (getNextSpeaker a) as [expected|] eqn:Hexp; [|discriminate].
    eexists. split.
    + eapply HandleSpeech_not_your_turn; eauto. congruence.
    + rewrite Hl. repeat split.
Qed.

Lemma turn_arbiter_witness :
  ∃ w a,
    run envNoJudge (started 1) emptyWorld = Ok () w
    ∧ debates w !! "debate-u1" = Some a
    ∧ LastSpeaker a = ""
    ∧ getNextSpeaker a = Some "alpha-aaaaaaaa"
    ∧ ∃ e, HandleSpeech envNoJudge betaSpeaks 14 w = Ok (Some e) w
           ∧ ErrorCode e = "NOT_YOUR_TURN"
           ∧ Recoverable e = true.
Proof.
  eexists. eexists.
  split; [vm_compute; reflexivity|].
  split; [vm_compute; reflexivity|].
  split; [reflexivity|].
  match goal with
  | |- _ ∧ (∃ e, HandleSpeech _ _ _ ?w = _ ∧ _) =>
      match type of (eq_refl : debates w !! "debate-u1" = Some _) with
      | _ = Some ?a =>
          destruct (turn_arbiter envNoJudge w betaSpeaks 14 a
                      {| cb_Bot := mkBot "alpha" "aaaaaaaa-1" "alpha-aaaaaaaa"
                                         "debate-u1" "key-a" "supporting" 11;
                         cb_Conn := Some 1%nat |}
                      {| cb_Bot := mkBot "beta" "bbbbbbbb-2" "beta-bbbbbbbb"
                                         "debate-u1" "key-b" "opposing" 12;
                         cb_Conn := Some 2%nat |}
                      eq_refl eq_refl eq_refl) as (H1 & _ & _ & H4)
      end
  end.
  split; [apply H1; reflexivity|].
  destruct (H4 ltac:(discriminate) _ (or_intror eq_refl) eq_refl eq_refl)
    as (e & He & Hc & Hr & _).
  - vm_compute. discriminate.
  - exists e. split; [exact He|]. split; [exact Hc|exact Hr].
Defined.

(** C5 (as stated) fails when the two participants derive the same
    identifier (the same name and the same first eight bytes of the uuid).
    Both join and the debate starts with the first twin supporting.  No
    one has spoken, so it is the supporting side's turn; the speech of the
    opposing twin, under its identifier and with its own key, is answered
    with INVALID_DEBATE_KEY, not recoverable, and not with NOT_YOUR_TURN.
    And once the supporting twin has spoken, it is the opposing side's
    turn, yet a second speech of the supporting twin is accepted: the
    transcript holds two entries of the supporting side. *)
Lemma turn_arbiter_twins_counterexample :
  match run envNoJudge twinsStarted emptyWorld with
  | Ok _ w =>
      match debates w !! "debate-u1" with
      | Some a =>
          Status (Debate_ a) = "active"
          ∧ (cb_Bot <$> supporting a)
            = Some (mkBot "twin" "12345678-a" "twin-12345678" "debate-u1" "key-1"
                          "supporting" 11)
          ∧ (cb_Bot <$> opposing a)
            = Some (mkBot "twin" "12345678-b" "twin-12345678" "debate-u1" "key-2"
                          "opposing" 12)
          ∧ LastSpeaker a = ""
          ∧ HandleSpeech envNoJudge twin2Speaks 14 w
            = Ok (Some (errorMessage "INVALID_DEBATE_KEY" "Invalid debate key"
                                     "debate-u1" false)) w
      | None => False
      end
      ∧ match run envNoJudge [ EvSpeech twin1Speaks 14; EvSpeech twin1Speaks 15 ] w with
        | Ok _ w' =>
            (map e_Side ∘ DebateLog <$> debates w' !! "debate-u1")
            = Some ["supporting"; "supporting"]
        | Panic => False
        end
  | Panic => False
  end.
Proof. vm_compute. repeat split. Qed.

(** C10.  A speech submitted to an existing session whose sides are not
    assigned yet (both the supporting and the opposing reference unset) is
    rejected with INVALID_DEBATE_KEY, not recoverable, and the state is
    unchanged. *)
Theorem HandleSpeech_sides_unassigned (env : Env) (w : World)
    (speech : DebateSpeech) (now : Time) (a : ActiveDebate) :
  debates w !! sp_DebateID speech = Some a →
  SupportingBot a = None →
  OpposingBot a = None →
  ∃ e, HandleSpeech env speech now w = Ok (Some e) w
       ∧ ErrorCode e = "INVALID_DEBATE_KEY"
       ∧ Recoverable e = false.
Proof.
  intros Hl Hs Ho. eexists. split.
  - apply (HandleSpeech_unknown_speaker env w speech now a Hl).
    unfold speakerOf, supporting, opposing. rewrite Hs, Ho. reflexivity.
  - split; reflexivity.
Qed.

Lemma HandleSpeech_sides_unassigned_witness :
  ∃ w a,
    run envNoJudge (joinedOnce 1) emptyWorld = Ok () w
    ∧ debates w !! "debate-u1" = Some a
    ∧ Status (Debate_ a) = "waiting"
    ∧ ∃ e, HandleSpeech envNoJudge alphaSpeaks 14 w = Ok (Some e) w
           ∧ ErrorCode e = "INVALID_DEBATE_KEY"
           ∧ Recoverable e = false.
Proof.
  eexists. eexists.
  split; [vm_compute; reflexivity|].
  split; [vm_compute; reflexivity|].
  split; [reflexivity|].
  eapply (HandleSpeech_sides_unassigned envNoJudge _ alphaSpeaks 14);
    [vm_compute; reflexivity|reflexivity|reflexivity].
Defined.

(** ** Join protocol *)

Lemma resolveDebate_no_panic (loginReq : LoginRequest) (w : World) :
  resolveDebate loginReq w ≠ Panic.
Proof.
  unfold resolveDebate, getDebate, gets, mbind, M_bind, mret, M_ret, modify.
  destruct (String.eqb (lr_DebateID loginReq) "").
  - destruct (Db.GetAvailableDebate (db w)) as [d|]; [|discriminate].
    destruct (debates w !! ID d); [discriminate|].
    destruct (Db.GetDebate (db w) (ID d)) as [d'|]; [|discriminate].
    destruct (negb (String.eqb (Status d') "waiting")); discriminate.
  - destruct (debates w !! lr_DebateID loginReq); [discriminate|].
    destruct (Db.GetDebate (db w) (lr_DebateID loginReq)) as [d'|]; [|discriminate].
    destruct (negb (String.eqb (Status d') "waiting")); discriminate.
Qed.

Lemma slice_prefix (s : string) (n : nat) :
  slice s 0 n = if (n <=? String.length s)%nat
                then Some (String.substring 0 n s) else None.
Proof.
  unfold slice. simpl. rewrite Nat.sub_0_r. reflexivity.
Qed.

(** C9.  [BotLogin] panics exactly when the login gets past the
    rejections (a debate is resolved and it is not full) with a [bot_uuid]
    shorter than 8 bytes, where [BotUUID[:8]] is out of range; with 8 bytes
    or more it never panics, and the panic is reachable from the public
    login interface (a login after a debate was created). *)
Theorem BotLogin_panics_on_short_uuid :
  (∀ (loginReq : LoginRequest) (conn : Conn) (debateKey : string) (now : Time)
     (w : World),
     BotLogin loginReq conn debateKey now w = Panic ↔
     ((String.length (lr_BotUUID loginReq) < 8)%nat
      ∧ ∃ debateID a w', resolveDebate loginReq w = Ok (inr (debateID, a)) w'
                         ∧ full a = false))
  ∧ (∀ (env : Env),
       run env [ EvCreate "u1" "T" 1 10;
                 EvLogin {| lr_BotName := "alpha"; lr_BotUUID := "short";
                            lr_DebateID := "" |} 1%nat "key-a" 11 ] emptyWorld
       = Panic).
Proof.
  split; [|intros env; vm_compute; reflexivity].
  intros loginReq conn debateKey now w.
  unfold BotLogin. unfold mbind at 1. unfold M_bind at 1.
  pose proof (resolveDebate_no_panic loginReq w) as Hnp.
  destruct (resolveDebate loginReq w) as [[rej|[debateID a]] w'|]; [| |congruence].
  - split; [discriminate|]. intros (_ & i & a & w'' & H & _). discriminate.
  - fold (full a). rewrite slice_prefix.
    destruct (full a) eqn:Hfull.
    + split; [discriminate|]. intros (_ & i & a' & w'' & [= -> -> ->] & H).
      congruence.
    + destruct (Nat.leb_spec 8 (String.length (lr_BotUUID loginReq))) as [Hlen|Hlen].
      * split.
        -- unfold mbind, M_bind, gets, modify, assign, send_broadcast, mret, M_ret.
           destruct (Db.AddBot _ _); [|discriminate].
           destruct (bool_decide _ && bool_decide _); discriminate.
        -- intros (Hshort & _). lia.
      * split; [|reflexivity].
        intros _. split; [exact Hlen|]. eauto.
Qed.

(** ** The order of the stored timestamps

    [created_at] is compared as text.  For two timestamps of one zone,
    within the years written with four digits, a text that is not greater
    belongs to an instant that is not later. *)

Lemma sqliteTimestamp_examples :
  sqliteTimestamp 10 = "1970-01-01 00:00:10+00:00"
  ∧ sqliteTimestamp {| Unix := 1709251199; Nanos := 50001000; Offset := 19800 |}
    = "2024-03-01 05:29:59.050001+05:30"
  ∧ sqliteTimestamp {| Unix := 1700000000; Nanos := 500000000; Offset := -18000 |}
    = "2023-11-14 17:13:20.5-05:00"
  ∧ sqliteTimestamp {| Unix := 951782400; Nanos := 123456789; Offset := 0 |}
    = "2000-02-29 00:00:00.123456789+00:00".
Proof. vm_compute. repeat split. Qed.

Lemma yearOfEra_lt (doe doe' : Z) :
  0 <= doe → doe < doe' → doe' < 146097 →
  yearOfEra doe < yearOfEra doe'
  ∨ (yearOfEra doe = yearOfEra doe' ∧ dayOfYear doe < dayOfYear doe').
Proof.
  intros H0 H1 H2. unfold dayOfYear.
  destruct (Z.lt_trichotomy (yearOfEra doe) (yearOfEra doe')) as [H|[H|H]];
    [now left|right; rewrite H; split; [reflexivity|lia]|exfalso].
  revert H. unfold yearOfEra. Z.div_mod_to_equations. lia.
Qed.

Lemma yearOfEra_range (doe : Z) :
  0 <= doe < 146097 →
  0 <= yearOfEra doe <= 399 ∧ 0 <= dayOfYear doe <= 365.
Proof.
  intros H. unfold dayOfYear, yearOfEra. Z.div_mod_to_equations. lia.
Qed.

Lemma monthOf_range (doy : Z) :
  0 <= doy <= 365 → 1 <= monthOf doy <= 12 ∧ 1 <= dayOf doy <= 31.
Proof.
  intros H. unfold monthOf, dayOf.
  destruct (Z.ltb_spec ((5 * doy + 2) / 153) 10); Z.div_mod_to_equations; lia.
Qed.

(** Within a year that starts in March, the months March to December
    come before January and February. *)
Lemma monthOf_lt (doy doy' : Z) :
  0 <= doy → doy < doy' → doy' <= 365 →
  let late d := if monthOf d <=? 2 then 1 else 0 in
  late doy < late doy'
  ∨ (late doy = late doy'
     ∧ (monthOf doy < monthOf doy'
        ∨ (monthOf doy = monthOf doy' ∧ dayOf doy < dayOf doy'))).
Proof.
  intros H0 H1 H2. cbv zeta. unfold monthOf, dayOf.
  destruct (Z.ltb_spec ((5 * doy + 2) / 153) 10),
           (Z.ltb_spec ((5 * doy' + 2) / 153) 10);
    repeat match goal with
           | |- context [?a <=? 2] => destruct (Z.leb_spec a 2)
           end;
    Z.div_mod_to_equations; lia.
Qed.

Lemma civil_lt (z z' : Z) : z < z' → dateLt (civil z) (civil z').
Proof.
  intros Hlt. unfold dateLt, civil. cbn [fst snd].
  set (a := z + 719468). set (a' := z' + 719468).
  assert (Ha : a < a') by (subst a a'; lia).
  pose proof (Z.mod_pos_bound a 146097 ltac:(lia)) as Hd.
  pose proof (Z.mod_pos_bound a' 146097 ltac:(lia)) as Hd'.
  pose proof (Z.div_mod a 146097 ltac:(lia)) as He.
  pose proof (Z.div_mod a' 146097 ltac:(lia)) as He'.
  set (era := a / 146097) in *. set (era' := a' / 146097) in *.
  set (doe := a mod 146097) in *. set (doe' := a' mod 146097) in *.
  destruct (yearOfEra_range doe Hd) as [Hy Hdy].
  destruct (yearOfEra_range doe' Hd') as [Hy' Hdy'].
  destruct (monthOf_range _ Hdy) as [Hm _].
  destruct (monthOf_range _ Hdy') as [Hm' _].
  assert (Hera : era < era' ∨ (era = era' ∧ doe < doe')) by lia.
  assert (Hyd : 400 * era + yearOfEra doe < 400 * era' + yearOfEra doe'
                ∨ (400 * era + yearOfEra doe = 400 * era' + yearOfEra doe'
                   ∧ dayOfYear doe < dayOfYear doe')).
  { destruct Hera as [H|[-> H]]; [left; lia|].
    destruct (yearOfEra_lt doe doe' ltac:(lia) H ltac:(lia)) as [H'|[H1 H2]];
      [left; lia|right; split; [lia|exact H2]]. }
  destruct Hyd as [H|[H1 H2]].
  - destruct (Z.leb_spec (monthOf (dayOfYear doe)) 2),
             (Z.leb_spec (monthOf (dayOfYear doe')) 2); cbv iota in *.
    all: lia.
  - pose proof (monthOf_lt (dayOfYear doe) (dayOfYear doe')
                  ltac:(lia) H2 ltac:(lia)) as Hmd.
    cbv beta zeta in Hmd. revert Hmd.
    destruct (Z.leb_spec (monthOf (dayOfYear doe)) 2),
             (Z.leb_spec (monthOf (dayOfYear doe')) 2); cbv iota; lia.
Qed.

(** ** Comparing the texts *)

Lemma digit_compare (a b : Z) :
  0 <= a <= 9 → 0 <= b <= 9 → Ascii.compare (digit a) (digit b) = (a ?= b).
Proof.
  intros Ha Hb. unfold Ascii.compare, digit.
  rewrite !N_ascii_embedding by lia.
  rewrite <- N2Z.inj_compare, !N2Z.inj_add, !Z2N.id by lia.
  apply Z.add_compare_mono_l.
Qed.

Lemma ascii_compare_refl (c : ascii) : Ascii.compare c c = Eq.
Proof. unfold Ascii.compare. apply N.compare_refl. Qed.

Lemma string_compare_refl (s : string) : String.compare s s = Eq.
Proof.
  induction s as [|c s IH]; simpl; [reflexivity|].
  now rewrite ascii_compare_refl.
Qed.

Lemma compare_sep (c : ascii) (s s' : string) :
  String.compare (String c s) (String c s') = String.compare s s'.
Proof. simpl. now rewrite ascii_compare_refl. Qed.

Lemma compare_digits2 (x y : Z) (s s' : string) :
  0 <= x < 100 → 0 <= y < 100 →
  String.compare (String (digit (x / 10)) (String (digit (x mod 10)) s))
                 (String (digit (y / 10)) (String (digit (y mod 10)) s'))
  = match x ?= y with
    | Eq => String.compare s s'
    | c => c
    end.
Proof.
  intros Hx Hy. simpl.
  rewrite !digit_compare by (Z.div_mod_to_equations; lia).
  destruct (Z.compare_spec (x / 10) (y / 10)),
           (Z.compare_spec (x mod 10) (y mod 10)),
           (Z.compare_spec x y);
    try reflexivity; exfalso; Z.div_mod_to_equations; lia.
Qed.

Lemma appendInt_2 (x : Z) : 0 <= x < 100 → appendInt x 2 = digits2 x.
Proof.
  intros H. unfold appendInt. rewrite Z.abs_eq by lia.
  destruct (Z.ltb_spec x 0); [lia|]. destruct (Z.ltb_spec x 100); [|lia].
  reflexivity.
Qed.

Lemma appendInt_4 (x : Z) :
  0 <= x < 10000 → appendInt x 4 = digits2 (x / 100) ++ digits2 (x mod 100).
Proof.
  intros H. unfold appendInt. rewrite Z.abs_eq by lia.
  destruct (Z.ltb_spec x 0); [lia|]. destruct (Z.ltb_spec x 10000); [|lia].
  reflexivity.
Qed.

Lemma civil_range (days : Z) :
  -719528 <= days <= 2932896 →
  0 <= (civil days).1.1 <= 9999
  ∧ 1 <= (civil days).1.2 <= 12 ∧ 1 <= (civil days).2 <= 31.
Proof.
  intros H. split.
  - assert (Hlo : (civil (-719528)).1.1 = 0) by (vm_compute; reflexivity).
    assert (Hhi : (civil 2932896).1.1 = 9999) by (vm_compute; reflexivity).
    destruct (Z.eq_dec days (-719528)) as [->|Hne]; [rewrite Hlo; lia|].
    destruct (Z.eq_dec days 2932896) as [->|Hne']; [rewrite Hhi; lia|].
    pose proof (civil_lt (-719528) days ltac:(lia)) as H1.
    pose proof (civil_lt days 2932896 ltac:(lia)) as H2.
    unfold dateLt in H1, H2. rewrite Hlo in H1. rewrite Hhi in H2. lia.
  - unfold civil. cbn [fst snd].
    pose proof (Z.mod_pos_bound (days + 719468) 146097 ltac:(lia)) as Hd.
    destruct (yearOfEra_range _ Hd) as [_ Hdy].
    apply (monthOf_range _ Hdy).
Qed.

Lemma fracDigits_compare (n : nat) (k k' : Z) (z : string) :
  signed z → 0 <= k → k < k' → k' < 10 ^ Z.of_nat n →
  String.compare (fracDigits n k ++ z) (fracDigits n k' ++ z) = Lt.
Proof.
  intros (c & rest & -> & Hc). revert k k'.
  induction n as [|n IH]; intros k k' Hk Hlt Hk'; [simpl in Hk'; lia|].
  assert (Hp : 0 < 10 ^ Z.of_nat n) by (apply Z.pow_pos_nonneg; lia).
  assert (Hpow : 10 ^ Z.of_nat (S n) = 10 * 10 ^ Z.of_nat n)
    by (rewrite Nat2Z.inj_succ, Z.pow_succ_r by lia; reflexivity).
  rewrite Hpow in Hk'.
  cbn [fracDigits].
  destruct (Z.eqb_spec k' 0) as [?|_]; [lia|].
  assert (Hq' : 0 <= k' / 10 ^ Z.of_nat n <= 9).
  { split; [apply Z.div_pos; lia|].
    apply Z.lt_succ_r. apply Z.div_lt_upper_bound; lia. }
  destruct (Z.eqb_spec k 0) as [->|Hk0].
  - change (String.compare (String c rest)
              (String (digit (k' / 10 ^ Z.of_nat n))
                      (fracDigits n (k' mod 10 ^ Z.of_nat n) ++ String c rest)) = Lt).
    assert (Hc' : Ascii.compare c (digit (k' / 10 ^ Z.of_nat n)) = Lt).
    { unfold Ascii.compare, digit. rewrite N_ascii_embedding by lia.
      apply N.compare_lt_iff. destruct Hc as [-> | ->]; simpl; lia. }
    cbn [String.compare]. now rewrite Hc'.
  - change (String.compare
              (String (digit (k / 10 ^ Z.of_nat n))
                      (fracDigits n (k mod 10 ^ Z.of_nat n) ++ String c rest))
              (String (digit (k' / 10 ^ Z.of_nat n))
                      (fracDigits n (k' mod 10 ^ Z.of_nat n) ++ String c rest)) = Lt).
    assert (Hq : 0 <= k / 10 ^ Z.of_nat n <= 9).
    { split; [apply Z.div_pos; lia|].
      apply Z.lt_succ_r. apply Z.div_lt_upper_bound; lia. }
    cbn [String.compare]. rewrite digit_compare by assumption.
    pose proof (Z.div_mod k (10 ^ Z.of_nat n) ltac:(lia)) as E.
    pose proof (Z.div_mod k' (10 ^ Z.of_nat n) ltac:(lia)) as E'.
    pose proof (Z.mod_pos_bound k (10 ^ Z.of_nat n) Hp) as B.
    pose proof (Z.mod_pos_bound k' (10 ^ Z.of_nat n) Hp) as B'.
    destruct (Z.compare_spec (k / 10 ^ Z.of_nat n) (k' / 10 ^ Z.of_nat n))
      as [He|Hl|Hg]; [|reflexivity|exfalso; nia].
    apply IH; [lia| |lia]. rewrite He in E. lia.
Qed.

Lemma appendNano_compare (k k' : Z) (z : string) :
  signed z → 0 <= k → k < k' → k' < 1000000000 →
  String.compare (appendNano k ++ z) (appendNano k' ++ z) = Lt.
Proof.
  intros Hz Hk Hlt Hk'. unfold appendNano.
  destruct (Z.eqb_spec k' 0) as [?|_]; [lia|].
  destruct (Z.eqb_spec k 0) as [->|Hk0].
  - destruct Hz as (c & rest & -> & Hc).
    change (String.compare (String c rest)
              (String "." (fracDigits 9 k' ++ String c rest)) = Lt).
    destruct Hc as [-> | ->]; reflexivity.
  - change (String.compare (String "." (fracDigits 9 k ++ z))
                           (String "." (fracDigits 9 k' ++ z)) = Lt).
    rewrite compare_sep. apply fracDigits_compare; assumption || lia.
Qed.

(** Two timestamps of one zone, within the years that are written with
    four digits: the text of the later one is greater. *)
Lemma sqliteTimestamp_compare (t t' : Time) :
  Offset t = Offset t' → fourDigitYear t → fourDigitYear t' →
  wellFormedTime t → wellFormedTime t' →
  ¬ notAfter t t' →
  String.compare (sqliteTimestamp t) (sqliteTimestamp t') = Gt.
Proof.
  unfold fourDigitYear, wellFormedTime, notAfter, sqliteTimestamp.
  intros Ho Hr Hr' Hn Hn' Hlt. rewrite <- Ho.
  set (wall := Unix t + Offset t) in *.
  set (wall' := Unix t' + Offset t) in *.
  assert (Hw : wall' < wall ∨ (wall' = wall ∧ Nanos t' < Nanos t))
    by (subst wall wall'; lia).
  set (zoneText := (if Z.quot (Offset t) 60 <? 0 then "-" else "+") ++ _).
  assert (Hz : signed zoneText).
  { subst zoneText. destruct (Z.quot (Offset t) 60 <? 0); eexists; eexists;
      (split; [reflexivity|]); auto. }
  set (frac := appendNano (Nanos t) ++ zoneText).
  set (frac' := appendNano (Nanos t') ++ zoneText).
  assert (Hfrac : wall' = wall → String.compare frac frac' = Gt).
  { intros E. destruct Hw as [?|[_ Hlt']]; [lia|]. subst frac frac'.
    rewrite String.compare_antisym.
    rewrite (appendNano_compare (Nanos t') (Nanos t)) by (assumption || lia).
    reflexivity. }
  clearbody frac frac'.
  pose proof (Z.div_mod wall 86400 ltac:(lia)) as He.
  pose proof (Z.div_mod wall' 86400 ltac:(lia)) as He'.
  pose proof (Z.mod_pos_bound wall 86400 ltac:(lia)) as Hc.
  pose proof (Z.mod_pos_bound wall' 86400 ltac:(lia)) as Hc'.
  set (days := wall / 86400) in *. set (days' := wall' / 86400) in *.
  set (clock := wall mod 86400) in *. set (clock' := wall' mod 86400) in *.
  assert (Hcases : dateLt (civil days') (civil days)
                   ∨ (days' = days ∧ clock' < clock)
                   ∨ wall' = wall).
  { destruct (Z.lt_trichotomy days' days) as [H|[H|H]];
      [left; now apply civil_lt| |lia].
    destruct (Z.lt_trichotomy clock' clock) as [H'|[H'|H']];
      [right; left; split; assumption|right; right; lia|lia]. }
  destruct (civil_range days ltac:(lia)) as (Hy & Hm & Hd).
  destruct (civil_range days' ltac:(lia)) as (Hy' & Hm' & Hd').
  assert (Hsame : days' = days → civil days' = civil days) by now intros ->.
  unfold dateLt in Hcases.
  destruct (civil days) as [[y m] d], (civil days') as [[y' m'] d'].
  cbn [fst snd] in *.
  rewrite !appendInt_4, !appendInt_2 by (Z.div_mod_to_equations; lia).
  cbv beta iota fix delta [append digits2].
  rewrite !compare_digits2 by (Z.div_mod_to_equations; lia).
  repeat (rewrite compare_sep;
          rewrite !compare_digits2 by (Z.div_mod_to_equations; lia)).
  destruct Hcases as [Hdate|[[Heq Hclock]|Heq]].
  - repeat match goal with
           | |- context [?a ?= ?b] =>
               destruct (Z.compare_spec a b);
               [|exfalso; Z.div_mod_to_equations; lia|reflexivity]
           end.
    exfalso. Z.div_mod_to_equations. lia.
  - specialize (Hsame Heq). injection Hsame as -> -> ->.
    repeat match goal with
           | |- context [?a ?= ?b] =>
               destruct (Z.compare_spec a b);
               [|exfalso; Z.div_mod_to_equations; lia|reflexivity]
           end.
    exfalso. Z.div_mod_to_equations. lia.
  - assert (Hdays : days' = days) by lia.
    assert (Hclock : clock' = clock) by lia.
    specialize (Hsame Hdays). injection Hsame as -> -> ->. rewrite Hclock.
    rewrite !Z.compare_refl. now apply Hfrac.
Qed.

Lemma sqliteTimestamp_order (t t' : Time) :
  Offset t = Offset t' → fourDigitYear t → fourDigitYear t' →
  wellFormedTime t → wellFormedTime t' →
  String.leb (sqliteTimestamp t) (sqliteTimestamp t') = true →
  notAfter t t'.
Proof.
  intros Ho Hr Hr' Hn Hn' Hle.
  assert (Hdec : notAfter t t' ∨ ¬ notAfter t t') by (unfold notAfter; lia).
  destruct Hdec as [H|H]; [exact H|].
  unfold String.leb in Hle.
  rewrite (sqliteTimestamp_compare t t' Ho Hr Hr' Hn Hn' H) in Hle. discriminate.
Qed.

Lemma string_leb_trans (a b c : string) :
  String.leb a b = true → String.leb b c = true → String.leb a c = true.
Proof.
  unfold String.leb.
  destruct (String.compare a b) eqn:E1; [| |discriminate];
    destruct (String.compare b c) eqn:E2; try discriminate; intros _ _.
  - apply String.compare_eq_iff in E1, E2. subst. now rewrite string_compare_refl.
  - apply String.compare_eq_iff in E1. subst. now rewrite E2.
  - apply String.compare_eq_iff in E2. subst. now rewrite E1.
  - apply OrderedTypeEx.String_as_OT.cmp_lt in E1, E2.
    pose proof (OrderedTypeEx.String_as_OT.lt_trans _ _ _ E1 E2) as H.
    apply OrderedTypeEx.String_as_OT.cmp_lt in H.
    unfold OrderedTypeEx.String_as_OT.cmp in H. now rewrite H.
Qed.

Lemma string_leb_refl (a : string) : String.leb a a = true.
Proof. unfold String.leb. now rewrite string_compare_refl. Qed.

Lemma first_created_at_spec (rows : list Debate) (r : Debate) :
  Db.first_created_at rows = Some r →
  In r rows
  ∧ ∀ r', In r' rows → String.leb (Db.created_at r) (Db.created_at r') = true.
Proof.
  revert r. induction rows as [|x rest IH]; intros r; simpl; [discriminate|].
  destruct (Db.first_created_at rest) as [m|] eqn:Hm.
  - destruct (IH m eq_refl) as [Hin Hmin].
    destruct (String.leb (Db.created_at x) (Db.created_at m)) eqn:Hle;
      intros [= <-].
    + split; [now left|]. intros r' [<-|Hr']; [apply string_leb_refl|].
      apply (string_leb_trans _ _ _ Hle). now apply Hmin.
    + split; [now right|]. intros r' [<-|Hr']; [|now apply Hmin].
      destruct (String.leb_total (Db.created_at m) (Db.created_at x)) as [H|H];
        [exact H|congruence].
  - intros [= <-]. split; [now left|].
    destruct rest as [|y rest']; [intros r' [<-|[]]; apply string_leb_refl|].
    simpl in Hm.
    destruct (Db.first_created_at rest') as [m|];
      [destruct (String.leb (Db.created_at y) (Db.created_at m))|]; discriminate.
Qed.

Lemma first_created_at_none (rows : list Debate) :
  Db.first_created_at rows = None → rows = [].
Proof.
  destruct rows as [|x rest]; [reflexivity|]. simpl.
  destruct (Db.first_created_at rest) as [m|];
    [destruct (String.leb (Db.created_at x) (Db.created_at m))|]; discriminate.
Qed.

Lemma available_iff (d : Database) (r : Debate) :
  Db.available d r = true ↔ Status r = "waiting" ∧ (Db.bot_count d (ID r) < 2)%nat.
Proof.
  unfold Db.available. now rewrite andb_true_iff, String.eqb_eq, Nat.ltb_lt.
Qed.

Lemma GetAvailableDebate_first (d : Database) (r : Debate) :
  Db.GetAvailableDebate d = Some r →
  In r (tbl_debates d)
  ∧ Status r = "waiting"
  ∧ (Db.bot_count d (ID r) < 2)%nat
  ∧ ∀ r', In r' (tbl_debates d) → Status r' = "waiting" →
          (Db.bot_count d (ID r') < 2)%nat →
          String.leb (Db.created_at r) (Db.created_at r') = true.
Proof.
  unfold Db.GetAvailableDebate. intros H.
  destruct (first_created_at_spec _ _ H) as [Hin Hmin].
  apply filter_In in Hin. destruct Hin as [Hin Hav].
  apply available_iff in Hav. destruct Hav as [Hst Hc].
  repeat split; try assumption.
  intros r' Hin' Hst' Hc'. apply Hmin. apply filter_In. split; [assumption|].
  now apply available_iff.
Qed.

Lemma GetAvailableDebate_none (d : Database) :
  Db.GetAvailableDebate d = None →
  ∀ r, In r (tbl_debates d) → Status r = "waiting" →
       ¬ (Db.bot_count d (ID r) < 2)%nat.
Proof.
  unfold Db.GetAvailableDebate. intros H r Hin Hst Hc.
  apply first_created_at_none in H.
  assert (Hf : In r (List.filter (Db.available d) (tbl_debates d))).
  { apply filter_In. split; [assumption|]. now apply available_iff. }
  rewrite H in Hf. destruct Hf.
Qed.

(** Across zones the text order is not the order of creation: of two
    waiting debates, the one created half an hour later, by a server five
    hours west, is the one a join request is given. *)
Lemma GetAvailableDebate_across_zones :
  match run envNoJudge twoZones emptyWorld with
  | Ok _ w =>
      (ID <$> Db.GetAvailableDebate (db w)) = Some "debate-u2"
      ∧ map (λ r, (ID r, Unix (CreatedAt r), Db.created_at r)) (tbl_debates (db w))
        = [ ("debate-u1", 36000, "1970-01-01 10:00:00+00:00");
            ("debate-u2", 37800, "1970-01-01 05:30:00-05:00") ]
  | Panic => False
  end.
Proof. vm_compute. split; reflexivity. Qed.

Lemma resolveDebate_auto (loginReq : LoginRequest) (w : World) (r : Debate) :
  lr_DebateID loginReq = "" →
  Db.GetAvailableDebate (db w) = Some r →
  resolveDebate loginReq w = resolveDebate (withDebateID (ID r) loginReq) w.
Proof.
  intros He Hr. unfold resolveDebate, gets, mbind, M_bind. simpl.
  rewrite He, Hr. simpl.
  destruct (String.eqb (ID r) ""); reflexivity.
Qed.

(** C7 (amended).  A join request with no session id is rejected
    no_available_debate when storage holds no waiting debate with fewer
    than two bots, and is otherwise treated as a request for the one of
    these debates whose stored [created_at] text comes first, which is not
    younger than any of them whose creation time was stored with the same
    zone offset (in the years 0000 to 9999); a request for an id that is
    neither in the live registry nor in storage is rejected
    debate_not_found; for an id absent from the live registry whose stored
    status is not waiting it is rejected debate_not_ready with retry hint
    5; a session that is in the live registry is not checked for its
    status: with both slots filled the request is rejected debate_full.
    Each of these rejections leaves the manager unchanged. *)
Theorem join_rejections (loginReq : LoginRequest) (conn : Conn)
    (debateKey : string) (now : Time) (w : World) :
  (lr_DebateID loginReq = "" →
   Db.GetAvailableDebate (db w) = None →
   (∀ r, In r (tbl_debates (db w)) → Status r = "waiting" →
         ¬ (Db.bot_count (db w) (ID r) < 2)%nat)
   ∧ ∃ rej, BotLogin loginReq conn debateKey now w = Ok (inr rej) w
            ∧ rej_Reason rej = "no_available_debate")
  ∧ (∀ r, lr_DebateID loginReq = "" →
          Db.GetAvailableDebate (db w) = Some r →
          In r (tbl_debates (db w))
          ∧ Status r = "waiting"
          ∧ (Db.bot_count (db w) (ID r) < 2)%nat
          ∧ (∀ r', In r' (tbl_debates (db w)) → Status r' = "waiting" →
                   (Db.bot_count (db w) (ID r') < 2)%nat →
                   String.leb (Db.created_at r) (Db.created_at r') = true
                   ∧ (Offset (CreatedAt r) = Offset (CreatedAt r') →
                      fourDigitYear (CreatedAt r) → fourDigitYear (CreatedAt r') →
                      wellFormedTime (CreatedAt r) → wellFormedTime (CreatedAt r') →
                      notAfter (CreatedAt r) (CreatedAt r')))
          ∧ BotLogin loginReq conn debateKey now w
            = BotLogin (withDebateID (ID r) loginReq) conn debateKey now w)
  ∧ (lr_DebateID loginReq ≠ "" →
     debates w !! lr_DebateID loginReq = None →
     Db.GetDebate (db w) (lr_DebateID loginReq) = None →
     ∃ rej, BotLogin loginReq conn debateKey now w = Ok (inr rej) w
            ∧ rej_Reason rej = "debate_not_found")
  ∧ (∀ r, lr_DebateID loginReq ≠ "" →
          debates w !! lr_DebateID loginReq = None →
          Db.GetDebate (db w) (lr_DebateID loginReq) = Some r →
          Status r ≠ "waiting" →
          ∃ rej, BotLogin loginReq conn debateKey now w = Ok (inr rej) w
                 ∧ rej_Reason rej = "debate_not_ready"
                 ∧ rej_RetryAfter rej = 5)
  ∧ (∀ a, lr_DebateID loginReq ≠ "" →
          debates w !! lr_DebateID loginReq = Some a →
          full a = true →
          ∃ rej, BotLogin loginReq conn debateKey now w = Ok (inr rej) w
                 ∧ rej_Reason rej = "debate_full").
Proof.
  repeat apply conj.
  - intros He Hn. split; [now apply GetAvailableDebate_none|].
    eexists. split.
    + unfold BotLogin, resolveDebate, gets, mbind, M_bind. simpl.
      rewrite He, Hn. reflexivity.
    + reflexivity.
  - intros r He Hr.
    destruct (GetAvailableDebate_first _ _ Hr) as (H1 & H2 & H3 & H4).
    split; [exact H1|]. split; [exact H2|]. split; [exact H3|]. split.
    + intros r' Hin Hst Hc. pose proof (H4 r' Hin Hst Hc) as Hle.
      split; [exact Hle|]. intros Ho Hy Hy' Hn Hn'.
      now apply (sqliteTimestamp_order _ _ Ho Hy Hy' Hn Hn').
    + unfold BotLogin. unfold mbind at 1 3. unfold M_bind at 1 3.
      rewrite (resolveDebate_auto loginReq w r He Hr). reflexivity.
  - intros Hne Hl Hg. apply String.eqb_neq in Hne.
    eexists. split.
    + unfold BotLogin, resolveDebate, getDebate, gets, mbind, M_bind. simpl.
      rewrite Hne, Hl, Hg. reflexivity.
    + reflexivity.
  - intros r Hne Hl Hg Hst. apply String.eqb_neq in Hne. apply String.eqb_neq in Hst.
    eexists. split.
    + unfold BotLogin, resolveDebate, getDebate, gets, mbind, M_bind. simpl.
      rewrite Hne, Hl, Hg, Hst. reflexivity.
    + split; reflexivity.
  - intros a Hne Hl Hf. apply String.eqb_neq in Hne.
    eexists. split.
    + unfold BotLogin, resolveDebate, getDebate, gets, mbind, M_bind. simpl.
      rewrite Hne, Hl. simpl. fold (full a). rewrite Hf. reflexivity.
    + reflexivity.
Qed.

Lemma join_rejections_witness :
  (∃ rej, BotLogin loginAlpha 1%nat "key-a" 11 emptyWorld = Ok (inr rej) emptyWorld
          ∧ rej_Reason rej = "no_available_debate")
  ∧ (∃ w r r', run envNoJudge twoWaiting emptyWorld = Ok () w
               ∧ tbl_debates (db w) = [r; r']
               ∧ Db.GetAvailableDebate (db w) = Some r
               ∧ ID r = "debate-u1"
               ∧ Db.created_at r = "1970-01-01 00:00:10+00:00"
               ∧ Db.created_at r' = "1970-01-01 00:00:20+00:00"
               ∧ notAfter (CreatedAt r) (CreatedAt r')
               ∧ BotLogin loginAlpha 1%nat "key-a" 21 w
                 = BotLogin (withDebateID "debate-u1" loginAlpha) 1%nat "key-a" 21 w)
  ∧ (∃ rej, BotLogin loginGamma 3%nat "key-c" 14 emptyWorld = Ok (inr rej) emptyWorld
            ∧ rej_Reason rej = "debate_not_found")
  ∧ (∃ w, run envNoJudge waitedOut emptyWorld = Ok () w
          ∧ debates w !! "debate-u1" = None
          ∧ ∃ rej, BotLogin loginGamma 3%nat "key-c" 21 w = Ok (inr rej) w
                   ∧ rej_Reason rej = "debate_not_ready"
                   ∧ rej_RetryAfter rej = 5)
  ∧ (∃ w, run envNoJudge (started 1) emptyWorld = Ok () w
          ∧ ∃ rej, BotLogin loginGamma 3%nat "key-c" 14 w = Ok (inr rej) w
                   ∧ rej_Reason rej = "debate_full").
Proof.
  split; [|split; [|split; [|split]]].
  - destruct (join_rejections loginAlpha 1%nat "key-a" 11 emptyWorld)
      as (H & _).
    destruct (H eq_refl eq_refl) as (_ & H'). exact H'.
  - eexists. eexists. eexists.
    split; [vm_compute; reflexivity|]. split; [vm_compute; reflexivity|].
    match goal with
    | |- Db.GetAvailableDebate (db ?w) = Some ?r ∧ _ ∧ _ ∧ Db.created_at ?r' = _ ∧ _ =>
        destruct (join_rejections loginAlpha 1%nat "key-a" 21 w)
          as (_ & H & _);
        destruct (H r eq_refl ltac:(vm_compute; reflexivity))
          as (_ & _ & _ & Hfirst & Hlogin);
        destruct (Hfirst r' ltac:(right; left; reflexivity)
                    ltac:(reflexivity) ltac:(vm_compute; lia)) as [_ Hold]
    end.
    split; [vm_compute; reflexivity|]. split; [reflexivity|].
    split; [vm_compute; reflexivity|]. split; [vm_compute; reflexivity|].
    split; [|exact Hlogin].
    apply Hold; [reflexivity|unfold fourDigitYear; simpl; lia
                |unfold fourDigitYear; simpl; lia
                |unfold wellFormedTime; simpl; lia
                |unfold wellFormedTime; simpl; lia].
  - destruct (join_rejections loginGamma 3%nat "key-c" 14 emptyWorld)
      as (_ & _ & H & _).
    apply H; [discriminate|reflexivity|reflexivity].
  - eexists. split; [vm_compute; reflexivity|]. split; [reflexivity|].
    match goal with
    | |- ∃ rej, BotLogin _ _ _ _ ?w = _ ∧ _ =>
        destruct (join_rejections loginGamma 3%nat "key-c" 21 w)
          as (_ & _ & _ & H & _)
    end.
    eapply H; [discriminate|reflexivity|vm_compute; reflexivity|discriminate].
  - eexists. split; [vm_compute; reflexivity|].
    match goal with
    | |- ∃ rej, BotLogin _ _ _ _ ?w = _ ∧ _ =>
        destruct (join_rejections loginGamma 3%nat "key-c" 14 w)
          as (_ & _ & _ & _ & H)
    end.
    eapply H; [discriminate|vm_compute; reflexivity|reflexivity].
Defined.

(** C7 (as stated) fails: a running debate is found and is not waiting,
    yet a join request for it is rejected debate_full, without a retry
    hint, and not debate_not_ready. *)
Lemma join_active_session_counterexample :
  match run envNoJudge (started 1) emptyWorld with
  | Ok _ w =>
      (Status ∘ Debate_ <$> debates w !! "debate-u1") = Some "active"
      ∧ match BotLogin loginGamma 3%nat "key-c" 14 w with
        | Ok (inr rej) _ =>
            rej_Reason rej = "debate_full"
            ∧ rej_Reason rej ≠ "debate_not_ready"
            ∧ rej_RetryAfter rej = 0
        | _ => False
        end
  | Panic => False
  end.
Proof. vm_compute. repeat split. discriminate. Qed.

(** ** Terminal transition and timers *)

(** C1 (code defect).  [endDebate] does not look at the status.  When the
    speech timer and the max-duration timer of a running debate expire
    together, the first callback ends the debate (status timeout, one
    result stored, one debate_end to each bot and to the observers) and the
    second callback does all of it again: a second debate_end reaches both
    bots and the observers, with another reason, and a second insert of the
    result is attempted and refused by the primary key of the results
    table.  The same happens without any race when a timer that a late
    speech armed on the ended session runs out. *)
Theorem endDebate_twice_ends_twice :
  let first := run envNoJudge firstCallback emptyWorld in
  let second := run envNoJudge secondCallback emptyWorld in
  let late := run envNoJudge timedOutTwice emptyWorld in
  observe (statusOf "debate-u1") (run envNoJudge bothExpired emptyWorld)
    = Some (Some "active")
  ∧ observe (transcriptLength "debate-u1") first = Some (Some 30%nat)
  ∧ observe (statusOf "debate-u1") first = Some (Some "timeout")
  ∧ observe (λ w, length (endBroadcasts "debate-u1" w)) first = Some 1%nat
  ∧ observe (λ w, length (endFrames 1%nat w)) first = Some 1%nat
  ∧ observe (storedResults "debate-u1") first = Some 1%nat
  ∧ observe (statusOf "debate-u1") second = Some (Some "timeout")
  ∧ observe (λ w, length (endBroadcasts "debate-u1" w)) second = Some 2%nat
  ∧ observe (λ w, length (endFrames 1%nat w)) second = Some 2%nat
  ∧ observe (λ w, length (endFrames 2%nat w)) second = Some 2%nat
  ∧ observe (storedResults "debate-u1") second = Some 1%nat
  ∧ observe (λ w, map (λ m, match msg_Data m with
                            | DataDebateEnd e => Reason (de_DebateResult e)
                            | _ => ""
                            end) (endBroadcasts "debate-u1" w)) second
    = Some ["speech_timeout"; "max_duration_timeout"]
  ∧ observe (statusOf "debate-u1") late = Some (Some "timeout")
  ∧ observe (λ w, length (endBroadcasts "debate-u1" w)) late = Some 2%nat
  ∧ observe (λ w, length (endFrames 1%nat w)) late = Some 2%nat
  ∧ observe (storedResults "debate-u1") late = Some 1%nat.
Proof. cbv zeta. repeat split; vm_compute; reflexivity. Qed.

(** [endDebate] on a session that it already ended is not a no-op, whatever
    the session: the observers are sent one more debate_end. *)
Lemma endDebate_not_idempotent (env : Env) (w w' : World)
    (debateID status reason : string) (now : Time) :
  endDebate env debateID status reason now w = Ok () w' →
  is_Some (debates w !! debateID) →
  length (broadcast w') = S (length (broadcast w)).
Proof.
  unfold endDebate, getDebate, gets, deref, mbind, M_bind.
  intros H [a Ha]. rewrite Ha in H. simpl in H.
  destruct (Stop (WaitingTimer a) w) as [[] w1|] eqn:E1; [|discriminate].
  destruct (Stop (TimeoutTimer a) w1) as [[] w2|] eqn:E2; [|discriminate].
  destruct (Stop (InactivityTimer a) w2) as [[] w3|] eqn:E3; [|discriminate].
  destruct (Stop (MaxDurationTimer a) w3) as [[] w4|] eqn:E4; [|discriminate].
  assert (Hstop : ∀ h u u', Stop h u = Ok () u' → broadcast u' = broadcast u).
  { intros [tid|] u u'; simpl; unfold modify, mret, M_ret; intros [= <-]; reflexivity. }
  apply Hstop in E1, E2, E3, E4.
  unfold db_exec, db_try, assign, modify, mret, M_ret, send_broadcast in H.
  simpl in H.
  destruct (alter (set_Status status) debateID (debates w4) !! debateID)
    as [a'|]; [|discriminate].
  simpl in H.
  destruct (generateDebateResult env a' status reason) as [r| |]; try discriminate.
  simpl in H.
  destruct (supporting a') as [[bs [cs|]]|], (opposing a') as [[bo [co|]]|];
    simpl in H; unfold modify in H; simpl in H; injection H as <-; simpl;
    rewrite length_app; simpl; rewrite E4, E3, E2, E1; lia.
Qed.

(** C2 (code defect).  [HandleSpeech] does not look at the status either.
    After the debate timed out (terminal, every timer stopped, result
    stored), a speech of the bot whose turn it was is accepted: the
    transcript grows, and the speech and inactivity timers are armed again
    on the terminal session.  When that speech timer then runs out, its
    callback is not a no-op: it ends the debate again.  When instead the
    other bot speaks, the round counter is incremented and the debate is
    ended a second time, turning the stored status from timeout into
    completed. *)
Theorem terminal_session_still_mutates :
  let ended := run envNoJudge timedOut emptyWorld in
  let spoke := run envNoJudge timedOutThenAlpha emptyWorld in
  let fired := run envNoJudge timedOutTwice emptyWorld in
  let both := run envNoJudge timedOutThenBoth emptyWorld in
  observe (statusOf "debate-u1") ended = Some (Some "timeout")
  ∧ observe (transcriptLength "debate-u1") ended = Some (Some 0%nat)
  ∧ observe (roundOf "debate-u1") ended = Some (Some 1)
  ∧ observe pendingKinds ended = Some []
  ∧ observe (storedResults "debate-u1") ended = Some 1%nat
  ∧ observe (λ w, length (written w)) ended = Some 4%nat
  ∧ observe (statusOf "debate-u1") spoke = Some (Some "timeout")
  ∧ observe (transcriptLength "debate-u1") spoke = Some (Some 1%nat)
  ∧ observe (lastSpeakerOf "debate-u1") spoke = Some (Some "alpha-aaaaaaaa")
  ∧ observe pendingKinds spoke = Some [InactivityT; SpeechT "beta-bbbbbbbb"]
  ∧ observe (statusOf "debate-u1") fired = Some (Some "timeout")
  ∧ observe (λ w, length (endBroadcasts "debate-u1" w)) fired = Some 2%nat
  ∧ observe (λ w, length (written w)) fired = Some 8%nat
  ∧ observe (statusOf "debate-u1") both = Some (Some "completed")
  ∧ observe (storedStatus "debate-u1") both = Some (Some "completed")
  ∧ observe (transcriptLength "debate-u1") both = Some (Some 2%nat)
  ∧ observe (roundOf "debate-u1") both = Some (Some 2)
  ∧ observe (λ w, length (endBroadcasts "debate-u1" w)) both = Some 2%nat.
Proof. cbv zeta. repeat split; vm_compute; reflexivity. Qed.

(** The guards that do exist: the join-wait callback acts on a waiting
    session only, and a disconnect ends an active session only. *)
Lemma waitingTimeout_guarded (w : World) (debateID : string) (now : Time)
    (a : ActiveDebate) :
  debates w !! debateID = Some a →
  Status (Debate_ a) ≠ "waiting" →
  waitingTimeout debateID now w = Ok () w.
Proof.
  intros Hl Hs. unfold waitingTimeout, getDebate, gets, mbind, M_bind.
  rewrite Hl. apply String.eqb_neq in Hs. rewrite Hs. reflexivity.
Qed.

Lemma HandleBotDisconnect_guarded (env : Env) (w : World)
    (debateID botIdentifier reason : string) (now : Time) (a : ActiveDebate) :
  debates w !! debateID = Some a →
  Status (Debate_ a) ≠ "active" →
  HandleBotDisconnect env debateID botIdentifier reason now w = Ok () w.
Proof.
  intros Hl Hs. unfold HandleBotDisconnect, getDebate, gets, mbind, M_bind.
  rewrite Hl. apply String.eqb_neq in Hs. rewrite Hs. reflexivity.
Qed.

(** C4 (code defect).  [HandleSpeech] stops the speech timer and resets the
    inactivity timer before it validates the length.  A speech of the
    expected speaker that is too short (or too long) is rejected,
    recoverable, with the transcript and the last speaker unchanged, but
    the pending speech timer is stopped and never armed again, and the
    inactivity timer is replaced by a fresh one. *)
Theorem length_rejection_touches_timers :
  match run envNoJudge (started 1) emptyWorld with
  | Ok _ w =>
      pendingKinds w = [SpeechT "alpha-aaaaaaaa"; InactivityT; MaxDurationT]
      ∧ (InactivityTimer <$> session "debate-u1" w) = Some (Some 2%nat)
      ∧ match HandleSpeech envNoJudge alphaEmpty 14 w with
        | Ok (Some e) w' =>
            ErrorCode e = "CONTENT_TOO_SHORT"
            ∧ Recoverable e = true
            ∧ transcriptLength "debate-u1" w' = transcriptLength "debate-u1" w
            ∧ lastSpeakerOf "debate-u1" w' = lastSpeakerOf "debate-u1" w
            ∧ pendingKinds w' = [MaxDurationT; InactivityT]
            ∧ (InactivityTimer <$> session "debate-u1" w') = Some (Some 4%nat)
            ∧ timers w' ≠ timers w
        | _ => False
        end
      ∧ match HandleSpeech envNoJudge alphaLong 14 w with
        | Ok (Some e) w' =>
            ErrorCode e = "CONTENT_TOO_LONG"
            ∧ Recoverable e = true
            ∧ transcriptLength "debate-u1" w' = transcriptLength "debate-u1" w
            ∧ pendingKinds w' = [MaxDurationT; InactivityT]
        | _ => False
        end
  | Panic => False
  end.
Proof. vm_compute. repeat split. discriminate. Qed.

(** ** Round counter *)

(** C6 (code defect).  In a one-round debate the counter starts at 1 and
    the debate completes when the opposing bot's speech takes it to 2;
    as [HandleSpeech] has no status check, one more speech of each bot is
    then accepted and takes the counter to 3, beyond total_rounds + 1. *)
Theorem round_counter_exceeds_bound :
  let fresh := run envNoJudge (created 1) emptyWorld in
  let done := run envNoJudge finishedOnce emptyWorld in
  let more := run envNoJudge anotherRound emptyWorld in
  observe (roundOf "debate-u1") fresh = Some (Some 1)
  ∧ observe (totalRoundsOf "debate-u1") done = Some (Some 1)
  ∧ observe (statusOf "debate-u1") done = Some (Some "completed")
  ∧ observe (roundOf "debate-u1") done = Some (Some 2)
  ∧ observe (statusOf "debate-u1") more = Some (Some "completed")
  ∧ observe (roundOf "debate-u1") more = Some (Some 3)
  ∧ observe (transcriptLength "debate-u1") more = Some (Some 4%nat)
  ∧ observe (λ w, length (endBroadcasts "debate-u1" w)) more = Some 2%nat.
Proof. cbv zeta. repeat split; vm_compute; reflexivity. Qed.

(** ** The effect of a speech on its session *)

Lemma bind_Ok {A B} (m : M A) (k : A → M B) (w w1 : World) (x : A) :
  m w = Ok x w1 → (m ≫= k) w = k x w1.
Proof. intros H. unfold mbind, M_bind. rewrite H. reflexivity. Qed.

Lemma Stop_spec (h : option nat) (w : World) :
  Stop h w = Ok () (set_timers (stopped h (timers w)) w).
Proof. destruct h; simpl; [reflexivity|]. destruct w; reflexivity. Qed.

Lemma assign_spec (debateID : string) (f : ActiveDebate → ActiveDebate) (w : World) :
  assign debateID f w = Ok () (set_debates (alter f debateID (debates w)) w).
Proof. reflexivity. Qed.

Lemma startTimeout_spec (debateID speaker : string) (w : World) :
  is_Some (debates w !! debateID) →
  startTimeout debateID speaker w
  = Ok () (armed (SpeechT speaker) debateID set_TimeoutTimer w).
Proof.
  intros [a Ha]. unfold startTimeout, getDebate, gets, mbind, M_bind.
  rewrite Ha. reflexivity.
Qed.

Lemma startInactivityTimer_spec (debateID : string) (w : World) :
  is_Some (debates w !! debateID) →
  startInactivityTimer debateID w
  = Ok () (armed InactivityT debateID set_InactivityTimer w).
Proof.
  intros [a Ha]. unfold startInactivityTimer, getDebate, gets, mbind, M_bind.
  rewrite Ha. reflexivity.
Qed.

Lemma resetInactivityTimer_spec (debateID : string) (w : World) (a : ActiveDebate) :
  debates w !! debateID = Some a →
  resetInactivityTimer debateID w
  = Ok () (armed InactivityT debateID set_InactivityTimer
             (set_timers (stopped (InactivityTimer a) (timers w)) w)).
Proof.
  intros Ha. unfold resetInactivityTimer, getDebate, gets.
  unfold mbind at 1. unfold M_bind at 1. rewrite Ha.
  rewrite (bind_Ok _ _ _ _ _ (Stop_spec _ _)).
  apply startInactivityTimer_spec. simpl. rewrite Ha. eauto.
Qed.

Lemma HandleSpeech_too_short (env : Env) (w : World) (speech : DebateSpeech)
    (now : Time) (a : ActiveDebate) (bot : ConnectedBot) :
  debates w !! sp_DebateID speech = Some a →
  speakerOf a (sp_Speaker speech) = Some bot →
  DebateKey (cb_Bot bot) = sp_DebateKey speech →
  getNextSpeaker a = Some (sp_Speaker speech) →
  Z.of_nat (String.length (TrimSpace env (Content (sp_Message speech))))
    < MinContentLength (config env) →
  ∃ e, HandleSpeech env speech now w = Ok (Some e) (touched (sp_DebateID speech) now a w)
    ∧ ErrorCode e = "CONTENT_TOO_SHORT" ∧ Recoverable e = true.
Proof.
  intros Hl Hs Hk Hn Hlen.
  unfold HandleSpeech, getDebate, gets.
  unfold mbind at 1. unfold M_bind at 1.
  rewrite Hl, Hs, Hk, String.eqb_refl, Hn, String.eqb_refl. cbn [negb].
  rewrite (bind_Ok _ _ _ _ _ (Stop_spec _ _)).
  rewrite (bind_Ok _ _ _ _ _ (assign_spec _ _ _)).
  erewrite bind_Ok.
  2:{ apply resetInactivityTimer_spec. simpl. rewrite lookup_alter_eq, Hl. reflexivity. }
  apply Z.ltb_lt in Hlen. rewrite Hlen.
  eexists. split.
  - unfold touched. simpl. reflexivity.
  - split; reflexivity.
Qed.

Lemma bind_inv {A B} (m : M A) (k : A → M B) (w w' : World) (r : B) :
  (m ≫= k) w = Ok r w' → ∃ x w1, m w = Ok x w1 ∧ k x w1 = Ok r w'.
Proof.
  unfold mbind, M_bind. destruct (m w) as [x w1|]; [|discriminate]. eauto.
Qed.

Lemma deref_spec (debateID : string) (w : World) (a : ActiveDebate) :
  debates w !! debateID = Some a → deref debateID w = Ok a w.
Proof.
  intros Ha. unfold deref, getDebate, gets, mbind, M_bind. rewrite Ha. reflexivity.
Qed.

Lemma deref_inv (debateID : string) (w w' : World) (a : ActiveDebate) :
  deref debateID w = Ok a w' → w' = w ∧ debates w !! debateID = Some a.
Proof.
  unfold deref, getDebate, gets, mbind, M_bind.
  destruct (debates w !! debateID) as [a0|]; [|discriminate].
  intros [= <- <-]. split; reflexivity.
Qed.

Lemma WriteJSON_debates (conn : option Conn) (msg : Message) (w w' : World) (x : ()) :
  WriteJSON conn msg w = Ok x w' → debates w' = debates w.
Proof. destruct conn; simpl; [|discriminate]. intros [= _ <-]. reflexivity. Qed.

Lemma sendDebateUpdate_debates (env : Env) (debateID nextSpeaker : string)
    (w w' : World) (x : ()) :
  sendDebateUpdate env debateID nextSpeaker w = Ok x w' → debates w' = debates w.
Proof.
  unfold sendDebateUpdate. intros H. destruct x.
  apply bind_inv in H. destruct H as (a & w1 & H1 & H).
  apply deref_inv in H1. destruct H1 as [-> Ha].
  destruct (supporting a) as [sup|]; [|discriminate].
  destruct (opposing a) as [opp|]; [|discriminate].
  apply bind_inv in H. destruct H as ([] & w1 & H1 & H).
  apply bind_inv in H. destruct H as ([] & w2 & H2 & H).
  apply WriteJSON_debates in H1, H2. injection H as <-. simpl. congruence.
Qed.

Lemma write_end_debates (o : option ConnectedBot) (m : Message) (w w' : World)
    (x : ()) :
  match o with
  | Some {| cb_Conn := Some c |} => WriteJSON (Some c) m
  | _ => mret ()
  end w = Ok x w' → debates w' = debates w.
Proof.
  destruct x.
  destruct o as [[b [c|]]|]; simpl; unfold mret, M_ret, modify;
    intros [= <-]; reflexivity.
Qed.

Lemma endDebate_debates (env : Env) (debateID status reason : string) (now : Time)
    (w w' : World) (x : ()) (a : ActiveDebate) :
  debates w !! debateID = Some a →
  endDebate env debateID status reason now w = Ok x w' →
  debates w' = alter (set_Status status) debateID (debates w).
Proof.
  intros Ha. destruct x. unfold endDebate, getDebate, gets.
  unfold mbind at 1. unfold M_bind at 1. rewrite Ha.
  rewrite (bind_Ok _ _ _ _ _ (Stop_spec _ _)).
  rewrite (bind_Ok _ _ _ _ _ (Stop_spec _ _)).
  rewrite (bind_Ok _ _ _ _ _ (Stop_spec _ _)).
  rewrite (bind_Ok _ _ _ _ _ (Stop_spec _ _)).
  intros H.
  apply bind_inv in H. destruct H as ([] & w1 & H1 & H).
  unfold db_exec, modify in H1. injection H1 as <-.
  rewrite (bind_Ok _ _ _ _ _ (assign_spec _ _ _)) in H.
  apply bind_inv in H. destruct H as (a' & w2 & H2 & H).
  apply deref_inv in H2. destruct H2 as [-> Ha'].
  destruct (generateDebateResult env a' status reason) as [r| |]; try discriminate.
  apply bind_inv in H. destruct H as ([] & w3 & H3 & H).
  unfold db_try, modify in H3. injection H3 as <-.
  apply bind_inv in H. destruct H as ([] & w4 & H4 & H).
  apply bind_inv in H. destruct H as ([] & w5 & H5 & H).
  unfold send_broadcast, modify in H. injection H as <-.
  apply write_end_debates in H4, H5. simpl. rewrite H5, H4. reflexivity.
Qed.

Lemma startTimeout_debates (debateID speaker : string) (w w' : World) (x : ())
    (a : ActiveDebate) :
  debates w !! debateID = Some a →
  startTimeout debateID speaker w = Ok x w' →
  debates w' = alter (set_TimeoutTimer (Some (length (timers w)))) debateID (debates w).
Proof.
  intros Ha. rewrite startTimeout_spec by (rewrite Ha; eauto).
  destruct x. intros [= <-]. reflexivity.
Qed.

Lemma db_exec_spec (f : Database → Database) (w : World) :
  db_exec f w = Ok () (set_db (f (db w)) w).
Proof. reflexivity. Qed.

Lemma sides_set_TimeoutTimer (h : option nat) (a : ActiveDebate) :
  supporting (set_TimeoutTimer h a) = supporting a
  ∧ opposing (set_TimeoutTimer h a) = opposing a.
Proof. split; reflexivity. Qed.

Lemma sides_set_Status (s : string) (a : ActiveDebate) :
  supporting (set_Status s a) = supporting a
  ∧ opposing (set_Status s a) = opposing a.
Proof. split; reflexivity. Qed.

Lemma sides_set_CurrentRound (n : Z) (a : ActiveDebate) :
  supporting (set_CurrentRound n a) = supporting a
  ∧ opposing (set_CurrentRound n a) = opposing a.
Proof. split; reflexivity. Qed.

(** What a call of [HandleSpeech] that returns does to the session it is
    for. *)
Lemma HandleSpeech_effect (env : Env) (w w' : World) (speech : DebateSpeech)
    (now : Time) (r : option ErrorMessage) (a : ActiveDebate) :
  debates w !! sp_DebateID speech = Some a →
  HandleSpeech env speech now w = Ok r w' →
  ∃ a', debates w' !! sp_DebateID speech = Some a'
    ∧ TotalRounds (Debate_ a') = TotalRounds (Debate_ a)
    ∧ supporting a' = supporting a
    ∧ opposing a' = opposing a
    ∧ match r with
      | Some e =>
          DebateLog a' = DebateLog a
          ∧ LastSpeaker a' = LastSpeaker a
          ∧ CurrentRound (Debate_ a') = CurrentRound (Debate_ a)
          ∧ Status (Debate_ a') = Status (Debate_ a)
      | None =>
          getNextSpeaker a = Some (sp_Speaker speech)
          ∧ (∃ entry, DebateLog a' = (DebateLog a ++ [entry])%list
                      ∧ e_Speaker entry = sp_Speaker speech
                      ∧ e_Round entry = CurrentRound (Debate_ a))
          ∧ LastSpeaker a' = sp_Speaker speech
          ∧ ∃ sup, supporting a = Some sup
              ∧ if String.eqb (sp_Speaker speech) (BotIdentifier (cb_Bot sup))
                then CurrentRound (Debate_ a') = CurrentRound (Debate_ a)
                     ∧ Status (Debate_ a') = Status (Debate_ a)
                else CurrentRound (Debate_ a') = wrap64 (CurrentRound (Debate_ a) + 1)
                     ∧ Status (Debate_ a')
                       = if TotalRounds (Debate_ a) <? CurrentRound (Debate_ a')
                         then "completed" else Status (Debate_ a)
      end.
Proof.
  intros Hl. unfold HandleSpeech, getDebate, gets.
  unfold mbind at 1. unfold M_bind at 1. rewrite Hl.
  destruct (speakerOf a (sp_Speaker speech)) as [bot|].
  2:{ intros [= <- <-]. exists a. rewrite Hl. repeat split. }
  destruct (negb (String.eqb (DebateKey (cb_Bot bot)) (sp_DebateKey speech))).
  { intros [= <- <-]. exists a. rewrite Hl. repeat split. }
  destruct (getNextSpeaker a) as [expected|] eqn:Hn; [|discriminate].
  destruct (String.eqb_spec (sp_Speaker speech) expected) as [<-|Hne]; cbn [negb].
  2:{ intros [= <- <-]. exists a. rewrite Hl. repeat split. }
  rewrite (bind_Ok _ _ _ _ _ (Stop_spec _ _)).
  rewrite (bind_Ok _ _ _ _ _ (assign_spec _ _ _)).
  erewrite bind_Ok.
  2:{ apply resetInactivityTimer_spec. simpl. rewrite lookup_alter_eq, Hl. reflexivity. }
  destruct (_ <? MinContentLength (config env)).
  { intros [= <- <-]. eexists. split.
    - simpl. rewrite !lookup_alter_eq, Hl. reflexivity.
    - repeat split. }
  destruct (MaxContentLength (config env) <? _).
  { intros [= <- <-]. eexists. split.
    - simpl. rewrite !lookup_alter_eq, Hl. reflexivity.
    - repeat split. }
  rewrite (bind_Ok _ _ _ _ _ (assign_spec _ _ _)).
  rewrite (bind_Ok _ _ _ _ _ (assign_spec _ _ _)).
  rewrite (bind_Ok _ _ _ _ _ (db_exec_spec _ _)).
  match goal with |- (_ ≫= _) ?wx = _ → _ => set (w2 := wx) end.
  assert (H2 : ∃ a2 entry,
            debates w2 !! sp_DebateID speech = Some a2
            ∧ supporting a2 = supporting a ∧ opposing a2 = opposing a
            ∧ Debate_ a2 = Debate_ a
            ∧ DebateLog a2 = (DebateLog a ++ [entry])%list
            ∧ e_Speaker entry = sp_Speaker speech
            ∧ e_Round entry = CurrentRound (Debate_ a)
            ∧ LastSpeaker a2 = sp_Speaker speech).
  { eexists. eexists. split.
    - subst w2. simpl. rewrite !lookup_alter_eq, Hl. reflexivity.
    - repeat split. }
  destruct H2 as (a2 & entry & H2 & Hs2 & Ho2 & Hd2 & Hlog2 & He1 & He2 & Hls2).
  clearbody w2.
  rewrite (bind_Ok _ _ _ _ _ (deref_spec _ _ _ H2)).
  rewrite Hs2, Ho2, Hd2.
  destruct (supporting a) as [sup|] eqn:Hsup; [|discriminate].
  destruct (String.eqb (sp_Speaker speech) (BotIdentifier (cb_Bot sup))) eqn:Hspk.
  - (* Supporting spoke, opposing is next *)
    destruct (opposing a) as [opp|] eqn:Hopp; [|discriminate].
    intros H.
    apply bind_inv in H. destruct H as ([] & w3 & H3 & H).
    apply bind_inv in H. destruct H as ([] & w4 & H4 & H).
    injection H as <- <-.
    apply sendDebateUpdate_debates in H3.
    apply (startTimeout_debates _ _ _ _ _ a2) in H4; [|rewrite H3; exact H2].
    eexists. split.
    + rewrite H4, lookup_alter_eq, H3, H2. reflexivity.
    + destruct (sides_set_TimeoutTimer (Some (length (timers w3))) a2) as [-> ->].
      cbn. rewrite Hd2.
      repeat split; try assumption.
      * exists entry. repeat split; assumption.
      * exists sup. rewrite Hspk. repeat split.
  - (* Opposing spoke, round complete *)
    rewrite (bind_Ok _ _ _ _ _ (assign_spec _ _ _)).
    rewrite (bind_Ok _ _ _ _ _ (db_exec_spec _ _)).
    match goal with |- _ ?wx = _ → _ => set (w3 := wx) end.
    assert (H3 : debates w3 !! sp_DebateID speech
                 = Some (set_CurrentRound (wrap64 (CurrentRound (Debate_ a) + 1)) a2)).
    { subst w3. simpl. rewrite lookup_alter_eq, H2. reflexivity. }
    clearbody w3.
    destruct (TotalRounds (Debate_ a) <? wrap64 (CurrentRound (Debate_ a) + 1)) eqn:Hdone.
    + intros H.
      apply bind_inv in H. destruct H as ([] & w4 & H4 & H).
      injection H as <- <-.
      apply (endDebate_debates _ _ _ _ _ _ _ _ _ H3) in H4.
      eexists. split.
      * rewrite H4, lookup_alter_eq, H3. reflexivity.
      * destruct (sides_set_Status "completed"
                    (set_CurrentRound (wrap64 (CurrentRound (Debate_ a) + 1)) a2))
          as [-> ->].
        destruct (sides_set_CurrentRound (wrap64 (CurrentRound (Debate_ a) + 1)) a2)
          as [-> ->].
        cbn. rewrite Hd2.
        repeat split; try assumption.
        -- exists entry. repeat split; assumption.
        -- exists sup. rewrite Hspk, Hdone. repeat split.
    + intros H.
      apply bind_inv in H. destruct H as ([] & w4 & H4 & H).
      apply bind_inv in H. destruct H as ([] & w5 & H5 & H).
      injection H as <- <-.
      apply sendDebateUpdate_debates in H4.
      eapply startTimeout_debates in H5; [|rewrite H4; exact H3].
      eexists. split.
      * rewrite H5, lookup_alter_eq, H4, H3. reflexivity.
      * destruct (sides_set_TimeoutTimer (Some (length (timers w4)))
                    (set_CurrentRound (wrap64 (CurrentRound (Debate_ a) + 1)) a2))
          as [-> ->].
        destruct (sides_set_CurrentRound (wrap64 (CurrentRound (Debate_ a) + 1)) a2)
          as [-> ->].
        cbn. rewrite Hd2.
        repeat split; try assumption.
        -- exists entry. repeat split; assumption.
        -- exists sup. rewrite Hspk, Hdone. repeat split.
Qed.

Lemma HandleSpeech_too_long (env : Env) (w : World) (speech : DebateSpeech)
    (now : Time) (a : ActiveDebate) (bot : ConnectedBot) :
  debates w !! sp_DebateID speech = Some a →
  speakerOf a (sp_Speaker speech) = Some bot →
  DebateKey (cb_Bot bot) = sp_DebateKey speech →
  getNextSpeaker a = Some (sp_Speaker speech) →
  MinContentLength (config env)
    <= Z.of_nat (String.length (TrimSpace env (Content (sp_Message speech)))) →
  MaxContentLength (config env)
    < Z.of_nat (String.length (TrimSpace env (Content (sp_Message speech)))) →
  ∃ e, HandleSpeech env speech now w = Ok (Some e) (touched (sp_DebateID speech) now a w)
    ∧ ErrorCode e = "CONTENT_TOO_LONG" ∧ Recoverable e = true.
Proof.
  intros Hl Hs Hk Hn Hmin Hmax.
  unfold HandleSpeech, getDebate, gets.
  unfold mbind at 1. unfold M_bind at 1.
  rewrite Hl, Hs, Hk, String.eqb_refl, Hn, String.eqb_refl. cbn [negb].
  rewrite (bind_Ok _ _ _ _ _ (Stop_spec _ _)).
  rewrite (bind_Ok _ _ _ _ _ (assign_spec _ _ _)).
  erewrite bind_Ok.
  2:{ apply resetInactivityTimer_spec. simpl. rewrite lookup_alter_eq, Hl. reflexivity. }
  apply Z.ltb_ge in Hmin. rewrite Hmin.
  apply Z.ltb_lt in Hmax. rewrite Hmax.
  eexists. split.
  - unfold touched. simpl. reflexivity.
  - split; reflexivity.
Qed.

(** A submission that reaches the length validation has already changed
    the timers, whatever the validation then says. *)
Lemma touched_timers (debateID : string) (now : Time) (a : ActiveDebate) (w : World) :
  timers (touched debateID now a w)
  = (stopped (InactivityTimer a) (stopped (TimeoutTimer a) (timers w))
     ++ [ {| t_kind := InactivityT; t_debate := debateID; t_status := Pending |} ])%list
  ∧ timers (touched debateID now a w) ≠ timers w.
Proof.
  split; [reflexivity|].
  intros H. apply (f_equal length) in H. revert H.
  unfold touched, armed. simpl. rewrite length_app. simpl.
  assert (Hs : ∀ h ts, length (stopped h ts) = length ts).
  { intros [tid|] ts; simpl; [apply length_alter|reflexivity]. }
  rewrite !Hs. lia.
Qed.

Lemma touched_speech_timer (debateID : string) (now : Time) (a : ActiveDebate)
    (w : World) (tid : nat) (t : Timer) :
  TimeoutTimer a = Some tid →
  timers w !! tid = Some t →
  ∃ t', timers (touched debateID now a w) !! tid = Some t'
        ∧ t_status t' ≠ Pending.
Proof.
  intros Hh Ht. unfold touched, armed. simpl. rewrite Hh. simpl.
  assert (Hst : t_status (stop_timer t) ≠ Pending).
  { unfold stop_timer. destruct (t_status t) eqn:E; simpl; congruence. }
  assert (Hidem : stop_timer (stop_timer t) = stop_timer t).
  { unfold stop_timer. destruct (t_status t) eqn:E; simpl; rewrite ?E; reflexivity. }
  rewrite lookup_app_l.
  2:{ assert (Hs : ∀ h ts, length (stopped h ts) = length ts).
      { intros [x|] ts; simpl; [apply length_alter|reflexivity]. }
      rewrite Hs, length_alter. eapply lookup_lt_Some; eauto. }
  destruct (InactivityTimer a) as [itid|]; simpl.
  - destruct (decide (itid = tid)) as [->|Hne].
    + rewrite !list_lookup_alter_eq, Ht. simpl. rewrite Hidem. eauto.
    + rewrite list_lookup_alter_ne by exact Hne.
      rewrite list_lookup_alter_eq, Ht. simpl. eauto.
  - rewrite list_lookup_alter_eq, Ht. simpl. eauto.
Qed.

(** Accepted speeches alternate: after an accepted speech the next speaker
    is the other side. *)
Lemma accepted_speech_alternates (env : Env) (w w' : World) (speech : DebateSpeech)
    (now : Time) (a : ActiveDebate) (sup opp : ConnectedBot) :
  debates w !! sp_DebateID speech = Some a →
  supporting a = Some sup →
  opposing a = Some opp →
  sp_Speaker speech ≠ "" →
  HandleSpeech env speech now w = Ok None w' →
  ∃ a', debates w' !! sp_DebateID speech = Some a'
        ∧ LastSpeaker a' = sp_Speaker speech
        ∧ getNextSpeaker a'
          = Some (if String.eqb (sp_Speaker speech) (BotIdentifier (cb_Bot sup))
                  then BotIdentifier (cb_Bot opp)
                  else BotIdentifier (cb_Bot sup)).
Proof.
  intros Hl Hs Ho Hne H.
  destruct (HandleSpeech_effect env w w' speech now None a Hl H)
    as (a' & Hl' & _ & Hs' & Ho' & _ & _ & Hls & _).
  exists a'. split; [exact Hl'|]. split; [exact Hls|].
  rewrite (getNextSpeaker_assigned a' sup opp) by congruence.
  rewrite Hls. apply String.eqb_neq in Hne. rewrite Hne. reflexivity.
Qed.

(** The round counter changes only through an accepted speech of a
    speaker other than the supporting side, by one; the status changes
    only when that increment takes the counter beyond the total. *)
Lemma round_counter_step (env : Env) (w w' : World) (speech : DebateSpeech)
    (now : Time) (r : option ErrorMessage) (a : ActiveDebate) :
  debates w !! sp_DebateID speech = Some a →
  HandleSpeech env speech now w = Ok r w' →
  ∃ a', debates w' !! sp_DebateID speech = Some a'
    ∧ TotalRounds (Debate_ a') = TotalRounds (Debate_ a)
    ∧ (CurrentRound (Debate_ a') = CurrentRound (Debate_ a)
       ∧ Status (Debate_ a') = Status (Debate_ a)
       ∨ r = None
         ∧ (∃ sup, supporting a = Some sup
                   ∧ sp_Speaker speech ≠ BotIdentifier (cb_Bot sup))
         ∧ CurrentRound (Debate_ a') = wrap64 (CurrentRound (Debate_ a) + 1)
         ∧ (TotalRounds (Debate_ a) < CurrentRound (Debate_ a') →
            Status (Debate_ a') = "completed")
         ∧ (CurrentRound (Debate_ a') <= TotalRounds (Debate_ a) →
            Status (Debate_ a') = Status (Debate_ a))).
Proof.
  intros Hl H.
  destruct (HandleSpeech_effect env w w' speech now r a Hl H)
    as (a' & Hl' & Ht & _ & _ & Hr).
  exists a'. split; [exact Hl'|]. split; [exact Ht|].
  destruct r as [e|].
  - left. tauto.
  - destruct Hr as (_ & _ & _ & sup & Hsup & Hif).
    destruct (String.eqb_spec (sp_Speaker speech) (BotIdentifier (cb_Bot sup)))
      as [E|E].
    + left. exact Hif.
    + right. destruct Hif as [Hc Hst].
      split; [reflexivity|]. split; [eauto|]. split; [exact Hc|].
      rewrite Hst.
      destruct (Z.ltb_spec (TotalRounds (Debate_ a)) (CurrentRound (Debate_ a')));
        split; intros; try reflexivity; lia.
Qed.

Lemma sendDebateUpdate_returns (env : Env) (debateID nextSpeaker : string)
    (w : World) (a : ActiveDebate) (sup opp : ConnectedBot) (cs co : Conn) :
  debates w !! debateID = Some a →
  supporting a = Some sup → opposing a = Some opp →
  cb_Conn sup = Some cs → cb_Conn opp = Some co →
  ∃ w', sendDebateUpdate env debateID nextSpeaker w = Ok () w'
        ∧ debates w' = debates w.
Proof.
  intros Ha Hs Ho Hcs Hco. unfold sendDebateUpdate.
  rewrite (bind_Ok _ _ _ _ _ (deref_spec _ _ _ Ha)).
  rewrite Hs, Ho, Hcs, Hco. eexists. split; reflexivity.
Qed.

(** Acceptance does not depend on the status: in a session of any status,
    a speech of the supporting side that names it with its key, in its
    turn and within the length bounds, is accepted and recorded. *)
Lemma HandleSpeech_accepts_in_any_status (env : Env) (w : World)
    (speech : DebateSpeech) (now : Time) (a : ActiveDebate)
    (sup opp : ConnectedBot) (cs co : Conn) :
  debates w !! sp_DebateID speech = Some a →
  supporting a = Some sup → opposing a = Some opp →
  cb_Conn sup = Some cs → cb_Conn opp = Some co →
  sp_Speaker speech = BotIdentifier (cb_Bot sup) →
  sp_DebateKey speech = DebateKey (cb_Bot sup) →
  getNextSpeaker a = Some (sp_Speaker speech) →
  MinContentLength (config env)
    <= Z.of_nat (String.length (TrimSpace env (Content (sp_Message speech))))
    <= MaxContentLength (config env) →
  ∃ w' a' entry,
    HandleSpeech env speech now w = Ok None w'
    ∧ debates w' !! sp_DebateID speech = Some a'
    ∧ DebateLog a' = (DebateLog a ++ [entry])%list
    ∧ e_Speaker entry = sp_Speaker speech
    ∧ LastSpeaker a' = sp_Speaker speech
    ∧ Status (Debate_ a') = Status (Debate_ a).
Proof.
  intros Hl Hs Ho Hcs Hco Hspk Hkey Hn [Hmin Hmax].
  assert (H : ∃ w', HandleSpeech env speech now w = Ok None w').
  { unfold HandleSpeech, getDebate, gets.
    unfold mbind at 1. unfold M_bind at 1.
    rewrite Hl. unfold speakerOf. rewrite Hs, <- Hspk, String.eqb_refl.
    rewrite <- Hkey, String.eqb_refl, Hn, String.eqb_refl. cbn [negb].
    rewrite (bind_Ok _ _ _ _ _ (Stop_spec _ _)).
    rewrite (bind_Ok _ _ _ _ _ (assign_spec _ _ _)).
    erewrite bind_Ok.
    2:{ apply resetInactivityTimer_spec. simpl.
        rewrite lookup_alter_eq, Hl. reflexivity. }
    apply Z.ltb_ge in Hmin. rewrite Hmin.
    apply Z.ltb_ge in Hmax. rewrite Hmax.
    rewrite (bind_Ok _ _ _ _ _ (assign_spec _ _ _)).
    rewrite (bind_Ok _ _ _ _ _ (assign_spec _ _ _)).
    rewrite (bind_Ok _ _ _ _ _ (db_exec_spec _ _)).
    match goal with |- ∃ _, (_ ≫= _) ?wx = _ => set (w2 := wx) end.
    assert (H2 : ∃ a2, debates w2 !! sp_DebateID speech = Some a2
                       ∧ supporting a2 = supporting a
                       ∧ opposing a2 = opposing a).
    { eexists. split.
      - subst w2. simpl. rewrite !lookup_alter_eq, Hl. reflexivity.
      - split; reflexivity. }
    destruct H2 as (a2 & H2 & Hs2 & Ho2). clearbody w2.
    rewrite (bind_Ok _ _ _ _ _ (deref_spec _ _ _ H2)).
    rewrite Hs2, Ho2, Hs, Ho, Hspk, String.eqb_refl.
    destruct (sendDebateUpdate_returns env (sp_DebateID speech)
                (BotIdentifier (cb_Bot opp)) w2 a2 sup opp cs co)
      as (w3 & H3 & Hd3); try congruence.
    rewrite (bind_Ok _ _ _ _ _ H3).
    assert (Hsome : is_Some (debates w3 !! sp_DebateID speech))
      by (rewrite Hd3, H2; eauto).
    rewrite (bind_Ok _ _ _ _ _
               (startTimeout_spec _ (BotIdentifier (cb_Bot opp)) _ Hsome)).
    eexists. reflexivity. }
  destruct H as (w' & H). exists w'.
  destruct (HandleSpeech_effect env w w' speech now None a Hl H)
    as (a' & Hl' & _ & _ & _ & _ & (entry & Hlog & Hes & _) & Hls & sup' & Hsup' & Hif).
  exists a', entry. repeat split; try assumption.
  rewrite Hs in Hsup'. injection Hsup' as <-.
  rewrite Hspk, String.eqb_refl in Hif. apply Hif.
Qed.

(** * Further properties of the code *)

(** ** Storage round trips *)

Lemma find_app_None {A} (f : A → bool) (l k : list A) :
  List.find f l = None → List.find f (l ++ k) = List.find f k.
Proof.
  induction l as [|x l IH]; simpl; [reflexivity|].
  destruct (f x); [discriminate|exact IH].
Qed.

Lemma find_app_Some {A} (f : A → bool) (l k : list A) (x : A) :
  List.find f l = Some x → List.find f (l ++ k) = Some x.
Proof.
  induction l as [|y l IH]; simpl; [discriminate|].
  destruct (f y); [trivial|exact IH].
Qed.

Lemma existsb_find_None {A} (f : A → bool) (l : list A) :
  existsb f l = false ↔ List.find f l = None.
Proof.
  induction l as [|x l IH]; simpl; [tauto|].
  destruct (f x); simpl; [split; discriminate|exact IH].
Qed.

Lemma find_ext_in {A} (f g : A → bool) (l : list A) :
  (∀ x, In x l → f x = g x) → List.find f l = List.find g l.
Proof.
  induction l as [|x l IH]; intros H; simpl; [reflexivity|].
  rewrite (H x) by now left. destruct (g x); [reflexivity|].
  apply IH. intros y Hy. apply H. now right.
Qed.

(** X1.  Insert and lookup of a debate row: after [CreateDebate] succeeds
    the row is read back unchanged by [GetDebate] under its id, every
    other id reads as before, the id was free before, and a second insert
    of the same id fails (primary key). *)
Theorem CreateDebate_GetDebate (d d' : Database) (debate : Debate) :
  Db.CreateDebate d debate = Some d' →
  Db.GetDebate d (ID debate) = None
  ∧ Db.GetDebate d' (ID debate) = Some debate
  ∧ (∀ debateID, debateID ≠ ID debate →
       Db.GetDebate d' debateID = Db.GetDebate d debateID)
  ∧ Db.CreateDebate d' debate = None.
Proof.
  unfold Db.CreateDebate, Db.GetDebate.
  destruct (existsb _ (tbl_debates d)) eqn:E; [discriminate|].
  intros [= <-]. simpl.
  apply existsb_find_None in E.
  repeat split.
  - exact E.
  - rewrite find_app_None by exact E. simpl. rewrite String.eqb_refl. reflexivity.
  - intros debateID Hne.
    destruct (List.find (λ r, String.eqb (ID r) debateID) (tbl_debates d))
      as [r|] eqn:F.
    + now apply find_app_Some.
    + rewrite find_app_None by exact F. simpl.
      apply not_eq_sym in Hne. apply String.eqb_neq in Hne. rewrite Hne. reflexivity.
  - rewrite existsb_app. simpl. rewrite String.eqb_refl.
    rewrite orb_true_r. reflexivity.
Qed.

Lemma CreateDebate_GetDebate_witness :
  ∃ d', Db.CreateDebate emptyDatabase (mkDebate "debate-u1" "T" 3 1 "waiting" 10 10)
        = Some d'
        ∧ Db.GetDebate d' "debate-u1" = Some (mkDebate "debate-u1" "T" 3 1 "waiting" 10 10)
        ∧ Db.CreateDebate d' (mkDebate "debate-u1" "T" 3 1 "waiting" 10 10) = None.
Proof.
  eexists. split; [reflexivity|].
  match goal with
  | |- Db.GetDebate ?d' _ = _ ∧ _ =>
      destruct (CreateDebate_GetDebate emptyDatabase d'
                  (mkDebate "debate-u1" "T" 3 1 "waiting" 10 10) eq_refl)
        as (_ & H1 & _ & H2)
  end.
  split; [exact H1|exact H2].
Defined.

Lemma find_map_update (f : Debate → Debate) (debateID debateID' : string)
    (rows : list Debate) :
  (∀ r, ID (f r) = ID r) →
  List.find (λ r, String.eqb (ID r) debateID')
    (map (λ r, if String.eqb (ID r) debateID then f r else r) rows)
  = (λ r, if String.eqb (ID r) debateID then f r else r)
      <$> List.find (λ r, String.eqb (ID r) debateID') rows.
Proof.
  intros Hid. induction rows as [|x rows IH]; simpl; [reflexivity|].
  assert (Hx : ID (if String.eqb (ID x) debateID then f x else x) = ID x).
  { destruct (String.eqb (ID x) debateID); [apply Hid|reflexivity]. }
  rewrite Hx. destruct (String.eqb (ID x) debateID'); [reflexivity|exact IH].
Qed.

(** X2.  A status or round update is visible to the next read of that
    debate and changes nothing else of its row but [updated_at]; the rows
    of other debates read as before; an update for an id that is not
    stored changes no row (and reports no error). *)
Theorem update_then_GetDebate (d : Database) (debateID status : string)
    (round : Z) (now : Time) :
  (∀ row, Db.GetDebate d debateID = Some row →
     Db.GetDebate (Db.UpdateDebateStatus d debateID status now) debateID
     = Some (Db.set_status status now row)
     ∧ Db.GetDebate (Db.UpdateDebateRound d debateID round now) debateID
       = Some (Db.set_round round now row))
  ∧ (∀ other, other ≠ debateID →
       Db.GetDebate (Db.UpdateDebateStatus d debateID status now) other
       = Db.GetDebate d other
       ∧ Db.GetDebate (Db.UpdateDebateRound d debateID round now) other
         = Db.GetDebate d other)
  ∧ (Db.GetDebate d debateID = None →
     Db.UpdateDebateStatus d debateID status now = d
     ∧ Db.UpdateDebateRound d debateID round now = d).
Proof.
  unfold Db.UpdateDebateStatus, Db.UpdateDebateRound, Db.update_debates, Db.GetDebate.
  simpl. repeat split.
  - rewrite find_map_update by reflexivity. rewrite H. simpl.
    apply List.find_some in H. destruct H as [_ H]. rewrite H. reflexivity.
  - rewrite find_map_update by reflexivity. rewrite H. simpl.
    apply List.find_some in H. destruct H as [_ H]. rewrite H. reflexivity.
  - rewrite find_map_update by reflexivity.
    destruct (List.find _ (tbl_debates d)) as [r|] eqn:F; [|reflexivity].
    simpl. apply List.find_some in F. destruct F as [_ F].
    apply String.eqb_eq in F. subst other.
    apply String.eqb_neq in H. rewrite H. reflexivity.
  - rewrite find_map_update by reflexivity.
    destruct (List.find _ (tbl_debates d)) as [r|] eqn:F; [|reflexivity].
    simpl. apply List.find_some in F. destruct F as [_ F].
    apply String.eqb_eq in F. subst other.
    apply String.eqb_neq in H. rewrite H. reflexivity.
  - destruct d as [rows bots log res]. simpl in *. f_equal.
    induction rows as [|x rows IH]; simpl in *; [reflexivity|].
    destruct (String.eqb (ID x) debateID); [discriminate|].
    f_equal. apply IH. exact H.
  - destruct d as [rows bots log res]. simpl in *. f_equal.
    induction rows as [|x rows IH]; simpl in *; [reflexivity|].
    destruct (String.eqb (ID x) debateID); [discriminate|].
    f_equal. apply IH. exact H.
Qed.
Lemma update_then_GetDebate_witness :
  let d := {| tbl_debates := [mkDebate "debate-u1" "T" 3 1 "waiting" 10 10];
              tbl_bots := []; tbl_debate_log := []; tbl_debate_results := [] |} in
  Db.GetDebate (Db.UpdateDebateStatus d "debate-u1" "active" 13) "debate-u1"
  = Some (mkDebate "debate-u1" "T" 3 1 "active" 10 13)
  ∧ Db.UpdateDebateStatus d "debate-u2" "active" 13 = d.
Proof.
  cbv zeta.
  match goal with
  | |- Db.GetDebate (Db.UpdateDebateStatus ?d _ _ _) _ = _ ∧ _ =>
      destruct (update_then_GetDebate d "debate-u1" "active" 2 13) as (H1 & _ & _);
      destruct (update_then_GetDebate d "debate-u2" "active" 2 13) as (_ & _ & H3)
  end.
  split.
  - apply (H1 _ eq_refl).
  - apply (H3 eq_refl).
Defined.

(** X3.  Registering a bot: after [AddBot] succeeds, [GetBots] of that
    debate returns the bots it returned before and the new bot (in an
    order the query does not fix), the count used by [GetAvailableDebate]
    grows by one, the bots of other debates are the same, no row with that
    debate and bot_uuid existed before, and registering the same bot_uuid
    in that debate again fails (primary key). *)
Theorem AddBot_GetBots (d d' : Database) (bot : Bot) :
  Db.AddBot d bot = Some d' →
  DbRead.GetBots d' (DebateID bot) ≡ₚ bot :: DbRead.GetBots d (DebateID bot)
  ∧ Db.bot_count d' (DebateID bot) = S (Db.bot_count d (DebateID bot))
  ∧ (∀ other, other ≠ DebateID bot → DbRead.GetBots d' other ≡ₚ DbRead.GetBots d other)
  ∧ (∀ b, In b (DbRead.GetBots d (DebateID bot)) → BotUUID b ≠ BotUUID bot)
  ∧ (∀ bot2, DebateID bot2 = DebateID bot → BotUUID bot2 = BotUUID bot →
       Db.AddBot d' bot2 = None).
Proof.
  unfold Db.AddBot, DbRead.GetBots, Db.bot_count.
  destruct (existsb _ (tbl_bots d)) eqn:E; [discriminate|].
  intros [= <-]. simpl.
  repeat split.
  - rewrite List.filter_app. simpl. rewrite String.eqb_refl.
    symmetry. apply Permutation_cons_append.
  - rewrite List.filter_app, length_app. simpl. rewrite String.eqb_refl. simpl. lia.
  - intros other Hne. rewrite List.filter_app. simpl.
    apply not_eq_sym in Hne. apply String.eqb_neq in Hne. rewrite Hne.
    now rewrite app_nil_r.
  - intros b Hb Heq. apply filter_In in Hb. destruct Hb as [Hin Hd].
    assert (Hex : existsb (λ r, String.eqb (DebateID r) (DebateID bot)
                                && String.eqb (BotUUID r) (BotUUID bot))
                          (tbl_bots d) = true).
    { apply existsb_exists. exists b. split; [exact Hin|].
      rewrite Hd, Heq, String.eqb_refl. reflexivity. }
    congruence.
  - intros bot2 Hd Hu. rewrite Hd, Hu, existsb_app. simpl.
    rewrite !String.eqb_refl. simpl. rewrite orb_true_r. reflexivity.
Qed.

Lemma AddBot_GetBots_witness :
  let alpha := mkBot "alpha" "aaaaaaaa-1" "alpha-aaaaaaaa" "debate-u1" "key-a" "" 11 in
  ∃ d', Db.AddBot emptyDatabase alpha = Some d'
        ∧ DbRead.GetBots d' "debate-u1" ≡ₚ [alpha]
        ∧ Db.bot_count d' "debate-u1" = 1%nat
        ∧ Db.AddBot d' alpha = None.
Proof.
  cbv zeta. eexists. split; [reflexivity|].
  match goal with
  | |- DbRead.GetBots ?d' _ ≡ₚ [?alpha] ∧ _ =>
      destruct (AddBot_GetBots emptyDatabase d' alpha eq_refl)
        as (H1 & H2 & _ & _ & H5)
  end.
  split; [exact H1|]. split; [exact H2|]. apply H5; reflexivity.
Defined.

(** X4.  The stored transcript is append-only and per debate:
    [AddDebateLog] puts the entry at the end of what [GetDebateLog]
    returns for that debate and leaves the transcripts of all other
    debates as they were. *)
Theorem AddDebateLog_GetDebateLog (d : Database) (entry : DebateLogEntry)
    (debateID : string) :
  DbRead.GetDebateLog (Db.AddDebateLog d entry debateID) debateID
  = (DbRead.GetDebateLog d debateID ++ [entry])%list
  ∧ ∀ other, other ≠ debateID →
      DbRead.GetDebateLog (Db.AddDebateLog d entry debateID) other
      = DbRead.GetDebateLog d other.
Proof.
  unfold DbRead.GetDebateLog, Db.AddDebateLog. simpl. split.
  - rewrite List.filter_app, map_app. simpl. rewrite String.eqb_refl. reflexivity.
  - intros other Hne. rewrite List.filter_app, map_app. simpl.
    apply not_eq_sym in Hne. apply String.eqb_neq in Hne. rewrite Hne.
    apply app_nil_r.
Qed.

(** X5.  The result of a debate is written once: [SaveDebateResult]
    fails exactly when a result is already stored for the debate; when it
    succeeds, [GetDebateResult] returns the saved winner, scores and
    summary with an empty reason (the reason is not stored), the results of
    other debates are unchanged, and every later save for the debate
    fails. *)
Theorem SaveDebateResult_once (d : Database) (debateID : string)
    (result : DebateResult) :
  (Db.SaveDebateResult d debateID result = None
   ↔ is_Some (Db.GetDebateResult d debateID))
  ∧ ∀ d', Db.SaveDebateResult d debateID result = Some d' →
      DbRead.GetDebateResult d' debateID
      = Some {| Winner := Winner result;
                SupportingScore := SupportingScore result;
                OpposingScore := OpposingScore result;
                Summary := Summary result;
                Reason := "" |}
      ∧ (∀ other, other ≠ debateID →
           Db.GetDebateResult d' other = Db.GetDebateResult d other)
      ∧ (∀ result2, Db.SaveDebateResult d' debateID result2 = None).
Proof.
  unfold Db.SaveDebateResult, DbRead.GetDebateResult, Db.GetDebateResult.
  destruct (existsb _ (tbl_debate_results d)) eqn:E.
  - split.
    + split; [|reflexivity]. intros _.
      destruct (List.find _ (tbl_debate_results d)) eqn:F; [eauto|].
      apply existsb_find_None in F. congruence.
    + discriminate.
  - apply existsb_find_None in E. split.
    + split; [discriminate|]. intros [r Hr]. congruence.
    + intros d' [= <-]. simpl. repeat split.
      * rewrite find_app_None by exact E. simpl. rewrite String.eqb_refl. reflexivity.
      * intros other Hne.
        destruct (List.find (λ r, String.eqb (rr_debate_id r) other)
                            (tbl_debate_results d)) as [r|] eqn:F.
        -- now apply find_app_Some.
        -- rewrite find_app_None by exact F. simpl.
           apply not_eq_sym in Hne. apply String.eqb_neq in Hne.
           rewrite Hne. reflexivity.
      * intros result2. rewrite existsb_app. simpl. rewrite String.eqb_refl.
        rewrite orb_true_r. reflexivity.
Qed.
Lemma SaveDebateResult_once_witness :
  ∃ d', Db.SaveDebateResult emptyDatabase "debate-u1"
          (unparsedResult "no verdict") = Some d'
    ∧ Db.SaveDebateResult d' "debate-u1" (unparsedResult "a second verdict") = None.
Proof.
  destruct (Db.SaveDebateResult emptyDatabase "debate-u1" (unparsedResult "no verdict"))
    as [d'|] eqn:E; [|vm_compute in E; discriminate].
  exists d'. split; [reflexivity|].
  exact (proj2 (proj2 (proj2 (SaveDebateResult_once emptyDatabase "debate-u1"
                                (unparsedResult "no verdict")) d' E))
               (unparsedResult "a second verdict")).
Defined.

(** ** What no event undoes *)

Lemma timer_le_refl (t : Timer) : timer_le t t.
Proof. repeat split. Qed.

Lemma timer_le_trans (t1 t2 t3 : Timer) :
  timer_le t1 t2 → timer_le t2 t3 → timer_le t1 t3.
Proof.
  intros (K1 & D1 & S1) (K2 & D2 & S2). repeat split; try congruence.
  intros H. rewrite S2; [now apply S1|]. rewrite S1 by exact H. exact H.
Qed.

Lemma timers_le_refl (ts : list Timer) : timers_le ts ts.
Proof.
  exists ts, []. split; [now rewrite app_nil_r|].
  induction ts; constructor; [apply timer_le_refl|assumption].
Qed.

Lemma timers_le_trans (t1 t2 t3 : list Timer) :
  timers_le t1 t2 → timers_le t2 t3 → timers_le t1 t3.
Proof.
  intros (a & m1 & -> & H1) (b & m2 & -> & H2).
  apply Forall2_app_inv_l in H2. destruct H2 as (b1 & b2 & Hb1 & Hb2 & ->).
  exists b1, (b2 ++ m2)%list. split; [now rewrite app_assoc|].
  clear Hb2. revert b1 Hb1. induction H1; intros b1 Hb1.
  - inversion Hb1. constructor.
  - inversion Hb1; subst. constructor; [eapply timer_le_trans; eauto|auto].
Qed.

Lemma timers_le_app (ts : list Timer) (more : list Timer) :
  timers_le ts (ts ++ more).
Proof.
  exists ts, more. split; [reflexivity|].
  induction ts; constructor; [apply timer_le_refl|assumption].
Qed.

Lemma timers_le_alter (f : Timer → Timer) (tid : nat) (ts : list Timer) :
  (∀ t, ts !! tid = Some t → timer_le t (f t)) →
  timers_le ts (alter f tid ts).
Proof.
  intros Hf. exists (alter f tid ts), []. split; [now rewrite app_nil_r|].
  revert tid Hf. induction ts as [|t ts IH]; intros tid Hf; [constructor|].
  destruct tid as [|tid]; simpl.
  - constructor; [apply Hf; reflexivity|].
    clear. induction ts; constructor; [apply timer_le_refl|assumption].
  - constructor; [apply timer_le_refl|]. apply IH. intros t' Ht'. apply Hf. exact Ht'.
Qed.

Lemma timers_le_lookup (ts ts' : list Timer) (tid : nat) (t : Timer) :
  timers_le ts ts' → ts !! tid = Some t →
  ∃ t', ts' !! tid = Some t' ∧ timer_le t t'.
Proof.
  intros (ts1 & more & -> & H) Ht.
  destruct (Forall2_lookup_l _ _ _ _ _ H Ht) as (t' & Ht' & Hle).
  exists t'. split; [|exact Hle]. now apply lookup_app_l_Some.
Qed.

Lemma stop_timer_le (t : Timer) : timer_le t (stop_timer t).
Proof.
  unfold stop_timer. destruct (t_status t) eqn:E; repeat split; simpl; congruence.
Qed.

Lemma db_le_refl (d : Database) : db_le d d.
Proof. split; [|split; [|split]]; reflexivity. Qed.

Lemma db_le_trans (d1 d2 d3 : Database) : db_le d1 d2 → db_le d2 d3 → db_le d1 d3.
Proof.
  intros (A1 & B1 & C1 & D1) (A2 & B2 & C2 & D2).
  split; [|split; [|split]]; etransitivity; eauto.
Qed.

Lemma spawned_le_same (w w' : World) :
  goroutines w' = goroutines w → spawned_le w w'.
Proof. intros E tid H. left. now rewrite <- E. Qed.

Lemma evolves_refl (w : World) : evolves w w.
Proof.
  split; [apply timers_le_refl|]. split; [apply db_le_refl|].
  split; [reflexivity|]. split; [reflexivity|]. now apply spawned_le_same.
Qed.

Lemma evolves_trans (w1 w2 w3 : World) : evolves w1 w2 → evolves w2 w3 → evolves w1 w3.
Proof.
  intros (T1 & D1 & W1 & B1 & G1) (T2 & D2 & W2 & B2 & G2).
  split; [eapply timers_le_trans; eauto|].
  split; [eapply db_le_trans; eauto|].
  split; [etransitivity; eauto|]. split; [etransitivity; eauto|].
  intros tid H. destruct (G2 tid H) as [H2|H2]; [|now right].
  destruct (G1 tid H2) as [H1|(t & Ht & Hs)]; [now left|right].
  destruct (timers_le_lookup _ _ _ _ T2 Ht) as (t' & Ht' & _ & _ & Hst).
  exists t'. split; [exact Ht'|]. rewrite Hst; congruence.
Qed.

Lemma evolves_intro (w w' : World) :
  timers_le (timers w) (timers w') → db_le (db w) (db w') →
  written w `prefix_of` written w' → broadcast w `prefix_of` broadcast w' →
  spawned_le w w' →
  evolves w w'.
Proof. intros; split; [|split; [|split; [|split]]]; assumption. Qed.

(** The storage calls of the manager only add rows and only update the
    columns they name. *)
Lemma map_key_update {A K} (key : A → K) (f : A → A) (p : A → bool) (l : list A) :
  (∀ x, key (f x) = key x) →
  map key (map (λ x, if p x then f x else x) l) = map key l.
Proof.
  intros H. rewrite map_map. apply map_ext. intros x.
  destruct (p x); [apply H|reflexivity].
Qed.

Lemma UpdateDebateStatus_le (d : Database) (debateID status : string) (now : Time) :
  db_le d (Db.UpdateDebateStatus d debateID status now).
Proof.
  unfold db_le, Db.UpdateDebateStatus, Db.update_debates. simpl.
  rewrite (map_key_update debateKey) by reflexivity. repeat split; reflexivity.
Qed.

Lemma UpdateDebateRound_le (d : Database) (debateID : string) (round : Z) (now : Time) :
  db_le d (Db.UpdateDebateRound d debateID round now).
Proof.
  unfold db_le, Db.UpdateDebateRound, Db.update_debates. simpl.
  rewrite (map_key_update debateKey) by reflexivity. repeat split; reflexivity.
Qed.

Lemma UpdateBotSide_le (d : Database) (debateID botIdentifier side : string) :
  db_le d (Db.UpdateBotSide d debateID botIdentifier side).
Proof.
  unfold db_le, Db.UpdateBotSide. simpl.
  rewrite (map_key_update botKey) by reflexivity. repeat split; reflexivity.
Qed.

Lemma AddDebateLog_le (d : Database) (entry : DebateLogEntry) (debateID : string) :
  db_le d (Db.AddDebateLog d entry debateID).
Proof.
  unfold db_le, Db.AddDebateLog. simpl.
  repeat split; try reflexivity. apply prefix_app_r. reflexivity.
Qed.

Lemma SaveDebateResult_le (d d' : Database) (debateID : string) (result : DebateResult) :
  Db.SaveDebateResult d debateID result = Some d' → db_le d d'.
Proof.
  unfold Db.SaveDebateResult. destruct (existsb _ _); [discriminate|].
  intros [= <-]. unfold db_le. simpl.
  repeat split; try reflexivity. apply prefix_app_r. reflexivity.
Qed.

Lemma AddBot_le (d d' : Database) (bot : Bot) :
  Db.AddBot d bot = Some d' → db_le d d'.
Proof.
  unfold Db.AddBot. destruct (existsb _ _); [discriminate|].
  intros [= <-]. unfold db_le. simpl.
  repeat split; try reflexivity. rewrite map_app. apply prefix_app_r. reflexivity.
Qed.

Lemma CreateDebate_le (d d' : Database) (debate : Debate) :
  Db.CreateDebate d debate = Some d' → db_le d d'.
Proof.
  unfold Db.CreateDebate. destruct (existsb _ _); [discriminate|].
  intros [= <-]. unfold db_le. simpl.
  repeat split; try reflexivity. rewrite map_app. apply prefix_app_r. reflexivity.
Qed.

(** Rules for the handler monad. *)
Lemma keepsAt_ret {A} (w : World) (a : A) : keepsAt w (mret a).
Proof. intros x w' [= _ <-]. apply evolves_refl. Qed.

Lemma keepsAt_panic {A} (w : World) : keepsAt w (@panic A).
Proof. intros x w'. discriminate. Qed.

Lemma keepsAt_bind {A B} (w : World) (m : M A) (k : A → M B) :
  keepsAt w m →
  (∀ x w1, m w = Ok x w1 → keepsAt w1 (k x)) →
  keepsAt w (m ≫= k).
Proof.
  intros Hm Hk y w'. unfold mbind, M_bind.
  destruct (m w) as [x w1|] eqn:E; [|discriminate].
  intros H. eapply evolves_trans; [eapply Hm; eauto|eapply Hk; eauto].
Qed.

Lemma keepsAt_gets_bind {A B} (w : World) (f : World → A) (k : A → M B) :
  keepsAt w (k (f w)) → keepsAt w (gets f ≫= k).
Proof. intros H y w'. unfold mbind, M_bind, gets. apply H. Qed.

Lemma keepsAt_gets {A} (w : World) (f : World → A) : keepsAt w (gets f).
Proof. intros x w' [= _ <-]. apply evolves_refl. Qed.

Lemma keepsAt_set_debates (w : World) (g : World → gmap string ActiveDebate) :
  keepsAt w (modify (λ w, set_debates (g w) w)).
Proof.
  intros x w' [= _ <-].
  apply evolves_intro; simpl; try reflexivity;
    [apply timers_le_refl|apply db_le_refl|now apply spawned_le_same].
Qed.

Lemma keepsAt_spawn_startDebate (w : World) (debateID : string) :
  keepsAt w (modify (λ w, set_goroutines
                            (goroutines w ++ [TaskStartDebate debateID]) w)).
Proof.
  intros x w' [= _ <-].
  apply evolves_intro; simpl; try reflexivity; [apply timers_le_refl|apply db_le_refl|].
  intros tid H. simpl in H. left.
  apply elem_of_app in H. destruct H as [H|H]; [exact H|].
  apply list_elem_of_singleton in H. discriminate.
Qed.

Lemma keepsAt_delete_goroutine (w : World) (i : nat) :
  keepsAt w (modify (λ w, set_goroutines (delete i (goroutines w)) w)).
Proof.
  intros x w' [= _ <-].
  apply evolves_intro; simpl; try reflexivity; [apply timers_le_refl|apply db_le_refl|].
  intros tid H. simpl in H. left.
  eapply elem_of_sublist; [exact H|apply sublist_delete].
Qed.

Lemma keepsAt_assign (w : World) (debateID : string) (f : ActiveDebate → ActiveDebate) :
  keepsAt w (assign debateID f).
Proof. apply keepsAt_set_debates. Qed.

Lemma keepsAt_set_db (w : World) (d' : Database) :
  db_le (db w) d' → keepsAt w (modify (set_db d')).
Proof.
  intros H x w' [= _ <-].
  apply evolves_intro; simpl; try reflexivity;
    [apply timers_le_refl|apply H|now apply spawned_le_same].
Qed.

Lemma keepsAt_db_exec (w : World) (f : Database → Database) :
  (∀ d, db_le d (f d)) → keepsAt w (db_exec f).
Proof.
  intros H x w' [= _ <-].
  apply evolves_intro; simpl; try reflexivity;
    [apply timers_le_refl|apply H|now apply spawned_le_same].
Qed.

Lemma keepsAt_db_try (w : World) (f : Database → option Database) :
  (∀ d d', f d = Some d' → db_le d d') → keepsAt w (db_try f).
Proof.
  intros H x w' [= _ <-].
  assert (Hd : db_le (db w) (default (db w) (f (db w)))).
  { destruct (f (db w)) eqn:E; simpl; [eapply H; eauto|apply db_le_refl]. }
  apply evolves_intro; simpl; try reflexivity;
    [apply timers_le_refl|apply Hd|now apply spawned_le_same].
Qed.

Lemma keepsAt_Stop (w : World) (h : option nat) : keepsAt w (Stop h).
Proof.
  destruct h as [tid|]; [|apply keepsAt_ret].
  intros x w' [= _ <-].
  apply evolves_intro; simpl; try reflexivity;
    [|apply db_le_refl|now apply spawned_le_same].
  apply timers_le_alter. intros t _. apply stop_timer_le.
Qed.

Lemma keepsAt_AfterFunc (w : World) (kind : TimerKind) (debateID : string) :
  keepsAt w (AfterFunc kind debateID).
Proof.
  intros x w' [= _ <-].
  apply evolves_intro; simpl; try reflexivity;
    [|apply db_le_refl|now apply spawned_le_same].
  apply timers_le_app.
Qed.

Lemma keepsAt_WriteJSON (w : World) (conn : option Conn) (msg : Message) :
  keepsAt w (WriteJSON conn msg).
Proof.
  destruct conn as [c|]; [|apply keepsAt_panic].
  intros x w' [= _ <-].
  apply evolves_intro; simpl; try reflexivity;
    [apply timers_le_refl|apply db_le_refl|apply prefix_app_r; reflexivity
    |now apply spawned_le_same].
Qed.

Lemma keepsAt_send_broadcast (w : World) (debateID : string) (msg : Message) :
  keepsAt w (send_broadcast debateID msg).
Proof.
  intros x w' [= _ <-].
  apply evolves_intro; simpl; try reflexivity;
    [apply timers_le_refl|apply db_le_refl|apply prefix_app_r; reflexivity
    |now apply spawned_le_same].
Qed.

Create HintDb keeps.
#[local] Hint Resolve keepsAt_gets keepsAt_set_debates
  keepsAt_spawn_startDebate keepsAt_delete_goroutine keepsAt_assign keepsAt_set_db keepsAt_db_exec keepsAt_db_try
  keepsAt_Stop keepsAt_AfterFunc keepsAt_WriteJSON keepsAt_send_broadcast
  UpdateDebateStatus_le UpdateDebateRound_le UpdateBotSide_le AddDebateLog_le
  SaveDebateResult_le AddBot_le CreateDebate_le : keeps.

Ltac keeps_step :=
  first
    [ progress cbv zeta
    | solve [eauto with keeps]
    | apply keepsAt_ret
    | apply keepsAt_panic
    | apply keepsAt_gets_bind; cbv beta
    | apply keepsAt_bind; [ | intros ? ? _ ]
    | match goal with
      | |- keepsAt _ (match ?x with _ => _ end) => destruct x eqn:?
      end ].

Ltac keeps := cbv zeta; repeat keeps_step.

Lemma keepsAt_startTimeout (w : World) (debateID speaker : string) :
  keepsAt w (startTimeout debateID speaker).
Proof. unfold startTimeout, getDebate. keeps. Qed.

Lemma keepsAt_startInactivityTimer (w : World) (debateID : string) :
  keepsAt w (startInactivityTimer debateID).
Proof. unfold startInactivityTimer, getDebate. keeps. Qed.

Lemma keepsAt_startMaxDurationTimer (w : World) (debateID : string) :
  keepsAt w (startMaxDurationTimer debateID).
Proof. unfold startMaxDurationTimer, getDebate. keeps. Qed.

Lemma keepsAt_startWaitingTimer (w : World) (debateID : string) :
  keepsAt w (startWaitingTimer debateID).
Proof. unfold startWaitingTimer, getDebate. keeps. Qed.

#[local] Hint Resolve keepsAt_startTimeout keepsAt_startInactivityTimer
  keepsAt_startMaxDurationTimer keepsAt_startWaitingTimer : keeps.

Lemma keepsAt_resetInactivityTimer (w : World) (debateID : string) :
  keepsAt w (resetInactivityTimer debateID).
Proof. unfold resetInactivityTimer, getDebate. keeps. Qed.

Lemma keepsAt_waitingTimeout (w : World) (debateID : string) (now : Time) :
  keepsAt w (waitingTimeout debateID now).
Proof. unfold waitingTimeout, getDebate. keeps. Qed.

Lemma keepsAt_sendDebateUpdate (env : Env) (w : World) (debateID nextSpeaker : string) :
  keepsAt w (sendDebateUpdate env debateID nextSpeaker).
Proof. unfold sendDebateUpdate, deref, getDebate. keeps. Qed.

Lemma keepsAt_endDebate (env : Env) (w : World) (debateID status reason : string)
    (now : Time) :
  keepsAt w (endDebate env debateID status reason now).
Proof. unfold endDebate, deref, getDebate. keeps. Qed.

#[local] Hint Resolve keepsAt_resetInactivityTimer keepsAt_waitingTimeout
  keepsAt_sendDebateUpdate keepsAt_endDebate : keeps.

Lemma keepsAt_HandleSpeech (env : Env) (w : World) (speech : DebateSpeech) (now : Time) :
  keepsAt w (HandleSpeech env speech now).
Proof. unfold HandleSpeech, deref, getDebate. keeps. Qed.

Lemma keepsAt_HandleBotDisconnect (env : Env) (w : World)
    (debateID botIdentifier reason : string) (now : Time) :
  keepsAt w (HandleBotDisconnect env debateID botIdentifier reason now).
Proof. unfold HandleBotDisconnect, getDebate. keeps. Qed.

Lemma keepsAt_startDebate (env : Env) (w : World) (debateID : string) (coin : bool)
    (now : Time) :
  keepsAt w (startDebate env debateID coin now).
Proof. unfold startDebate, deref, getDebate. keeps. Qed.

Lemma keepsAt_CreateDebate (w : World) (uuid topic : string) (totalRounds : Z)
    (now : Time) :
  keepsAt w (CreateDebate uuid topic totalRounds now).
Proof. unfold CreateDebate. keeps. Qed.

Lemma keepsAt_resolveDebate (w : World) (loginReq : LoginRequest) :
  keepsAt w (resolveDebate loginReq).
Proof. unfold resolveDebate, getDebate. keeps. Qed.

#[local] Hint Resolve keepsAt_resolveDebate keepsAt_CreateDebate keepsAt_startDebate
  keepsAt_HandleBotDisconnect keepsAt_HandleSpeech : keeps.

Lemma keepsAt_BotLogin (w : World) (loginReq : LoginRequest) (conn : Conn)
    (debateKey : string) (now : Time) :
  keepsAt w (BotLogin loginReq conn debateKey now).
Proof. unfold BotLogin. keeps. Qed.

Lemma keepsAt_handleCreateDebate (w : World) (uuid topic : string) (totalRounds : Z)
    (now : Time) :
  keepsAt w (handleCreateDebate uuid topic totalRounds now).
Proof. unfold handleCreateDebate. keeps. Qed.

Lemma keepsAt_timerCallback (env : Env) (w : World) (t : Timer) (now : Time) :
  keepsAt w (timerCallback env t now).
Proof. unfold timerCallback. keeps. Qed.

Lemma keepsAt_expire (w : World) (tid : nat) : keepsAt w (expire tid).
Proof.
  intros x w'. unfold expire, mbind, M_bind, gets, modify.
  destruct (timers w !! tid) as [[k d st]|] eqn:Ht;
    [destruct st|]; intros [= _ <-]; try apply evolves_refl.
  apply evolves_intro; simpl; try reflexivity; [|apply db_le_refl|].
  - apply timers_le_alter. intros t Ht'. rewrite Ht in Ht'. injection Ht' as <-.
    split; [reflexivity|]. split; [reflexivity|]. simpl. congruence.
  - intros tid' H. simpl in H. apply elem_of_app in H. destruct H as [H|H]; [now left|].
    apply list_elem_of_singleton in H. injection H as ->. right.
    exists (fire_timer {| t_kind := k; t_debate := d; t_status := Pending |}).
    split; [|reflexivity]. simpl. rewrite list_lookup_alter_eq, Ht. reflexivity.
Qed.

#[local] Hint Resolve keepsAt_BotLogin keepsAt_handleCreateDebate keepsAt_timerCallback
  keepsAt_expire : keeps.

Lemma keepsAt_runTask (env : Env) (w : World) (i : nat) (coin : bool) (now : Time) :
  keepsAt w (runTask env i coin now).
Proof. unfold runTask. keeps. Qed.

#[local] Hint Resolve keepsAt_runTask : keeps.

Lemma keepsAt_step (env : Env) (w : World) (ev : Event) : keepsAt w (step env ev).
Proof. unfold step. keeps. Qed.

(** Whatever happens to the server, the state it started from evolves
    into the state it ends in. *)
Lemma run_evolves (env : Env) (evs : list Event) (w w' : World) :
  run env evs w = Ok () w' → evolves w w'.
Proof.
  revert w. induction evs as [|ev evs IH]; intros w; simpl.
  - intros [= <-]. apply evolves_refl.
  - unfold mbind, M_bind. destruct (step env ev w) as [[] w1|] eqn:E; [|discriminate].
    intros H. eapply evolves_trans; [eapply keepsAt_step; eauto|apply IH, H].
Qed.

Lemma run_app (env : Env) (evs evs' : list Event) (w : World) :
  run env (evs ++ evs') w = (run env evs ;; run env evs') w.
Proof.
  revert w. induction evs as [|ev evs IH]; intros w; simpl; [reflexivity|].
  unfold mbind, M_bind in *. destruct (step env ev w) as [[] w1|]; [apply IH|reflexivity].
Qed.

Lemma find_prefix {A} (p : A → bool) (l l' : list A) (x : A) :
  l `prefix_of` l' → List.find p l = Some x → List.find p l' = Some x.
Proof. intros [k ->]. apply find_app_Some. Qed.

Lemma find_key_prefix {A K} (key : A → K) (q : K → bool) (l l' : list A) (x : A) :
  map key l `prefix_of` map key l' →
  List.find (λ r, q (key r)) l = Some x →
  ∃ x', List.find (λ r, q (key r)) l' = Some x' ∧ key x' = key x.
Proof.
  revert l'. induction l as [|y l IH]; intros l' Hp; simpl; [discriminate|].
  destruct l' as [|y' l']; [destruct Hp as [k Hk]; discriminate|].
  destruct Hp as [k Hk]. simpl in Hk. injection Hk as Hy Hk.
  simpl. rewrite Hy. destruct (q (key y)) eqn:E.
  - intros [= <-]. exists y'. split; [reflexivity|exact Hy].
  - apply IH. exists k. exact Hk.
Qed.

Lemma filter_prefix {A} (p : A → bool) (l l' : list A) :
  l `prefix_of` l' → List.filter p l `prefix_of` List.filter p l'.
Proof. intros [k ->]. rewrite List.filter_app. now apply prefix_app_r. Qed.

Lemma map_prefix {A B} (f : A → B) (l l' : list A) :
  l `prefix_of` l' → map f l `prefix_of` map f l'.
Proof. intros [k ->]. rewrite map_app. now apply prefix_app_r. Qed.

(** X6.  A persisted result is final: once [GetDebateResult] returns a
    result for a debate, it returns that same result after anything that
    happens to the server later (speeches on the ended debate, further
    terminal transitions, other debates). *)
Theorem persisted_result_is_final (env : Env) (evs : list Event) (w w' : World)
    (debateID : string) (result : DebateResult) :
  run env evs w = Ok () w' →
  DbRead.GetDebateResult (db w) debateID = Some result →
  DbRead.GetDebateResult (db w') debateID = Some result.
Proof.
  intros Hrun. apply run_evolves in Hrun. destruct Hrun as (_ & (_ & _ & _ & Hres) & _).
  unfold DbRead.GetDebateResult, Db.GetDebateResult.
  destruct (List.find _ (tbl_debate_results (db w))) as [r|] eqn:E; [|discriminate].
  now rewrite (find_prefix _ _ _ _ Hres E).
Qed.

Lemma persisted_result_is_final_witness :
  DbRead.GetDebateResult (db (worldAfter envNoJudge anotherRound emptyWorld)) "debate-u1"
  = DbRead.GetDebateResult (db (worldAfter envNoJudge finishedOnce emptyWorld)) "debate-u1"
  ∧ is_Some (DbRead.GetDebateResult
               (db (worldAfter envNoJudge finishedOnce emptyWorld)) "debate-u1").
Proof.
  destruct (DbRead.GetDebateResult
              (db (worldAfter envNoJudge finishedOnce emptyWorld)) "debate-u1")
    as [result|] eqn:E; [|vm_compute in E; discriminate].
  split; [|now exists result].
  apply (persisted_result_is_final envNoJudge
           [EvSpeech alphaSpeaks 16; EvSpeech betaSpeaks 17]
           (worldAfter envNoJudge finishedOnce emptyWorld)).
  - vm_compute. reflexivity.
  - exact E.
Defined.

(** X7.  The stored transcript of a debate only grows: what [GetDebateLog]
    returns at some moment is a prefix of what it returns at any later
    moment; no stored speech is ever removed, changed or reordered. *)
Theorem stored_transcript_only_grows (env : Env) (evs : list Event) (w w' : World)
    (debateID : string) :
  run env evs w = Ok () w' →
  DbRead.GetDebateLog (db w) debateID `prefix_of` DbRead.GetDebateLog (db w') debateID.
Proof.
  intros Hrun. apply run_evolves in Hrun. destruct Hrun as (_ & (_ & _ & Hlog & _) & _).
  unfold DbRead.GetDebateLog. now apply map_prefix, filter_prefix.
Qed.

Lemma stored_transcript_only_grows_witness :
  DbRead.GetDebateLog (db (worldAfter envNoJudge finishedOnce emptyWorld)) "debate-u1"
  `prefix_of`
  DbRead.GetDebateLog (db (worldAfter envNoJudge anotherRound emptyWorld)) "debate-u1".
Proof.
  apply (stored_transcript_only_grows envNoJudge
           [EvSpeech alphaSpeaks 16; EvSpeech betaSpeaks 17]).
  vm_compute. reflexivity.
Defined.

(** X8.  The identity of a stored debate is fixed: a debate that
    [GetDebate] finds is found after any later events, with the topic, the
    number of rounds and the creation time it had (only its status, its
    round and its update time are ever rewritten). *)
Theorem stored_debate_keeps_identity (env : Env) (evs : list Event) (w w' : World)
    (debateID : string) (debate : Debate) :
  run env evs w = Ok () w' →
  Db.GetDebate (db w) debateID = Some debate →
  ∃ debate', Db.GetDebate (db w') debateID = Some debate'
    ∧ ID debate' = ID debate ∧ Topic debate' = Topic debate
    ∧ TotalRounds debate' = TotalRounds debate
    ∧ CreatedAt debate' = CreatedAt debate.
Proof.
  intros Hrun. apply run_evolves in Hrun. destruct Hrun as (_ & (Hd & _) & _).
  unfold Db.GetDebate. intros H.
  destruct (find_key_prefix debateKey (λ k, String.eqb (fst (fst (fst k))) debateID)
              _ _ _ Hd H) as (debate' & H' & Hk).
  exists debate'. split; [exact H'|]. unfold debateKey in Hk. now injection Hk.
Qed.

Lemma stored_debate_keeps_identity_witness :
  ∃ debate', Db.GetDebate (db (worldAfter envNoJudge finishedOnce emptyWorld)) "debate-u1"
             = Some debate'
    ∧ ID debate' = "debate-u1" ∧ Topic debate' = "T"
    ∧ TotalRounds debate' = 1 ∧ CreatedAt debate' = 10.
Proof.
  apply (stored_debate_keeps_identity envNoJudge
           (skipn 1 finishedOnce) (worldAfter envNoJudge (created 1) emptyWorld) _
           "debate-u1"
           {| ID := "debate-u1"; Topic := "T"; TotalRounds := 1; CurrentRound := 1;
              Status := "waiting"; CreatedAt := 10; UpdatedAt := 10 |});
    vm_compute; reflexivity.
Defined.

(** X9.  Timers are one-shot and their handles are never reused: after any
    events a timer still exists under its handle with the callback and the
    debate it was armed with, and once it is stopped or has expired it
    keeps that status (it never becomes pending again). *)
Theorem timers_are_one_shot (env : Env) (evs : list Event) (w w' : World)
    (tid : nat) (t : Timer) :
  run env evs w = Ok () w' →
  timers w !! tid = Some t →
  ∃ t', timers w' !! tid = Some t'
    ∧ t_kind t' = t_kind t ∧ t_debate t' = t_debate t
    ∧ (t_status t ≠ Pending → t_status t' = t_status t).
Proof.
  intros Hrun Ht. apply run_evolves in Hrun. destruct Hrun as (Hts & _).
  exact (timers_le_lookup _ _ _ _ Hts Ht).
Qed.

Lemma timers_are_one_shot_witness :
  ∃ t', timers (worldAfter envNoJudge finishedOnce emptyWorld) !! 0%nat = Some t'
    ∧ t_kind t' = WaitingT ∧ t_debate t' = "debate-u1"
    ∧ (Stopped ≠ Pending → t_status t' = Stopped).
Proof.
  apply (timers_are_one_shot envNoJudge
           [EvSpeech alphaSpeaks 14; EvSpeech betaSpeaks 15]
           (worldAfter envNoJudge (started 1) emptyWorld) _ 0%nat
           {| t_kind := WaitingT; t_debate := "debate-u1"; t_status := Stopped |});
    vm_compute; reflexivity.
Defined.

(** X10.  A timer that was stopped before it expired never runs its
    callback: in a server started from the empty state, once a timer is
    stopped, no later sequence of events leaves its callback waiting to
    run.  (The callbacks that do wait are those of expired timers.) *)
Theorem stopped_timer_never_runs (env : Env) (evs evs' : list Event) (w w' : World)
    (tid : nat) (t : Timer) :
  run env evs emptyWorld = Ok () w →
  timers w !! tid = Some t → t_status t = Stopped →
  run env evs' w = Ok () w' →
  TaskTimer tid ∉ goroutines w'.
Proof.
  intros Hrun Ht Hst Hrun' Hin.
  assert (Hall : run env (evs ++ evs') emptyWorld = Ok () w').
  { rewrite run_app. unfold mbind, M_bind. now rewrite Hrun. }
  apply run_evolves in Hall. destruct Hall as (_ & _ & _ & _ & Hsp).
  destruct (Hsp tid Hin) as [H|(t' & Ht' & Hf)].
  - simpl in H. now apply not_elem_of_nil in H.
  - apply run_evolves in Hrun'. destruct Hrun' as (Hts & _).
    destruct (timers_le_lookup _ _ _ _ Hts Ht) as (t'' & Ht'' & _ & _ & Hkeep).
    rewrite Ht' in Ht''. injection Ht'' as <-.
    rewrite Hkeep in Hf; congruence.
Qed.

Lemma stopped_timer_never_runs_witness :
  TaskTimer 0 ∉ goroutines (worldAfter envNoJudge (finishedOnce ++ [EvExpire 0]) emptyWorld).
Proof.
  apply (stopped_timer_never_runs envNoJudge (started 1)
           [EvSpeech alphaSpeaks 14; EvSpeech betaSpeaks 15; EvExpire 0]
           (worldAfter envNoJudge (started 1) emptyWorld) _ 0%nat
           {| t_kind := WaitingT; t_debate := "debate-u1"; t_status := Stopped |});
    vm_compute; reflexivity.
Defined.
Lemma WriteJSON_spec (c : Conn) (msg : Message) (w : World) :
  WriteJSON (Some c) msg w = Ok () (set_written (written w ++ [(c, msg)]) w).
Proof. reflexivity. Qed.

Lemma send_broadcast_spec (debateID : string) (msg : Message) (w : World) :
  send_broadcast debateID msg w
  = Ok () (set_broadcast
             (broadcast w ++ [ {| bm_DebateID := debateID; bm_Message := msg |} ]) w).
Proof. reflexivity. Qed.

Lemma startMaxDurationTimer_spec (debateID : string) (w : World) :
  is_Some (debates w !! debateID) →
  startMaxDurationTimer debateID w
  = Ok () (armed MaxDurationT debateID set_MaxDurationTimer w).
Proof.
  intros [a Ha]. unfold startMaxDurationTimer, getDebate, gets, mbind, M_bind.
  rewrite Ha. reflexivity.
Qed.

Lemma bind_assoc {A B C} (m : M A) (f : A → M B) (g : B → M C) (w : World) :
  ((m ≫= f) ≫= g) w = (m ≫= λ x, f x ≫= g) w.
Proof. unfold mbind, M_bind. destruct (m w); reflexivity. Qed.

Lemma bind_ret {A B} (a : A) (k : A → M B) (w : World) :
  (mret a ≫= k) w = k a w.
Proof. reflexivity. Qed.

Ltac flat :=
  unfold armed, set_debates, set_db, set_timers, set_goroutines, set_written,
    set_broadcast;
  cbn [debates db timers goroutines written broadcast
       Debate_ BotA BotB SupportingBot OpposingBot DebateLog LastSpeaker
       WaitingTimer TimeoutTimer InactivityTimer MaxDurationTimer StartTime
       LastActivityTime
       set_Debate set_BotA set_BotB set_sides set_DebateLog set_LastSpeaker
       set_WaitingTimer set_TimeoutTimer set_InactivityTimer set_MaxDurationTimer
       set_StartTime set_LastActivityTime set_Status set_CurrentRound
       supporting opposing slotBot set_slot_Side set_cb_Side cb_Bot cb_Conn
       ID Topic TotalRounds CurrentRound Status CreatedAt UpdatedAt
       BotName BotUUID BotIdentifier DebateID DebateKey Side ConnectedAt
       Db.set_side fmap option_fmap option_map].

Ltac lookup_now Hl :=
  flat; rewrite ?lookup_alter_eq, Hl; flat; eauto.

Ltac fwd Hl :=
  first
    [ rewrite bind_assoc
    | rewrite bind_ret
    | rewrite (bind_Ok _ _ _ _ _ (Stop_spec _ _))
    | rewrite (bind_Ok _ _ _ _ _ (assign_spec _ _ _))
    | rewrite (bind_Ok _ _ _ _ _ (db_exec_spec _ _))
    | rewrite (bind_Ok _ _ _ _ _ (WriteJSON_spec _ _ _))
    | rewrite (bind_Ok _ _ _ _ _ (send_broadcast_spec _ _ _))
    | erewrite bind_Ok by (apply deref_spec; lookup_now Hl)
    | erewrite bind_Ok by (apply startTimeout_spec; lookup_now Hl)
    | erewrite bind_Ok by (apply startInactivityTimer_spec; lookup_now Hl)
    | erewrite bind_Ok by (apply startMaxDurationTimer_spec; lookup_now Hl)
    | rewrite Stop_spec
    | rewrite assign_spec
    | rewrite db_exec_spec
    | rewrite WriteJSON_spec
    | rewrite send_broadcast_spec
    | rewrite startTimeout_spec by lookup_now Hl
    | rewrite startInactivityTimer_spec by lookup_now Hl
    | rewrite startMaxDurationTimer_spec by lookup_now Hl ];
  flat.

(** X11.  The start of a debate (both slots filled, both connections
    open): [startDebate] returns; the first bot supports if the coin says
    so and opposes otherwise, and the second bot takes the other side; the
    session is active and the supporting bot is the next speaker; each bot
    is sent one [debate_start] frame with its own side and identifier, both
    frames naming the same supporting side, opposing side and next speaker,
    and the observers get the supporting bot's frame; the join-wait timer
    is stopped and its handle cleared; a speech timer for the supporting
    bot, an inactivity timer and a max-duration timer are armed and their
    handles stored; the stored status is active. *)
Theorem startDebate_starts (env : Env) (w : World) (debateID : string) (coin : bool)
    (now : Time) (a : ActiveDebate) (botA botB : ConnectedBot) (cA cB : Conn) :
  debates w !! debateID = Some a →
  BotA a = Some botA → BotB a = Some botB →
  cb_Conn botA = Some cA → cb_Conn botB = Some cB →
  let sup := if coin then botA else botB in
  let opp := if coin then botB else botA in
  let supID := BotIdentifier (cb_Bot sup) in
  let oppID := BotIdentifier (cb_Bot opp) in
  let frame := debateStartFrame env debateID (Debate_ a) supID oppID in
  let n := length (timers w) in
  ∃ w' a',
    startDebate env debateID coin now w = Ok () w'
    ∧ debates w' !! debateID = Some a'
    ∧ Status (Debate_ a') = "active"
    ∧ identifierOf (supporting a') = Some supID
    ∧ identifierOf (opposing a') = Some oppID
    ∧ sideOf (supporting a') = Some "supporting"
    ∧ sideOf (opposing a') = Some "opposing"
    ∧ getNextSpeaker a' = Some supID
    ∧ written w'
      = (written w ++ [ (if coin then cA else cB, frame "supporting" supID);
                        (if coin then cB else cA, frame "opposing" oppID) ])%list
    ∧ broadcast w'
      = (broadcast w ++ [ {| bm_DebateID := debateID;
                             bm_Message := frame "supporting" supID |} ])%list
    ∧ timers w'
      = (stopped (WaitingTimer a) (timers w)
         ++ [ pendingTimer (SpeechT supID) debateID;
              pendingTimer InactivityT debateID;
              pendingTimer MaxDurationT debateID ])%list
    ∧ WaitingTimer a' = None
    ∧ TimeoutTimer a' = Some n
    ∧ InactivityTimer a' = Some (n + 1)%nat
    ∧ MaxDurationTimer a' = Some (n + 2)%nat
    ∧ db w'
      = Db.UpdateDebateStatus
          (Db.UpdateBotSide (Db.UpdateBotSide (db w) debateID supID "supporting")
             debateID oppID "opposing")
          debateID "active" now.
Proof.
  intros Hl HA HB HcA HcB sup opp supID oppID frame n.
  destruct w as [m d ts gs wr bc]. cbn [debates] in Hl.
  unfold startDebate, getDebate, gets.
  unfold mbind at 1. unfold M_bind at 1. cbn [debates]. rewrite Hl.
  destruct a as [d0 bA bB sB oB dl ls wt tt it mt st lat].
  simpl in HA, HB. subst bA bB.
  destruct botA as [bota ca], botB as [botb cb]. simpl in HcA, HcB. subst ca cb.
  cbn [BotA BotB WaitingTimer].
  assert (Hlen : ∀ h, length (stopped h ts) = length ts).
  { intros [tid|]; simpl; [apply length_alter|reflexivity]. }
  destruct wt as [tid|], coin; subst sup opp supID oppID frame n;
    cbn [cb_Bot Debate_ WaitingTimer timers written broadcast db];
    (do 2 eexists; split; [repeat fwd Hl; reflexivity|]);
    (split; [lookup_now Hl|]);
    flat; unfold getNextSpeaker, identifierOf, sideOf, debateStartFrame, pendingTimer;
    flat; rewrite <- ?app_assoc, ?length_app, ?Hlen; simpl;
    rewrite ?Nat.add_assoc; repeat split; reflexivity.
Qed.

Lemma startDebate_starts_witness :
  ∃ w' a',
    startDebate envNoJudge "debate-u1" false 13
      (worldAfter envNoJudge (joinedOnce 2 ++ [EvLogin loginBeta 2%nat "key-b" 12])
         emptyWorld) = Ok () w'
    ∧ debates w' !! "debate-u1" = Some a'
    ∧ Status (Debate_ a') = "active"
    ∧ identifierOf (supporting a') = Some "beta-bbbbbbbb"
    ∧ identifierOf (opposing a') = Some "alpha-aaaaaaaa"
    ∧ sideOf (supporting a') = Some "supporting"
    ∧ sideOf (opposing a') = Some "opposing"
    ∧ getNextSpeaker a' = Some "beta-bbbbbbbb".
Proof.
  pose (w := worldAfter envNoJudge (joinedOnce 2 ++ [EvLogin loginBeta 2%nat "key-b" 12])
               emptyWorld).
  destruct (debates w !! "debate-u1") as [a|] eqn:Hl; [|vm_compute in Hl; discriminate].
  destruct (BotA a) as [botA|] eqn:HA.
  2:{ vm_compute in Hl. injection Hl as <-. discriminate. }
  destruct (BotB a) as [botB|] eqn:HB.
  2:{ vm_compute in Hl. injection Hl as <-. discriminate. }
  destruct (startDebate_starts envNoJudge w "debate-u1" false 13 a botA botB 1%nat 2%nat
              Hl HA HB) as (w' & a' & H).
  - vm_compute in Hl. injection Hl as <-. injection HA as <-. reflexivity.
  - vm_compute in Hl. injection Hl as <-. injection HB as <-. reflexivity.
  - exists w', a'. 
    vm_compute in Hl. injection Hl as <-. injection HA as <-. injection HB as <-.
    destruct H as (H1 & H2 & H3 & H4 & H5 & H6 & H7 & H8 & _).
    repeat split; assumption.
Defined.
Lemma db_try_spec (f : Database → option Database) (w : World) :
  db_try f w = Ok () (set_db (default (db w) (f (db w))) w).
Proof. reflexivity. Qed.

Lemma stop_timer_not_pending (t : Timer) : t_status (stop_timer t) ≠ Pending.
Proof. unfold stop_timer. destruct (t_status t) eqn:E; simpl; congruence. Qed.

Lemma stopped_keeps (h : option nat) (ts : list Timer) (tid : nat) (t : Timer) :
  stopped h ts !! tid = Some t →
  h = Some tid ∨ (∀ t0, ts !! tid = Some t0 → t_status t0 ≠ Pending) →
  t_status t ≠ Pending.
Proof.
  destruct h as [tid'|]; simpl.
  - destruct (decide (tid' = tid)) as [->|Hne].
    + rewrite list_lookup_alter_eq. destruct (ts !! tid) as [t0|]; [|discriminate].
      intros [= <-] _. apply stop_timer_not_pending.
    + rewrite list_lookup_alter_ne by exact Hne. intros Ht [[= E]|H]; [congruence|].
      now apply H.
  - intros Ht [[=]|H]. now apply H.
Qed.

Lemma stopped_notPending (h h' : option nat) (ts : list Timer) :
  h' = h ∨ notPending ts h' → notPending (stopped h ts) h'.
Proof.
  destruct h' as [tid|]; [|intros _; exact I]. simpl. intros H t Ht.
  apply (stopped_keeps _ _ _ _ Ht). destruct H as [<-|H]; [now left|now right].
Qed.

Lemma length_stopped (h : option nat) (ts : list Timer) :
  length (stopped h ts) = length ts.
Proof. destruct h; simpl; [apply length_alter|reflexivity]. Qed.

(** What [endDebate] does to a session in the registry. *)
Lemma endDebate_effect (env : Env) (w : World) (debateID status reason : string)
    (now : Time) (a : ActiveDebate) (result : DebateResult) :
  debates w !! debateID = Some a →
  generateDebateResult env (set_Status status a) status reason = Val result →
  let endMsg := debateEndFrame debateID (set_Status status a) status result in
  let stored := Db.UpdateDebateStatus (db w) debateID status now in
  ∃ w',
    endDebate env debateID status reason now w = Ok () w'
    ∧ debates w' = alter (set_Status status) debateID (debates w)
    ∧ db w' = default stored (Db.SaveDebateResult stored debateID result)
    ∧ written w'
      = (written w ++ map (λ c, (c, endMsg))
                          (openConn (supporting a) ++ openConn (opposing a)))%list
    ∧ broadcast w'
      = (broadcast w ++ [ {| bm_DebateID := debateID; bm_Message := endMsg |} ])%list
    ∧ notPending (timers w') (WaitingTimer a)
    ∧ notPending (timers w') (TimeoutTimer a)
    ∧ notPending (timers w') (InactivityTimer a)
    ∧ notPending (timers w') (MaxDurationTimer a)
    ∧ length (timers w') = length (timers w)
    ∧ goroutines w' = goroutines w.
Proof.
  intros Hl Hg endMsg stored. subst endMsg stored.
  destruct w as [m d ts gs wr bc]. cbn [debates] in Hl.
  unfold endDebate, getDebate, gets.
  unfold mbind at 1. unfold M_bind at 1. cbn [debates]. rewrite Hl.
  rewrite (bind_Ok _ _ _ _ _ (Stop_spec _ _)).
  rewrite (bind_Ok _ _ _ _ _ (Stop_spec _ _)).
  rewrite (bind_Ok _ _ _ _ _ (Stop_spec _ _)).
  rewrite (bind_Ok _ _ _ _ _ (Stop_spec _ _)).
  rewrite (bind_Ok _ _ _ _ _ (db_exec_spec _ _)).
  rewrite (bind_Ok _ _ _ _ _ (assign_spec _ _ _)).
  erewrite bind_Ok
    by (apply deref_spec; simpl; rewrite lookup_alter_eq, Hl; reflexivity).
  rewrite Hg.
  rewrite (bind_Ok _ _ _ _ _ (db_try_spec _ _)).
  unfold debateEndFrame.
  destruct (sides_set_Status status a) as [-> ->].
  set (ts' := stopped (MaxDurationTimer a)
                (stopped (InactivityTimer a)
                   (stopped (TimeoutTimer a) (stopped (WaitingTimer a) ts)))).
  assert (Hts : notPending ts' (WaitingTimer a) ∧ notPending ts' (TimeoutTimer a)
                ∧ notPending ts' (InactivityTimer a)
                ∧ notPending ts' (MaxDurationTimer a) ∧ length ts' = length ts).
  { subst ts'. repeat split.
    - do 3 (apply stopped_notPending; right). apply stopped_notPending. now left.
    - do 2 (apply stopped_notPending; right). apply stopped_notPending. now left.
    - apply stopped_notPending; right. apply stopped_notPending. now left.
    - apply stopped_notPending. now left.
    - now rewrite !length_stopped. }
  destruct Hts as (T1 & T2 & T3 & T4 & T5).
  destruct (supporting a) as [[bs [cs|]]|], (opposing a) as [[bo [co|]]|];
    (eexists; split; [reflexivity|]); simpl;
    rewrite <- ?app_assoc, ?app_nil_r; repeat split; assumption.
Qed.

(** X12.  The terminal transition.  For a session in the registry whose
    result is synthesized, [endDebate] returns and: the status is set in
    memory, whatever it was, and nothing else of the session changes; the
    status is stored, and the result is stored unless the debate has one
    already; the supporting and then the opposing bot are sent the same
    [debate_end] frame if their connection is open, and the observers are
    sent it once; the frame carries the status, the whole transcript and
    the result; none of the session's four timer handles names a pending
    timer afterwards, and no timer is created. *)
Theorem endDebate_ends (env : Env) (w : World) (debateID status reason : string)
    (now : Time) (a : ActiveDebate) (result : DebateResult) :
  debates w !! debateID = Some a →
  generateDebateResult env (set_Status status a) status reason = Val result →
  let endMsg := debateEndFrame debateID (set_Status status a) status result in
  let stored := Db.UpdateDebateStatus (db w) debateID status now in
  ∃ w',
    endDebate env debateID status reason now w = Ok () w'
    ∧ debates w' = alter (set_Status status) debateID (debates w)
    ∧ db w' = default stored (Db.SaveDebateResult stored debateID result)
    ∧ written w'
      = (written w ++ map (λ c, (c, endMsg))
                          (openConn (supporting a) ++ openConn (opposing a)))%list
    ∧ broadcast w'
      = (broadcast w ++ [ {| bm_DebateID := debateID; bm_Message := endMsg |} ])%list
    ∧ notPending (timers w') (WaitingTimer a)
    ∧ notPending (timers w') (TimeoutTimer a)
    ∧ notPending (timers w') (InactivityTimer a)
    ∧ notPending (timers w') (MaxDurationTimer a)
    ∧ length (timers w') = length (timers w)
    ∧ goroutines w' = goroutines w.
Proof. exact (endDebate_effect env w debateID status reason now a result). Qed.

Lemma endDebate_ends_witness :
  ∃ w', endDebate envNoJudge "debate-u1" "timeout" "speech_timeout" 133
          (worldAfter envNoJudge (started 1) emptyWorld) = Ok () w'
        ∧ length (written w') = 4%nat
        ∧ length (broadcast w') = 4%nat.
Proof.
  edestruct (endDebate_ends envNoJudge (worldAfter envNoJudge (started 1) emptyWorld)
               "debate-u1" "timeout" "speech_timeout" 133)
    as (w' & H1 & _ & _ & H4 & H5 & _).
  - vm_compute. reflexivity.
  - vm_compute. reflexivity.
  - exists w'. split; [exact H1|]. rewrite H4, H5. split; vm_compute; reflexivity.
Defined.

(** X13.  A disconnect while the debate is active (Scenario D): the debate
    ends with status timeout and the reason [reason_botIdentifier]; both
    sides' open connections and the observers are sent [debate_end] with
    that status; without a judge the result carries that reason, so it
    names the bot that disconnected.  The session is then no longer
    active, and any further disconnect event for it (the read error that
    follows a heartbeat timeout, the other bot leaving) changes
    nothing. *)
Theorem disconnect_ends_active_debate (env : Env) (w : World)
    (debateID botIdentifier reason : string) (now : Time) (a : ActiveDebate)
    (result : DebateResult) :
  debates w !! debateID = Some a →
  Status (Debate_ a) = "active" →
  let detailedReason := reason ++ "_" ++ botIdentifier in
  generateDebateResult env (set_Status "timeout" a) "timeout" detailedReason
  = Val result →
  let endMsg := debateEndFrame debateID (set_Status "timeout" a) "timeout" result in
  ∃ w',
    HandleBotDisconnect env debateID botIdentifier reason now w = Ok () w'
    ∧ statusOf debateID w' = Some "timeout"
    ∧ written w'
      = (written w ++ map (λ c, (c, endMsg))
                          (openConn (supporting a) ++ openConn (opposing a)))%list
    ∧ broadcast w'
      = (broadcast w ++ [ {| bm_DebateID := debateID; bm_Message := endMsg |} ])%list
    ∧ (chatgptClient env = None → Reason result = detailedReason)
    ∧ ∀ botIdentifier' reason' now',
        HandleBotDisconnect env debateID botIdentifier' reason' now' w' = Ok () w'.
Proof.
  intros Hl Hs detailedReason Hg endMsg.
  destruct (endDebate_effect env w debateID "timeout" detailedReason now a result
              Hl Hg) as (w' & H1 & H2 & _ & H4 & H5 & _).
  exists w'. split.
  { unfold HandleBotDisconnect, getDebate, gets.
    unfold mbind at 1. unfold M_bind at 1. rewrite Hl, Hs. exact H1. }
  assert (Hl' : debates w' !! debateID = Some (set_Status "timeout" a)).
  { rewrite H2, lookup_alter_eq, Hl. reflexivity. }
  split; [unfold statusOf, session; now rewrite Hl'|].
  split; [exact H4|]. split; [exact H5|]. split.
  - intros Hnil. rewrite generateDebateResult_no_judge in Hg by exact Hnil.
    injection Hg as <-. reflexivity.
  - intros b' r' n'. apply (HandleBotDisconnect_guarded env w' debateID b' r' n' _ Hl').
    discriminate.
Qed.

Lemma disconnect_ends_active_debate_witness :
  ∃ w',
    HandleBotDisconnect envNoJudge "debate-u1" "alpha-aaaaaaaa" "heartbeat_timeout" 200
      (worldAfter envNoJudge (started 1) emptyWorld) = Ok () w'
    ∧ statusOf "debate-u1" w' = Some "timeout"
    ∧ HandleBotDisconnect envNoJudge "debate-u1" "alpha-aaaaaaaa" "connection_lost" 201 w'
      = Ok () w'.
Proof.
  edestruct (disconnect_ends_active_debate envNoJudge
               (worldAfter envNoJudge (started 1) emptyWorld)
               "debate-u1" "alpha-aaaaaaaa" "heartbeat_timeout" 200)
    as (w' & H1 & H2 & _ & _ & _ & H6).
  - vm_compute. reflexivity.
  - vm_compute. reflexivity.
  - vm_compute. reflexivity.
  - exists w'. split; [exact H1|]. split; [exact H2|]. apply H6.
Defined.

(** X14.  The join-wait timeout (Scenario E).  When the callback of the
    join-wait timer runs on a session that is still waiting, however many
    bots have joined: the session leaves the registry, the stored status
    becomes timeout, and no frame or event is sent to anyone.  From then
    on a login that asks for that debate is rejected with
    [debate_not_ready] and a retry hint of 5, and a speech for it is
    answered [DEBATE_NOT_FOUND], both without any effect. *)
Theorem waitingTimeout_drops_session (env : Env) (w : World) (debateID : string)
    (now : Time) (a : ActiveDebate) (row : Debate) :
  debateID ≠ "" →
  debates w !! debateID = Some a →
  Status (Debate_ a) = "waiting" →
  Db.GetDebate (db w) debateID = Some row →
  ∃ w',
    waitingTimeout debateID now w = Ok () w'
    ∧ debates w' = delete debateID (debates w)
    ∧ Db.GetDebate (db w') debateID = Some (Db.set_status "timeout" now row)
    ∧ written w' = written w
    ∧ broadcast w' = broadcast w
    ∧ timers w' = timers w
    ∧ (∀ loginReq conn debateKey now',
         lr_DebateID loginReq = debateID →
         BotLogin loginReq conn debateKey now' w'
         = Ok (inr (rejected "debate_not_ready" "Debate not ready yet, try later"
                             debateID 5)) w')
    ∧ (∀ speech now',
         sp_DebateID speech = debateID →
         HandleSpeech env speech now' w'
         = Ok (Some (errorMessage "DEBATE_NOT_FOUND" "Debate not found" debateID false))
              w').
Proof.
  intros Hne Hl Hs Hrow.
  destruct w as [m d ts gs wr bc]. cbn [debates db] in *.
  assert (Hrow' : Db.GetDebate (Db.UpdateDebateStatus d debateID "timeout" now) debateID
                  = Some (Db.set_status "timeout" now row)).
  { unfold Db.GetDebate, Db.UpdateDebateStatus, Db.update_debates in *. simpl.
    rewrite find_map_update by reflexivity. rewrite Hrow. simpl.
    apply List.find_some in Hrow. destruct Hrow as [_ ->]. reflexivity. }
  eexists. split.
  { unfold waitingTimeout, getDebate, gets.
    unfold mbind at 1. unfold M_bind at 1. cbn [debates]. rewrite Hl, Hs. simpl.
    reflexivity. }
  simpl. split; [now rewrite delete_alter_eq|].
  split; [exact Hrow'|]. do 3 (split; [reflexivity|]).
  split.
  - intros loginReq conn debateKey now' Hid.
    unfold BotLogin, resolveDebate, getDebate, gets, mbind, M_bind.
    flat. rewrite Hid. apply String.eqb_neq in Hne. rewrite Hne.
    cbn [debates db]. rewrite lookup_delete_eq, Hrow'. reflexivity.
  - intros speech now' Hid.
    unfold HandleSpeech, getDebate, gets, mbind, M_bind.
    flat. rewrite Hid. cbn [debates db]. rewrite lookup_delete_eq. reflexivity.
Qed.

Lemma waitingTimeout_drops_session_witness :
  ∃ w',
    waitingTimeout "debate-u1" 310
      (worldAfter envNoJudge (joinedOnce 1) emptyWorld) = Ok () w'
    ∧ debates w' !! "debate-u1" = None
    ∧ storedStatus "debate-u1" w' = Some "timeout".
Proof.
  edestruct (waitingTimeout_drops_session envNoJudge
               (worldAfter envNoJudge (joinedOnce 1) emptyWorld) "debate-u1" 310)
    as (w' & H1 & H2 & H3 & _).
  - discriminate.
  - vm_compute. reflexivity.
  - vm_compute. reflexivity.
  - vm_compute. reflexivity.
  - exists w'. split; [exact H1|]. split.
    + rewrite H2. apply lookup_delete_eq.
    + unfold storedStatus. rewrite H3. reflexivity.
Defined.
(** ** Joining a debate *)

(** X15.  An accepted login.  When the login resolves to a session that is
    not full, the bot's uuid has at least 8 bytes and its (debate, uuid)
    is not registered yet, [BotLogin] confirms: the identifier is the name,
    a dash and the first 8 bytes of the uuid; the bot is stored and put
    into slot A if that is empty and into slot B otherwise, with the
    freshly minted key, no side and the connection; the confirmation
    carries the debate, the key, the topic and the identifiers of the bots
    that joined before (none with this bot's own identifier); the
    observers get one [debate_waiting] event listing the bots in slot
    order; [startDebate] is spawned exactly when both slots are now filled;
    no timer is touched and no frame is written by the manager. *)
Theorem BotLogin_joins (w w1 : World) (loginReq : LoginRequest) (conn : Conn)
    (debateKey : string) (now : Time) (debateID prefix : string) (a : ActiveDebate)
    (d' : Database) :
  resolveDebate loginReq w = Ok (inr (debateID, a)) w1 →
  full a = false →
  slice (lr_BotUUID loginReq) 0 8 = Some prefix →
  let botIdentifier := lr_BotName loginReq ++ "-" ++ prefix in
  let bot := {| BotName := lr_BotName loginReq; BotUUID := lr_BotUUID loginReq;
                BotIdentifier := botIdentifier; DebateID := debateID;
                DebateKey := debateKey; Side := ""; ConnectedAt := now |} in
  let connectedBot := {| cb_Bot := bot; cb_Conn := Some conn |} in
  let a' := match BotA a with
            | None => set_BotA (Some connectedBot) a
            | Some _ => set_BotB (Some connectedBot) a
            end in
  Db.AddBot (db w1) bot = Some d' →
  ∃ w' confirmed,
    BotLogin loginReq conn debateKey now w = Ok (inl confirmed) w'
    ∧ confirmed
      = {| lc_Status := "confirmed"; lc_Message := "Wait for other bot";
           lc_DebateID := debateID; lc_DebateKey := debateKey;
           lc_BotIdentifier := botIdentifier; lc_Topic := Topic (Debate_ a);
           lc_JoinedBots := (joinedExcept botIdentifier (BotA a)
                             ++ joinedExcept botIdentifier (BotB a))%list |}
    ∧ debates w' = alter (λ _, a') debateID (debates w1)
    ∧ db w' = d'
    ∧ broadcast w'
      = (broadcast w1 ++
         [ {| bm_DebateID := debateID;
              bm_Message := createMessage "debate_waiting" (DataDebateWaiting
                {| dw_DebateID := debateID; dw_Topic := Topic (Debate_ a);
                   dw_TotalRounds := TotalRounds (Debate_ a);
                   dw_Status := "waiting";
                   dw_JoinedBots := (joined (BotA a') ++ joined (BotB a'))%list |})
           |} ])%list
    ∧ goroutines w'
      = (goroutines w1 ++ if full a' then [TaskStartDebate debateID] else [])%list
    ∧ timers w' = timers w1
    ∧ written w' = written w1.
Proof.
  intros Hres Hfull Hslice botIdentifier bot connectedBot a' Hadd.
  unfold BotLogin. rewrite (bind_Ok _ _ _ _ _ Hres).
  unfold full in Hfull. rewrite Hfull, Hslice.
  unfold gets. unfold mbind at 1. unfold M_bind at 1.
  fold botIdentifier. fold bot. rewrite Hadd.
  destruct w1 as [m d ts gs wr bc].
  destruct a as [d0 bA bB sB oB dl ls wt tt it mt st lat].
  subst a'. cbn [BotA BotB] in *.
  destruct bA as [ca|], bB as [cb|]; try discriminate Hfull;
    (do 2 eexists; split; [reflexivity|]);
    unfold full, joined, joinedExcept; simpl;
    rewrite ?String.eqb_refl; simpl; rewrite ?app_nil_r; repeat split; reflexivity.
Qed.

Lemma BotLogin_joins_witness :
  ∃ w' confirmed,
    BotLogin loginBeta 2%nat "key-b" 12 (worldAfter envNoJudge (joinedOnce 1) emptyWorld)
    = Ok (inl confirmed) w'
    ∧ lc_BotIdentifier confirmed = "beta-bbbbbbbb"
    ∧ lc_JoinedBots confirmed = ["alpha-aaaaaaaa"]
    ∧ goroutines w' = [TaskStartDebate "debate-u1"].
Proof.
  edestruct (BotLogin_joins (worldAfter envNoJudge (joinedOnce 1) emptyWorld)
               (worldAfter envNoJudge (joinedOnce 1) emptyWorld)
               loginBeta 2%nat "key-b" 12)
    as (w' & confirmed & H1 & H2 & _ & _ & _ & H6 & _).
  - vm_compute. reflexivity.
  - vm_compute. reflexivity.
  - vm_compute. reflexivity.
  - vm_compute. reflexivity.
  - exists w', confirmed. split; [exact H1|]. rewrite H2, H6.
    repeat split; vm_compute; reflexivity.
Defined.

(** X16.  One registration per uuid and debate.  A login for a session in
    the registry that is not full, by a bot whose uuid is already
    registered for that debate (a bot that logs in twice, or reconnects),
    is rejected with [internal_error]; the slot stays empty and nothing
    else changes. *)
Theorem BotLogin_same_uuid_twice (w : World) (loginReq : LoginRequest) (conn : Conn)
    (debateKey : string) (now : Time) (a : ActiveDebate) (prefix : string)
    (registered : Bot) :
  lr_DebateID loginReq ≠ "" →
  debates w !! lr_DebateID loginReq = Some a →
  full a = false →
  slice (lr_BotUUID loginReq) 0 8 = Some prefix →
  In registered (DbRead.GetBots (db w) (lr_DebateID loginReq)) →
  BotUUID registered = lr_BotUUID loginReq →
  BotLogin loginReq conn debateKey now w
  = Ok (inr (rejected "internal_error" "Failed to register bot"
                      (lr_DebateID loginReq) 0)) w.
Proof.
  intros Hne Hl Hfull Hslice Hin Huuid.
  assert (Hres : resolveDebate loginReq w = Ok (inr (lr_DebateID loginReq, a)) w).
  { unfold resolveDebate, getDebate, gets, mbind, M_bind.
    apply String.eqb_neq in Hne. rewrite Hne, Hl. reflexivity. }
  unfold BotLogin. rewrite (bind_Ok _ _ _ _ _ Hres).
  unfold full in Hfull. rewrite Hfull, Hslice.
  unfold gets. unfold mbind at 1. unfold M_bind at 1.
  unfold Db.AddBot. cbn [DebateID BotUUID].
  unfold DbRead.GetBots in Hin. apply filter_In in Hin. destruct Hin as [Hin Hd].
  assert (Hex : existsb (λ r, String.eqb (DebateID r) (lr_DebateID loginReq)
                              && String.eqb (BotUUID r) (lr_BotUUID loginReq))
                        (tbl_bots (db w)) = true).
  { apply existsb_exists. exists registered. split; [exact Hin|].
    rewrite Hd, Huuid, String.eqb_refl. reflexivity. }
  rewrite Hex. reflexivity.
Qed.

Lemma BotLogin_same_uuid_twice_witness :
  BotLogin (withDebateID "debate-u1" loginAlpha) 7%nat "key-c" 12
    (worldAfter envNoJudge (joinedOnce 1) emptyWorld)
  = Ok (inr (rejected "internal_error" "Failed to register bot" "debate-u1" 0))
       (worldAfter envNoJudge (joinedOnce 1) emptyWorld).
Proof.
  eapply (BotLogin_same_uuid_twice (worldAfter envNoJudge (joinedOnce 1) emptyWorld)
            (withDebateID "debate-u1" loginAlpha) 7%nat "key-c" 12).
  - discriminate.
  - vm_compute. reflexivity.
  - vm_compute. reflexivity.
  - vm_compute. reflexivity.
  - vm_compute. left. reflexivity.
  - reflexivity.
Defined.
(** ** Creating a debate *)

(** X17.  Creating a debate through the HTTP entry point.  An empty topic
    creates nothing.  Otherwise, for an id that is not stored yet, the
    debate is stored and registered with status waiting, round 1, the
    topic, and the requested number of rounds, or 5 when the request gives
    none or a non-positive one; it has no bots, no sides and an empty
    transcript; its join-wait timer is the one new timer, pending; no
    frame or event is sent; other sessions are untouched. *)
Theorem handleCreateDebate_creates (w : World) (uuid topic : string)
    (totalRounds : Z) (now : Time) :
  (topic = "" → handleCreateDebate uuid topic totalRounds now w = Ok None w)
  ∧ (topic ≠ "" →
     Db.GetDebate (db w) ("debate-" ++ uuid) = None →
     let debate :=
       {| ID := "debate-" ++ uuid; Topic := topic;
          TotalRounds := if totalRounds <=? 0 then 5 else totalRounds;
          CurrentRound := 1; Status := "waiting";
          CreatedAt := now; UpdatedAt := now |} in
     ∃ w',
       handleCreateDebate uuid topic totalRounds now w = Ok (Some debate) w'
       ∧ Db.GetDebate (db w') (ID debate) = Some debate
       ∧ debates w' !! ID debate
         = Some (set_WaitingTimer (Some (length (timers w))) (newActiveDebate debate))
       ∧ (∀ other, other ≠ ID debate → debates w' !! other = debates w !! other)
       ∧ timers w' = (timers w ++ [pendingTimer WaitingT (ID debate)])%list
       ∧ written w' = written w
       ∧ broadcast w' = broadcast w
       ∧ goroutines w' = goroutines w).
Proof.
  split.
  - intros ->. reflexivity.
  - intros Hne Hfree debate. unfold handleCreateDebate.
    apply String.eqb_neq in Hne. rewrite Hne.
    unfold CreateDebate, gets. unfold mbind at 1. unfold M_bind at 1.
    fold debate. unfold Db.GetDebate in Hfree.
    assert (Hins : Db.CreateDebate (db w) debate
                   = Some {| tbl_debates := tbl_debates (db w) ++ [debate];
                             tbl_bots := tbl_bots (db w);
                             tbl_debate_log := tbl_debate_log (db w);
                             tbl_debate_results := tbl_debate_results (db w) |}).
    { unfold Db.CreateDebate. apply existsb_find_None in Hfree.
      cbn [ID debate]. rewrite Hfree. reflexivity. }
    rewrite Hins. destruct w as [m d ts gs wr bc].
    unfold startWaitingTimer, getDebate, gets, AfterFunc, assign, modify, mbind, M_bind.
    cbn [debates db timers set_debates set_db set_timers].
    rewrite lookup_insert_eq.
    eexists. split; [reflexivity|].
    unfold set_debates, set_db, set_timers.
    cbn [debates db timers written broadcast goroutines].
    split.
    { unfold Db.GetDebate. cbn [tbl_debates]. cbn [db] in Hfree.
      rewrite find_app_None by exact Hfree. simpl. rewrite String.eqb_refl. reflexivity. }
    split; [now rewrite lookup_alter_eq, lookup_insert_eq|].
    split.
    { intros other Ho. rewrite lookup_alter_ne by congruence.
      now rewrite lookup_insert_ne by congruence. }
    repeat split.
Qed.

Lemma handleCreateDebate_creates_witness :
  ∃ w', handleCreateDebate "u2" "T2" (-3) 20
          (worldAfter envNoJudge (started 1) emptyWorld)
        = Ok (Some {| ID := "debate-u2"; Topic := "T2"; TotalRounds := 5;
                      CurrentRound := 1; Status := "waiting";
                      CreatedAt := 20; UpdatedAt := 20 |}) w'
        ∧ timers w' = (timers (worldAfter envNoJudge (started 1) emptyWorld)
                       ++ [pendingTimer WaitingT "debate-u2"])%list.
Proof.
  destruct (proj2 (handleCreateDebate_creates
                     (worldAfter envNoJudge (started 1) emptyWorld) "u2" "T2" (-3) 20))
    as (w' & H1 & _ & _ & _ & H5 & _).
  - discriminate.
  - vm_compute. reflexivity.
  - exists w'. split; [exact H1|exact H5].
Defined.
(** ** The result synthesizer on every path *)

Lemma allowedWinner_cases (w : string) :
  allowedWinner w = true → w = "supporting" ∨ w = "opposing" ∨ w = "draw".
Proof.
  unfold allowedWinner. intros H.
  apply orb_true_iff in H. destruct H as [H|H].
  - apply orb_true_iff in H. destruct H as [H|H]; apply String.eqb_eq in H; auto.
  - apply String.eqb_eq in H; auto.
Qed.

Lemma fallbackResult_wellFormed (env : Env) (a : ActiveDebate) (status reason : string)
    (sc oc : Z) :
  0 <= sc → 0 <= oc → wellFormedResult (fallbackResult env a status reason sc oc).
Proof.
  intros Hs Ho.
  destruct (fallbackResult_scores env a status reason sc oc) as [HS HO].
  assert (Hrs : 45 <= rawScore sc <= 50) by (unfold rawScore; lia).
  assert (Hro : 45 <= rawScore oc <= 50) by (unfold rawScore; lia).
  assert (Hq : 45 <= Z.quot (rawScore sc * 100) (rawScore sc + rawScore oc) <= 55).
  { rewrite Z.quot_div_nonneg by lia. split.
    - apply Z.div_le_lower_bound; nia.
    - apply Z.lt_succ_r. apply Z.div_lt_upper_bound; nia. }
  unfold wellFormedResult. rewrite HO, HS. split; [lia|]. split; [lia|].
  rewrite fallbackResult_winner. rewrite HO, HS.
  destruct ((0 <? sc) && (0 <? oc)); [|auto].
  destruct (_ <? _); [auto|]. destruct (_ <? _); auto.
Qed.

(** X18.  Every result the synthesizer returns is well formed, on every
    path (judge answer parsed and validated, judge answer not parsed,
    judge not configured or failing, fallback scorer): both scores lie in
    [0,100] and the winner is one of supporting, opposing, draw, none. *)
Theorem generateDebateResult_wellFormed (env : Env) (a : ActiveDebate)
    (status reason : string) (result : DebateResult) :
  generateDebateResult env a status reason = Val result →
  wellFormedResult result.
Proof.
  assert (Hfb : wellFormedResult
                  (fallbackResult env a status reason
                     (supportingUtterances (DebateLog a))
                     (opposingUtterances (DebateLog a)))).
  { destruct (utterances_nonneg (DebateLog a)). now apply fallbackResult_wellFormed. }
  destruct (judgeInvoked env a) as [answer|] eqn:Hj.
  - rewrite (generateDebateResult_judge env a status reason answer Hj).
    destruct answer as [response|]; [|intros [= <-]; exact Hfb].
    rewrite parseJudgeResponse_spec.
    destruct (extractJSON response) as [jsonStr| |].
    + destruct (Unmarshal env jsonStr) as [jd|].
      * intros [= <-]. unfold wellFormedResult, validated. simpl.
        split; [apply validScore_range|]. split; [apply validScore_range|].
        destruct (allowedWinner_cases _ (validWinner_allowed (jd_Winner jd)))
          as [H|[H|H]]; auto.
      * intros [= <-]. unfold wellFormedResult, unparsedResult. simpl.
        repeat split; try lia. auto.
    + intros [= <-]. unfold wellFormedResult, unparsedResult. simpl.
      repeat split; try lia. auto.
    + discriminate.
  - rewrite generateDebateResult_fallback; [intros [= <-]; exact Hfb|].
    unfold judgeInvoked in Hj. unfold judgeAnswers.
    destruct (chatgptClient env); [|reflexivity].
    destruct (supporting a); [|reflexivity].
    destruct (opposing a); [|reflexivity].
    destruct (_ && _); [discriminate|reflexivity].
Qed.

Lemma generateDebateResult_wellFormed_witness :
  ∃ a result,
    debates (worldAfter envOdd finishedOnce emptyWorld) !! "debate-u1" = Some a
    ∧ judgeInvoked envOdd a = Some (Some oddReply)
    ∧ generateDebateResult envOdd a "completed" "completed" = Val result
    ∧ Winner result = "draw"
    ∧ SupportingScore result = 50
    ∧ OpposingScore result = 30
    ∧ wellFormedResult result.
Proof.
  eexists. eexists.
  split; [vm_compute; reflexivity|]. split; [vm_compute; reflexivity|].
  match goal with
  | |- generateDebateResult ?env ?a ?st ?rs = Val ?r ∧ _ =>
      assert (H : generateDebateResult env a st rs = Val r)
        by (vm_compute; reflexivity)
  end.
  split; [exact H|]. split; [reflexivity|]. split; [reflexivity|].
  split; [reflexivity|].
  exact (generateDebateResult_wellFormed _ _ _ _ _ H).
Defined.

(** ** Extracting the judge's verdict from free text *)

Lemma Index_app_found (c : ascii) (pre rest : string) :
  Index c pre = None → Index c (pre ++ String c rest) = Some (String.length pre).
Proof.
  induction pre as [|x pre IH]; simpl.
  - intros _. now rewrite Ascii.eqb_refl.
  - destruct (Ascii.eqb x c); [discriminate|].
    destruct (Index c pre); [discriminate|]. intros _. now rewrite IH.
Qed.

Lemma LastIndex_app_found (c : ascii) (s post : string) :
  LastIndex c post = None →
  LastIndex c (s ++ String c post) = Some (String.length s).
Proof.
  intros Hpost. induction s as [|x s IH]; simpl.
  - rewrite Hpost. now rewrite Ascii.eqb_refl.
  - now rewrite IH.
Qed.

Lemma LastIndex_lt (c : ascii) (s : string) (j : nat) :
  LastIndex c s = Some j → (j < String.length s)%nat.
Proof.
  revert j. induction s as [|x s IH]; simpl; intros j; [discriminate|].
  destruct (LastIndex c s) as [i|].
  - intros [= <-]. specialize (IH i eq_refl). lia.
  - destruct (Ascii.eqb x c); [|discriminate]. intros [= <-]. lia.
Qed.

Lemma length_append (s t : string) :
  String.length (s ++ t) = (String.length s + String.length t)%nat.
Proof. induction s as [|x s IH]; simpl; [reflexivity|now rewrite IH]. Qed.

Lemma substring_skip (pre s : string) (n : nat) :
  String.substring (String.length pre) n (pre ++ s) = String.substring 0 n s.
Proof. induction pre as [|x pre IH]; simpl; [reflexivity|exact IH]. Qed.

Lemma substring_take (s t : string) :
  String.substring 0 (String.length s) (s ++ t) = s.
Proof.
  induction s as [|x s IH]; simpl.
  - destruct t; reflexivity.
  - now rewrite IH.
Qed.

Lemma append_assoc (s t u : string) : ((s ++ t) ++ u = s ++ (t ++ u))%string.
Proof.
  induction s as [|x s IH]; [reflexivity|].
  change (String x ((s ++ t) ++ u) = String x (s ++ (t ++ u))). now rewrite IH.
Qed.

(** X19.  Best-effort extraction.  When the judge's reply is some text
    without an opening brace, then an object in braces, then some text
    without a closing brace, [parseJudgeResponse] decodes exactly the
    object, braces included, whatever surrounds it; the result is the
    validated verdict if the object decodes and a parse error (which
    [JudgeDebate] turns into the neutral draw) if it does not. *)
Theorem parseJudgeResponse_extracts (env : Env) (pre body post : string) :
  Index "{" pre = None → LastIndex "}" post = None →
  parseJudgeResponse env (pre ++ "{" ++ body ++ "}" ++ post)
  = match Unmarshal env ("{" ++ body ++ "}") with
    | Some judgeData => Val (validated judgeData)
    | None => Err
    end.
Proof.
  intros Hpre Hpost.
  rewrite parseJudgeResponse_spec. unfold extractJSON.
  assert (Hi : Index "{" (pre ++ "{" ++ body ++ "}" ++ post)
               = Some (String.length pre)).
  { apply (Index_app_found "{" pre (body ++ "}" ++ post) Hpre). }
  assert (Hj : LastIndex "}" (pre ++ "{" ++ body ++ "}" ++ post)
               = Some (String.length (pre ++ "{" ++ body))).
  { replace (pre ++ "{" ++ body ++ "}" ++ post)
      with ((pre ++ "{" ++ body) ++ String "}" post).
    - now apply LastIndex_app_found.
    - rewrite !append_assoc. reflexivity. }
  rewrite Hi, Hj. unfold slice.
  match goal with
  | |- context [if ?b then _ else _] =>
      replace b with true
        by (symmetry; apply andb_true_iff; split; apply Nat.leb_le;
            rewrite !length_append; cbn [String.length]; lia)
  end.
  match goal with
  | |- context [String.substring _ ?n _] =>
      replace n with (String.length ("{" ++ body ++ "}"))
        by (rewrite !length_append; cbn [String.length]; lia)
  end.
  rewrite substring_skip.
  replace ("{" ++ body ++ "}" ++ post) with (("{" ++ body ++ "}") ++ post)
    by (rewrite !append_assoc; reflexivity).
  rewrite substring_take. reflexivity.
Qed.

Lemma parseJudgeResponse_extracts_witness :
  oddReply = "Verdict: " ++ "{" ++ oddBody ++ "}" ++ " Thanks."
  ∧ parseJudgeResponse envOdd oddReply
    = Val {| Winner := "draw"; SupportingScore := 50; OpposingScore := 30;
             Summary := SumJudge "alpha was better"; Reason := "" |}.
Proof.
  split; [vm_compute; reflexivity|].
  change oddReply with ("Verdict: " ++ "{" ++ oddBody ++ "}" ++ " Thanks.").
  rewrite (parseJudgeResponse_extracts envOdd "Verdict: " oddBody " Thanks.");
    reflexivity.
Defined.

(** X20.  When parsing the judge's reply panics.  The slice
    [response[startIdx:endIdx+1]] is out of range exactly when the reply
    has a closing brace, and its first opening brace comes more than one
    byte after its last closing brace; every other reply is parsed or
    refused without a panic. *)
Theorem parseJudgeResponse_panics_iff (env : Env) (response : string) :
  parseJudgeResponse env response = Panicked
  ↔ ∃ startIdx endIdx,
      Index "{" response = Some startIdx
      ∧ LastIndex "}" response = Some endIdx
      ∧ (endIdx + 1 < startIdx)%nat.
Proof.
  rewrite parseJudgeResponse_spec. unfold extractJSON, slice.
  destruct (Index "{" response) as [i|] eqn:Hi.
  2:{ split; [discriminate|]. intros (i & j & H & _). discriminate. }
  destruct (LastIndex "}" response) as [j|] eqn:Hj.
  2:{ split; [discriminate|]. intros (i' & j' & _ & H & _). discriminate. }
  pose proof (LastIndex_lt _ _ _ Hj) as Hlt.
  destruct (Nat.leb_spec i (j + 1)); simpl.
  - destruct (Nat.leb_spec (j + 1) (String.length response)); [|lia]. simpl.
    split.
    + destruct (Unmarshal env _); discriminate.
    + intros (i' & j' & [= <-] & [= <-] & Hlt'). lia.
  - split; [|reflexivity]. intros _. exists i, j. repeat split. lia.
Qed.

Lemma parseJudgeResponse_panics_iff_witness :
  parseJudgeResponse envProse "} no verdict {" = Panicked.
Proof.
  apply (proj2 (parseJudgeResponse_panics_iff envProse "} no verdict {")).
  exists 13%nat, 0%nat. repeat split. lia.
Defined.
(** ** Why a debate ended *)

Lemma substring_all (s : string) : String.substring 0 (String.length s) s = s.
Proof.
  induction s as [|x s IH]; simpl; [reflexivity|now rewrite IH].
Qed.

Lemma prefix_empty (s : string) : String.prefix "" s = true.
Proof. destruct s; reflexivity. Qed.

(** X21.  The description of the end reason that goes into the summary.
    The four reasons the manager itself gives are described with the
    configured number of seconds.  For a disconnect the description
    depends on how the connection was lost: after a heartbeat timeout of
    bot [b] the reason is [heartbeat_timeout_b] and the description names
    [b]; after a read error the reason is [connection_lost_b], which has
    no description of its own and is passed on as it is. *)
Theorem getReasonDescription_cases (env : Env) (botIdentifier sup opp : string) :
  getReasonDescription env "completed" sup opp = RdCompleted
  ∧ getReasonDescription env "speech_timeout" sup opp
    = RdSpeechTimeout (SpeechTimeout (config env))
  ∧ getReasonDescription env "inactivity_timeout" sup opp
    = RdInactivity (InactivityTimeout (config env))
  ∧ getReasonDescription env "max_duration_timeout" sup opp
    = RdMaxDuration (MaxDuration (config env))
  ∧ getReasonDescription env ("heartbeat_timeout" ++ "_" ++ botIdentifier) sup opp
    = RdHeartbeatTimeout botIdentifier
  ∧ getReasonDescription env ("bot_disconnected" ++ "_" ++ botIdentifier) sup opp
    = RdBotDisconnected botIdentifier
  ∧ getReasonDescription env ("connection_lost" ++ "_" ++ botIdentifier) sup opp
    = RdOther ("connection_lost" ++ "_" ++ botIdentifier).
Proof.
  repeat split; try reflexivity.
  - unfold getReasonDescription, TrimPrefix, append. simpl.
    rewrite prefix_empty, Nat.sub_0_r. now rewrite substring_all.
  - unfold getReasonDescription, TrimPrefix, append. simpl.
    rewrite prefix_empty, Nat.sub_0_r. now rewrite substring_all.
Qed.

(** X22.  A judge without a usable key.  When the judge client is
    configured with an empty API key or with the placeholder
    [your-api-key-here], no request is made and every debate is scored by
    the fallback scorer, as if no judge were configured. *)
Theorem judge_without_key_falls_back (env : Env) (client : ChatGPTClient)
    (a : ActiveDebate) (status reason : string) :
  chatgptClient env = Some client →
  APIKey client = "" ∨ APIKey client = "your-api-key-here" →
  generateDebateResult env a status reason
  = Val (fallbackResult env a status reason
           (supportingUtterances (DebateLog a)) (opposingUtterances (DebateLog a))).
Proof.
  intros Hc Hkey. apply generateDebateResult_fallback.
  unfold judgeAnswers. rewrite Hc.
  destruct (supporting a); [|reflexivity]. destruct (opposing a); [|reflexivity].
  destruct (_ && _); [|reflexivity].
  unfold SendMessage. destruct Hkey as [-> | ->]; reflexivity.
Qed.

Lemma judge_without_key_falls_back_witness :
  ∃ a,
    debates (worldAfter envPlaceholderKey finishedOnce emptyWorld) !! "debate-u1"
    = Some a
    ∧ judgeInvoked envPlaceholderKey a = Some None
    ∧ generateDebateResult envPlaceholderKey a "completed" "completed"
      = Val (fallbackResult envPlaceholderKey a "completed" "completed" 1 1)
    ∧ observe (persistedResult "debate-u1")
              (run envPlaceholderKey finishedOnce emptyWorld)
      = Some (Some ("none", 50, 50))
    ∧ judgeInvoked envOdd a = Some (Some oddReply)
    ∧ generateDebateResult envOdd a "completed" "completed"
      = Val (validated oddData).
Proof.
  eexists. split; [vm_compute; reflexivity|].
  split; [vm_compute; reflexivity|].
  split.
  - match goal with
    | |- generateDebateResult ?env ?a _ _ = _ =>
        rewrite (judge_without_key_falls_back env
                   {| APIKey := "your-api-key-here";
                      completion := λ _ _ _ _, Some oddReply |} a
                   "completed" "completed" eq_refl (or_intror eq_refl))
    end.
    reflexivity.
  - split; [vm_compute; reflexivity|].
    split; vm_compute; reflexivity.
Defined.

(** ** Accepted speeches (Scenario C) *)

Ltac fwd_speech Hl :=
  first
    [ erewrite bind_Ok by (eapply resetInactivityTimer_spec; lookup_now Hl)
    | progress unfold sendDebateUpdate
    | fwd Hl ];
  flat.

Ltac speech_bounds Hmin Hmax :=
  match goal with
  | |- context [Z.ltb ?x (MinContentLength ?c)] =>
      destruct (Z.ltb_spec x (MinContentLength c)) as [?|_]; [lia|]
  end;
  match goal with
  | |- context [Z.ltb (MaxContentLength ?c) ?x] =>
      destruct (Z.ltb_spec (MaxContentLength c) x) as [?|_]; [lia|]
  end.

(** X23.  The supporting side speaks.  For a session with both sides
    assigned and connected, a speech of the supporting bot with its key,
    in its turn and within the length bounds is accepted: one entry (the
    current round, the speaker, its side, the message as sent) is
    appended to the transcript in memory and in storage; the round and
    the status do not change; both bots are sent a [debate_update] with
    the new transcript that names the opposing bot as next speaker, and
    the observers get the supporting bot's copy; the old speech and
    inactivity timers are stopped, and a new inactivity timer and a speech
    timer for the opposing bot are armed. *)
Theorem HandleSpeech_supporting_speaks (env : Env) (w : World) (speech : DebateSpeech)
    (now : Time) (a : ActiveDebate) (sup opp : ConnectedBot) (cs co : Conn) :
  let debateID := sp_DebateID speech in
  debates w !! debateID = Some a →
  supporting a = Some sup → opposing a = Some opp →
  cb_Conn sup = Some cs → cb_Conn opp = Some co →
  sp_Speaker speech = BotIdentifier (cb_Bot sup) →
  sp_DebateKey speech = DebateKey (cb_Bot sup) →
  getNextSpeaker a = Some (sp_Speaker speech) →
  withinBounds env speech →
  let entry := logEntryOf a sup speech now in
  let supID := BotIdentifier (cb_Bot sup) in
  let oppID := BotIdentifier (cb_Bot opp) in
  let n := length (timers w) in
  ∃ w' a',
    HandleSpeech env speech now w = Ok None w'
    ∧ debates w' !! debateID = Some a'
    ∧ DebateLog a' = (DebateLog a ++ [entry])%list
    ∧ tbl_debate_log (db w') = (tbl_debate_log (db w) ++ [(debateID, entry)])%list
    ∧ LastSpeaker a' = supID
    ∧ Debate_ a' = Debate_ a
    ∧ written w'
      = (written w ++
         [ (cs, debateUpdateFrame env a' supID oppID oppID "supporting" supID);
           (co, debateUpdateFrame env a' supID oppID oppID "opposing" oppID) ])%list
    ∧ broadcast w'
      = (broadcast w ++
         [ {| bm_DebateID := ID (Debate_ a);
              bm_Message :=
                debateUpdateFrame env a' supID oppID oppID "supporting" supID |} ])%list
    ∧ timers w'
      = (stopped (InactivityTimer a) (stopped (TimeoutTimer a) (timers w))
         ++ [ pendingTimer InactivityT debateID;
              pendingTimer (SpeechT oppID) debateID ])%list
    ∧ InactivityTimer a' = Some n
    ∧ TimeoutTimer a' = Some (n + 1)%nat.
Proof.
  intros debateID Hl Hsup Hopp Hcs Hco Hspk Hkey Hnext [Hmin Hmax] entry supID oppID n.
  subst debateID entry supID oppID n.
  destruct w as [m d ts gs wr bc]. cbn [debates timers written broadcast db] in *.
  unfold HandleSpeech, getDebate, gets.
  unfold mbind at 1. unfold M_bind at 1. cbn [debates]. rewrite Hl.
  assert (Hso : speakerOf a (sp_Speaker speech) = Some sup).
  { unfold speakerOf. rewrite Hsup, Hspk, String.eqb_refl. reflexivity. }
  rewrite Hso, Hkey, String.eqb_refl, Hnext, String.eqb_refl. cbn [negb].
  speech_bounds Hmin Hmax.
  unfold logEntryOf, debateUpdateFrame, pendingTimer.
  rewrite Hspk in *.
  destruct a as [d0 bA bB sB oB dl ls wt tt it mt st lat].
  destruct sup as [bsup csup], opp as [bopp copp].
  cbn [cb_Conn cb_Bot] in *. subst csup copp.
  unfold supporting, opposing, slotBot in Hsup, Hopp.
  cbn [SupportingBot OpposingBot BotA BotB] in Hsup, Hopp.
  destruct sB as [[|]|], oB as [[|]|]; try discriminate; subst;
    try (injection Hopp as <- <-);
    (do 2 eexists; split;
     [repeat fwd_speech Hl; rewrite String.eqb_refl; repeat fwd_speech Hl; reflexivity|]);
    (split; [lookup_now Hl|]);
    flat; rewrite <- ?app_assoc, ?length_app, ?length_stopped; simpl;
    repeat split; reflexivity.
Qed.

Lemma HandleSpeech_supporting_speaks_witness :
  ∃ w' a',
    HandleSpeech envNoJudge alphaSpeaks 14 (worldAfter envNoJudge (started 2) emptyWorld)
    = Ok None w'
    ∧ debates w' !! "debate-u1" = Some a'
    ∧ length (DebateLog a') = 1%nat
    ∧ LastSpeaker a' = "alpha-aaaaaaaa".
Proof.
  edestruct (HandleSpeech_supporting_speaks envNoJudge
               (worldAfter envNoJudge (started 2) emptyWorld) alphaSpeaks 14)
    as (w' & a' & H1 & H2 & H3 & _ & H5 & _).
  - vm_compute. reflexivity.
  - vm_compute. reflexivity.
  - vm_compute. reflexivity.
  - vm_compute. reflexivity.
  - vm_compute. reflexivity.
  - vm_compute. reflexivity.
  - vm_compute. reflexivity.
  - vm_compute. reflexivity.
  - vm_compute. split; discriminate.
  - exists w', a'. split; [exact H1|]. split; [exact H2|]. rewrite H3, H5.
    split; reflexivity.
Defined.

(** X24.  The opposing side speaks and rounds remain.  In a session whose
    two bots have different identifiers, the speech of the opposing bot,
    with its key, in its turn and within the bounds, is accepted (with
    equal identifiers the speaker would be looked up as the supporting
    bot); the entry is appended in memory and in storage; the round
    counter is incremented by one in memory and in storage, and while it
    does not exceed the number of rounds the status does not change; both
    bots are sent a
    [debate_update] with the new round and the new transcript that names
    the supporting bot as next speaker; a new inactivity timer and a
    speech timer for the supporting bot are armed. *)
Theorem HandleSpeech_opposing_speaks (env : Env) (w : World) (speech : DebateSpeech)
    (now : Time) (a : ActiveDebate) (sup opp : ConnectedBot) (cs co : Conn) :
  let debateID := sp_DebateID speech in
  debates w !! debateID = Some a →
  supporting a = Some sup → opposing a = Some opp →
  cb_Conn sup = Some cs → cb_Conn opp = Some co →
  BotIdentifier (cb_Bot sup) ≠ BotIdentifier (cb_Bot opp) →
  sp_Speaker speech = BotIdentifier (cb_Bot opp) →
  sp_DebateKey speech = DebateKey (cb_Bot opp) →
  getNextSpeaker a = Some (sp_Speaker speech) →
  withinBounds env speech →
  let round := wrap64 (CurrentRound (Debate_ a) + 1) in
  round <= TotalRounds (Debate_ a) →
  let entry := logEntryOf a opp speech now in
  let supID := BotIdentifier (cb_Bot sup) in
  let oppID := BotIdentifier (cb_Bot opp) in
  let n := length (timers w) in
  ∃ w' a',
    HandleSpeech env speech now w = Ok None w'
    ∧ debates w' !! debateID = Some a'
    ∧ a' = set_TimeoutTimer (Some (n + 1)%nat) (roundComplete a entry now n round)
    ∧ db w' = Db.UpdateDebateRound (Db.AddDebateLog (db w) entry debateID)
                debateID round now
    ∧ written w'
      = (written w ++
         [ (cs, debateUpdateFrame env a' supID oppID supID "supporting" supID);
           (co, debateUpdateFrame env a' supID oppID supID "opposing" oppID) ])%list
    ∧ broadcast w'
      = (broadcast w ++
         [ {| bm_DebateID := ID (Debate_ a);
              bm_Message :=
                debateUpdateFrame env a' supID oppID supID "supporting" supID |} ])%list
    ∧ timers w'
      = (stopped (InactivityTimer a) (stopped (TimeoutTimer a) (timers w))
         ++ [ pendingTimer InactivityT debateID;
              pendingTimer (SpeechT supID) debateID ])%list.
Proof.
  intros debateID Hl Hsup Hopp Hcs Hco Hids Hspk Hkey Hnext [Hmin Hmax] round Hround
    entry supID oppID n.
  subst debateID entry supID oppID n.
  destruct w as [m d ts gs wr bc]. cbn [debates timers written broadcast db] in *.
  unfold HandleSpeech, getDebate, gets.
  unfold mbind at 1. unfold M_bind at 1. cbn [debates]. rewrite Hl.
  assert (Hne : String.eqb (BotIdentifier (cb_Bot sup)) (BotIdentifier (cb_Bot opp))
                = false) by now apply String.eqb_neq.
  assert (Hne' : String.eqb (BotIdentifier (cb_Bot opp)) (BotIdentifier (cb_Bot sup))
                 = false) by (apply String.eqb_neq; congruence).
  assert (Hso : speakerOf a (sp_Speaker speech) = Some opp).
  { unfold speakerOf. rewrite Hsup, Hopp, Hspk, Hne, String.eqb_refl. reflexivity. }
  rewrite Hso, Hkey, String.eqb_refl, Hnext, String.eqb_refl. cbn [negb].
  speech_bounds Hmin Hmax.
  unfold logEntryOf, debateUpdateFrame, pendingTimer, roundComplete.
  rewrite Hspk in *.
  destruct a as [d0 bA bB sB oB dl ls wt tt it mt st lat].
  destruct sup as [bsup csup], opp as [bopp copp].
  cbn [cb_Conn cb_Bot] in *. subst csup copp.
  unfold supporting, opposing, slotBot in Hsup, Hopp.
  cbn [SupportingBot OpposingBot BotA BotB Debate_ CurrentRound TotalRounds] in *.
  assert (Hr : (TotalRounds d0 <? round) = false) by (apply Z.ltb_ge; exact Hround).
  subst round.
  destruct sB as [[|]|], oB as [[|]|]; try discriminate; subst;
    try (injection Hopp as E1 E2; congruence);
    (do 2 eexists; split;
     [repeat fwd_speech Hl; rewrite Hne'; repeat fwd_speech Hl; rewrite Hr;
      repeat fwd_speech Hl; reflexivity|]);
    (split; [lookup_now Hl|]);
    flat; rewrite <- ?app_assoc, ?length_app, ?length_stopped; simpl;
    rewrite ?Nat.add_1_r; repeat split; reflexivity.
Qed.

Lemma HandleSpeech_opposing_speaks_witness :
  ∃ w' a',
    HandleSpeech envNoJudge betaSpeaks 15
      (worldAfter envNoJudge (started 2 ++ [EvSpeech alphaSpeaks 14]) emptyWorld)
    = Ok None w'
    ∧ debates w' !! "debate-u1" = Some a'
    ∧ CurrentRound (Debate_ a') = 2
    ∧ length (written w') = 6%nat.
Proof.
  edestruct (HandleSpeech_opposing_speaks envNoJudge
               (worldAfter envNoJudge (started 2 ++ [EvSpeech alphaSpeaks 14]) emptyWorld)
               betaSpeaks 15)
    as (w' & a' & H1 & H2 & H3 & _ & H5 & _).
  - vm_compute. reflexivity.
  - vm_compute. reflexivity.
  - vm_compute. reflexivity.
  - vm_compute. reflexivity.
  - vm_compute. reflexivity.
  - vm_compute. discriminate.
  - vm_compute. reflexivity.
  - vm_compute. reflexivity.
  - vm_compute. reflexivity.
  - vm_compute. split; discriminate.
  - vm_compute. discriminate.
  - exists w', a'. split; [exact H1|]. split; [exact H2|]. rewrite H5, H3.
    split; vm_compute; reflexivity.
Defined.

(** X25.  The last speech of a debate.  When the opposing side's accepted
    speech takes the round counter beyond the number of rounds, the
    session as it then stands (entry appended, round incremented) is ended
    with status completed and reason completed: given that the result is
    synthesized, both bots and the observers are sent [debate_end] with
    the full transcript, including this last speech, and the result; no
    [debate_update] is sent; no speech timer is armed, and none of the
    session's timer handles names a pending timer any more. *)
Theorem HandleSpeech_completes (env : Env) (w : World) (speech : DebateSpeech)
    (now : Time) (a : ActiveDebate) (sup opp : ConnectedBot) (cs co : Conn)
    (result : DebateResult) :
  let debateID := sp_DebateID speech in
  debates w !! debateID = Some a →
  supporting a = Some sup → opposing a = Some opp →
  cb_Conn sup = Some cs → cb_Conn opp = Some co →
  BotIdentifier (cb_Bot sup) ≠ BotIdentifier (cb_Bot opp) →
  sp_Speaker speech = BotIdentifier (cb_Bot opp) →
  sp_DebateKey speech = DebateKey (cb_Bot opp) →
  getNextSpeaker a = Some (sp_Speaker speech) →
  withinBounds env speech →
  let round := wrap64 (CurrentRound (Debate_ a) + 1) in
  TotalRounds (Debate_ a) < round →
  let entry := logEntryOf a opp speech now in
  let ended :=
    set_Status "completed" (roundComplete a entry now (length (timers w)) round) in
  generateDebateResult env ended "completed" "completed" = Val result →
  let endMsg := debateEndFrame debateID ended "completed" result in
  ∃ w',
    HandleSpeech env speech now w = Ok None w'
    ∧ debates w' !! debateID = Some ended
    ∧ DbRead.GetDebateLog (db w') debateID
      = (DbRead.GetDebateLog (db w) debateID ++ [entry])%list
    ∧ written w' = (written w ++ [ (cs, endMsg); (co, endMsg) ])%list
    ∧ broadcast w'
      = (broadcast w ++ [ {| bm_DebateID := debateID; bm_Message := endMsg |} ])%list
    ∧ length (timers w') = S (length (timers w))
    ∧ notPending (timers w') (TimeoutTimer ended)
    ∧ notPending (timers w') (InactivityTimer ended)
    ∧ notPending (timers w') (MaxDurationTimer ended).
Proof.
  intros debateID Hl Hsup Hopp Hcs Hco Hids Hspk Hkey Hnext [Hmin Hmax] round Hround
    entry ended Hg endMsg.
  assert (Hne : String.eqb (BotIdentifier (cb_Bot sup)) (BotIdentifier (cb_Bot opp))
                = false) by now apply String.eqb_neq.
  assert (Hne' : String.eqb (BotIdentifier (cb_Bot opp)) (BotIdentifier (cb_Bot sup))
                 = false) by (apply String.eqb_neq; congruence).
  assert (Hso : speakerOf a (sp_Speaker speech) = Some opp).
  { unfold speakerOf. rewrite Hsup, Hopp, Hspk, Hne, String.eqb_refl. reflexivity. }
  assert (Hr : (TotalRounds (Debate_ a) <? round) = true) by (apply Z.ltb_lt; exact Hround).
  (* the state before the terminal transition *)
  set (before := roundComplete a entry now (length (timers w)) round) in *.
  set (w2 := set_db (Db.UpdateDebateRound (Db.AddDebateLog (db w) entry debateID)
                       debateID round now)
               (set_debates
                  (alter (λ a, roundComplete a entry now (length (timers w)) round)
                         debateID (debates w))
                  (set_timers
                     (stopped (InactivityTimer a) (stopped (TimeoutTimer a) (timers w))
                      ++ [pendingTimer InactivityT debateID]) w))).
  assert (Hl2 : debates w2 !! debateID = Some before).
  { subst w2. cbn [debates set_db set_debates]. now rewrite lookup_alter_eq, Hl. }
  destruct (endDebate_effect env w2 debateID "completed" "completed" now before result
              Hl2 Hg) as (w' & Hend & Hdeb & Hdb & Hwr & Hbc & T1 & T2 & T3 & T4 & T5 & _).
  exists w'.
  assert (Hsup' : supporting before = Some sup) by exact Hsup.
  assert (Hopp' : opposing before = Some opp) by exact Hopp.
  split.
  { transitivity ((endDebate env debateID "completed" "completed" now ;;
                   mret (@None ErrorMessage)) w2);
      [|rewrite (bind_Ok _ _ _ _ _ Hend); reflexivity].
    clear Hend Hdeb Hdb Hwr Hbc T1 T2 T3 T4 T5 Hl2 Hsup' Hopp' Hg.
    subst w2 before ended endMsg entry debateID.
    destruct w as [m d ts gs wr bc]. cbn [debates timers written broadcast db] in *.
    unfold HandleSpeech, getDebate, gets.
    unfold mbind at 1. unfold M_bind at 1. cbn [debates]. rewrite Hl.
    rewrite Hso, Hkey, String.eqb_refl, Hnext, String.eqb_refl. cbn [negb].
    speech_bounds Hmin Hmax.
    unfold logEntryOf, pendingTimer, roundComplete.
    rewrite Hspk in *.
    destruct a as [d0 bA bB sB oB dl ls wt tt it mt st lat].
    destruct sup as [bsup csup], opp as [bopp copp].
    cbn [cb_Conn cb_Bot] in *. subst csup copp.
    unfold supporting, opposing, slotBot in Hsup, Hopp.
    cbn [SupportingBot OpposingBot BotA BotB Debate_ CurrentRound TotalRounds] in *.
    subst round.
    destruct sB as [[|]|], oB as [[|]|]; try discriminate; subst;
      try (injection Hopp as E1 E2; congruence);
      repeat fwd_speech Hl; rewrite Hne'; repeat fwd_speech Hl; rewrite Hr;
      rewrite !length_stopped, !alter_alter_eq; reflexivity. }
  assert (Hended : debates w' !! debateID = Some ended).
  { rewrite Hdeb, lookup_alter_eq, Hl2. reflexivity. }
  split; [exact Hended|].
  split.
  { rewrite Hdb. unfold DbRead.GetDebateLog.
    assert (Hlog : ∀ d0, tbl_debate_log (default d0 (Db.SaveDebateResult d0 debateID result))
                         = tbl_debate_log d0).
    { intros d0. unfold Db.SaveDebateResult. destruct (existsb _ _); reflexivity. }
    rewrite Hlog. subst w2. cbn [db set_db]. simpl.
    rewrite List.filter_app, map_app. simpl. now rewrite String.eqb_refl. }
  rewrite Hsup', Hopp' in Hwr.
  destruct sup as [bsup csup], opp as [bopp copp]. simpl in Hcs, Hco. subst csup copp.
  split; [exact Hwr|]. split; [exact Hbc|].
  split.
  { rewrite T5. subst w2. cbn [timers set_db set_debates set_timers].
    rewrite length_app, !length_stopped. simpl. lia. }
  split; [exact T2|]. split; [exact T3|exact T4].
Qed.

Lemma HandleSpeech_completes_witness :
  ∃ w',
    HandleSpeech envNoJudge betaSpeaks 15
      (worldAfter envNoJudge (started 1 ++ [EvSpeech alphaSpeaks 14]) emptyWorld)
    = Ok None w'
    ∧ statusOf "debate-u1" w' = Some "completed"
    ∧ length (DbRead.GetDebateLog (db w') "debate-u1") = 2%nat.
Proof.
  edestruct (HandleSpeech_completes envNoJudge
               (worldAfter envNoJudge (started 1 ++ [EvSpeech alphaSpeaks 14]) emptyWorld)
               betaSpeaks 15)
    as (w' & H1 & H2 & H3 & _).
  - vm_compute. reflexivity.
  - vm_compute. reflexivity.
  - vm_compute. reflexivity.
  - vm_compute. reflexivity.
  - vm_compute. reflexivity.
  - vm_compute. discriminate.
  - vm_compute. reflexivity.
  - vm_compute. reflexivity.
  - vm_compute. reflexivity.
  - vm_compute. split; discriminate.
  - vm_compute. reflexivity.
  - vm_compute. reflexivity.
  - exists w'. split; [exact H1|].
    change (sp_DebateID betaSpeaks) with "debate-u1" in H2, H3. split.
    + unfold statusOf, session. rewrite H2. reflexivity.
    + rewrite H3. vm_compute. reflexivity.
Defined.
(** ** Rejected speeches *)

Ltac inv_bind H :=
  let x := fresh "x" in
  let w1 := fresh "w1" in
  let H1 := fresh "H1" in
  apply bind_inv in H; destruct H as (x & w1 & H1 & H).

(** X26.  A rejected speech is private.  Whenever [HandleSpeech] answers
    with an error, nothing is sent to anyone by the manager (the error
    goes back to the caller only), nothing is stored, no goroutine is
    spawned, and the error names the debate of the speech.  The error is
    [DEBATE_NOT_FOUND] or [INVALID_DEBATE_KEY] (not recoverable) or
    [NOT_YOUR_TURN] (recoverable), with the state unchanged, or one of the
    two length errors (recoverable), with nothing changed but the activity
    time and the timers of the session. *)
Theorem rejected_speech_is_private (env : Env) (w w' : World) (speech : DebateSpeech)
    (now : Time) (e : ErrorMessage) :
  HandleSpeech env speech now w = Ok (Some e) w' →
  written w' = written w ∧ broadcast w' = broadcast w ∧ db w' = db w
  ∧ goroutines w' = goroutines w
  ∧ em_DebateID e = sp_DebateID speech
  ∧ (w' = w ∧ Recoverable e = false
       ∧ (ErrorCode e = "DEBATE_NOT_FOUND" ∨ ErrorCode e = "INVALID_DEBATE_KEY")
     ∨ w' = w ∧ Recoverable e = true ∧ ErrorCode e = "NOT_YOUR_TURN"
     ∨ (∃ a, debates w !! sp_DebateID speech = Some a
             ∧ w' = touched (sp_DebateID speech) now a w)
       ∧ Recoverable e = true
       ∧ (ErrorCode e = "CONTENT_TOO_SHORT" ∨ ErrorCode e = "CONTENT_TOO_LONG")).
Proof.
  unfold HandleSpeech, getDebate, gets.
  unfold mbind at 1. unfold M_bind at 1.
  destruct (debates w !! sp_DebateID speech) as [a|] eqn:Hl.
  2:{ intros [= <- <-]. repeat split. left. repeat split. now left. }
  destruct (speakerOf a (sp_Speaker speech)) as [bot|].
  2:{ intros [= <- <-]. repeat split. left. repeat split. now right. }
  destruct (negb (String.eqb (DebateKey (cb_Bot bot)) (sp_DebateKey speech))).
  { intros [= <- <-]. repeat split. left. repeat split. now right. }
  destruct (getNextSpeaker a) as [expected|]; [|discriminate].
  destruct (negb (String.eqb (sp_Speaker speech) expected)).
  { intros [= <- <-]. repeat split. right. left. repeat split. }
  rewrite (bind_Ok _ _ _ _ _ (Stop_spec _ _)).
  rewrite (bind_Ok _ _ _ _ _ (assign_spec _ _ _)).
  erewrite bind_Ok.
  2:{ apply resetInactivityTimer_spec. simpl. rewrite lookup_alter_eq, Hl. reflexivity. }
  assert (Htouched : ∀ code msg,
            Ok (Some (errorMessage code msg (sp_DebateID speech) true))
               (touched (sp_DebateID speech) now a w) = Ok (Some e) w' →
            code = "CONTENT_TOO_SHORT" ∨ code = "CONTENT_TOO_LONG" →
            written w' = written w ∧ broadcast w' = broadcast w ∧ db w' = db w
            ∧ goroutines w' = goroutines w
            ∧ em_DebateID e = sp_DebateID speech
            ∧ (w' = w ∧ Recoverable e = false
                 ∧ (ErrorCode e = "DEBATE_NOT_FOUND" ∨ ErrorCode e = "INVALID_DEBATE_KEY")
               ∨ w' = w ∧ Recoverable e = true ∧ ErrorCode e = "NOT_YOUR_TURN"
               ∨ (∃ a0, Some a = Some a0
                        ∧ w' = touched (sp_DebateID speech) now a0 w)
                 ∧ Recoverable e = true
                 ∧ (ErrorCode e = "CONTENT_TOO_SHORT"
                    ∨ ErrorCode e = "CONTENT_TOO_LONG"))).
  { intros code msg [= <- <-] Hcode. repeat split. right. right.
    split; [exists a; split; reflexivity|]. split; [reflexivity|exact Hcode]. }
  destruct (_ <? MinContentLength (config env)).
  { intros H. eapply Htouched; [exact H|now left]. }
  destruct (MaxContentLength (config env) <? _).
  { intros H. eapply Htouched; [exact H|now right]. }
  clear Htouched. intros H. exfalso.
  inv_bind H. inv_bind H. inv_bind H. inv_bind H.
  destruct (supporting x2) as [sup|]; [|discriminate].
  destruct (String.eqb (sp_Speaker speech) (BotIdentifier (cb_Bot sup))).
  - destruct (opposing x2) as [opp|]; [|discriminate].
    inv_bind H. inv_bind H. discriminate.
  - inv_bind H. inv_bind H.
    destruct (TotalRounds (Debate_ x2) <? _).
    + inv_bind H. discriminate.
    + inv_bind H. inv_bind H. discriminate.
Qed.

Lemma rejected_speech_is_private_witness :
  written (worldAfter envNoJudge (started 1 ++ [EvSpeech betaSpeaks 14]) emptyWorld)
  = written (worldAfter envNoJudge (started 1) emptyWorld).
Proof.
  destruct (HandleSpeech envNoJudge betaSpeaks 14
              (worldAfter envNoJudge (started 1) emptyWorld)) as [[e|] w'|] eqn:E;
    [|vm_compute in E; discriminate..].
  replace (worldAfter envNoJudge (started 1 ++ [EvSpeech betaSpeaks 14]) emptyWorld)
    with w'.
  - exact (proj1 (rejected_speech_is_private envNoJudge _ w' betaSpeaks 14 e E)).
  - vm_compute in E. injection E as _ <-. vm_compute. reflexivity.
Defined.
(** ** The liveness monitor *)

Lemma botEvent_heartbeat (env : Env) (s s' : BotSession) (ev : BotEvent)
    (w w' : World) (replies : list Reply) :
  botEvent env s ev w = Ok (s', replies) w' →
  heartbeat s' = true →
  heartbeat s = true
  ∧ bs_DebateID s' = bs_DebateID s ∧ bs_BotIdentifier s' = bs_BotIdentifier s
  ∧ reading s' = reading s
  ∧ (reading s = true → 0 <= missedPings s <= 3 →
     missedPings s' = unansweredFrom (missedPings s) [ev]
     ∧ 0 <= missedPings s' <= 3).
Proof.
  destruct ev as [pingWritten now|frame now|now]; simpl.
  - destruct (heartbeat s) eqn:Hh.
    + destruct (Z.leb_spec 3 (missedPings s)) as [Hge|Hlt].
      * intros H. apply bind_inv in H. destruct H as (x & w1 & _ & H).
        injection H as <- _ _. discriminate.
      * destruct pingWritten; intros [= <- _ _]; [|discriminate].
        intros _. repeat split; simpl; intros; unfold wrap64;
          rewrite ?Z.mod_small; lia.
    + intros [= <- _ _] Hh'. exfalso. congruence.
  - destruct (reading s) eqn:Hr.
    + destruct frame as [l|speech| |t].
      * intros [= <- _ _] Hh. repeat split; simpl; auto; lia.
      * intros H. apply bind_inv in H. destruct H as (x & w1 & _ & H).
        injection H as <- _ _. intros Hh. repeat split; simpl; auto; lia.
      * intros [= <- _ _] Hh. repeat split; simpl; auto; lia.
      * intros [= <- _ _] Hh. repeat split; simpl; auto; lia.
    + intros [= <- _ _] Hh. repeat split; auto; intros; discriminate.
  - destruct (reading s) eqn:Hr.
    + intros H. apply bind_inv in H. destruct H as (x & w1 & _ & H).
      injection H as <- _ _. discriminate.
    + intros [= <- _ _] Hh. repeat split; auto; intros; discriminate.
Qed.

Lemma serveBot_inv (env : Env) (s s' : BotSession) (ev : BotEvent)
    (evs : list BotEvent) (w w' : World) (replies : list Reply) :
  serveBot env s (ev :: evs) w = Ok (s', replies) w' →
  ∃ s1 replies1 w1 replies2,
    botEvent env s ev w = Ok (s1, replies1) w1
    ∧ serveBot env s1 evs w1 = Ok (s', replies2) w'.
Proof.
  simpl. intros H. apply bind_inv in H. destruct H as ([s1 r1] & w1 & H1 & H).
  apply bind_inv in H. destruct H as ([s2 r2] & w2 & H2 & H).
  injection H as <- _ <-. eauto 6.
Qed.

Lemma serveBot_heartbeat (env : Env) (evs : list BotEvent) (s s' : BotSession)
    (w w' : World) (replies : list Reply) :
  serveBot env s evs w = Ok (s', replies) w' →
  heartbeat s' = true →
  heartbeat s = true
  ∧ bs_DebateID s' = bs_DebateID s ∧ bs_BotIdentifier s' = bs_BotIdentifier s
  ∧ reading s' = reading s
  ∧ (reading s = true → 0 <= missedPings s <= 3 →
     missedPings s' = unansweredFrom (missedPings s) evs
     ∧ 0 <= missedPings s' <= 3).
Proof.
  revert s w replies. induction evs as [|ev evs IH]; intros s w replies.
  - intros [= <- _ _] Hh. repeat split; auto; intros; simpl; lia.
  - intros H Hh. apply serveBot_inv in H.
    destruct H as (s1 & r1 & w1 & r2 & H1 & H2).
    destruct (IH _ _ _ H2 Hh) as (Hh1 & Hd & Hb & Hr & Hm).
    destruct (botEvent_heartbeat _ _ _ _ _ _ _ H1 Hh1) as (Hh0 & Hd0 & Hb0 & Hr0 & Hm0).
    split; [exact Hh0|]. split; [congruence|]. split; [congruence|].
    split; [congruence|]. intros Hrd Hbound.
    destruct (Hm0 Hrd Hbound) as [E1 B1].
    destruct (Hm (eq_trans Hr0 Hrd) B1) as [E2 B2].
    split; [|exact B2]. rewrite E2, E1. reflexivity.
Qed.

(** X27.  The liveness monitor counts unanswered pings.  For a bot
    connection served from its login, as long as the heartbeat goroutine
    runs, [missedPings] is the number of pings written since the last
    pong was read, and it never exceeds 3.  At the next tick the bot is
    disconnected with reason [heartbeat_timeout], for the debate and
    identifier of its login, exactly when that number is 3; otherwise a
    ping is written and counted, or, if the ping cannot be written, the
    goroutine stops without any disconnect. *)
Theorem heartbeat_counts_unanswered_pings (env : Env) (debateID botIdentifier : string)
    (evs : list BotEvent) (w w' : World) (s' : BotSession) (replies : list Reply) :
  serveBot env (freshSession debateID botIdentifier) evs w = Ok (s', replies) w' →
  heartbeat s' = true →
  missedPings s' = unanswered evs
  ∧ 0 <= unanswered evs <= 3
  ∧ ∀ pingWritten now,
      botEvent env s' (Tick pingWritten now) w'
      = if unanswered evs =? 3
        then (HandleBotDisconnect env debateID botIdentifier "heartbeat_timeout" now;;
              mret (stop_heartbeat s', [])) w'
        else if pingWritten
             then Ok (set_missedPings (unanswered evs + 1) s', [ReplyPing]) w'
             else Ok (stop_heartbeat s', []) w'.
Proof.
  intros H Hh.
  destruct (serveBot_heartbeat _ _ _ _ _ _ _ H Hh) as (_ & Hd & Hb & _ & Hm).
  destruct (Hm eq_refl) as [E B]; [simpl; lia|].
  simpl in Hd, Hb, E. fold (unanswered evs) in E.
  split; [exact E|]. split; [rewrite <- E; exact B|].
  intros pingWritten now. simpl. rewrite Hh, Hd, Hb, E.
  destruct (Z.leb_spec 3 (unanswered evs)), (Z.eqb_spec (unanswered evs) 3);
    try lia; try reflexivity.
  unfold wrap64. rewrite Z.mod_small by lia.
  replace (unanswered evs + 1 + 2 ^ 63 - 2 ^ 63) with (unanswered evs + 1) by lia.
  destruct pingWritten; reflexivity.
Qed.

Lemma heartbeat_counts_unanswered_pings_witness :
  ∃ s' replies w',
    serveBot envNoJudge (freshSession "debate-u1" "alpha-aaaaaaaa")
      [Tick true 30; Tick true 60; Receive FramePong 61;
       Tick true 90; Tick true 120; Tick true 150]
      (worldAfter envNoJudge (started 1) emptyWorld) = Ok (s', replies) w'
    ∧ missedPings s' = 3
    ∧ botEvent envNoJudge s' (Tick true 180) w'
      = (HandleBotDisconnect envNoJudge "debate-u1" "alpha-aaaaaaaa"
           "heartbeat_timeout" 180;; mret (stop_heartbeat s', [])) w'.
Proof.
  destruct (serveBot envNoJudge (freshSession "debate-u1" "alpha-aaaaaaaa")
      [Tick true 30; Tick true 60; Receive FramePong 61;
       Tick true 90; Tick true 120; Tick true 150]
      (worldAfter envNoJudge (started 1) emptyWorld)) as [[s' replies] w'|] eqn:E;
    [|vm_compute in E; discriminate].
  exists s', replies, w'. split; [reflexivity|].
  assert (Hh : heartbeat s' = true).
  { vm_compute in E. injection E as <- _ _. reflexivity. }
  destruct (heartbeat_counts_unanswered_pings envNoJudge _ _ _ _ _ _ _ E Hh)
    as (H1 & _ & H3).
  split; [exact H1|]. exact (H3 true 180).
Defined.
(** ** The observers' snapshot *)

Lemma pickSides_from (bots : list Bot) (s o : option Bot) :
  let r := fold_left (λ '(supportingBot, opposingBot) bot,
               if String.eqb (Side bot) "supporting" then (Some bot, opposingBot)
               else if String.eqb (Side bot) "opposing" then (supportingBot, Some bot)
               else (supportingBot, opposingBot))
            bots (s, o) in
  (fst r = None ↔ s = None ∧ ∀ b, In b bots → Side b ≠ "supporting")
  ∧ (snd r = None ↔ o = None ∧ ∀ b, In b bots → Side b ≠ "opposing").
Proof.
  revert s o. induction bots as [|b bots IH]; intros s o; simpl.
  - split; (split; [intros H; split; [exact H|intros b []]|intros [H _]; exact H]).
  - destruct (String.eqb_spec (Side b) "supporting") as [Es|Es].
    + destruct (IH (Some b) o) as [IH1 IH2]. split.
      * split; [intros H; apply IH1 in H; destruct H; discriminate|].
        intros [_ H]. exfalso. apply (H b); [now left|exact Es].
      * rewrite IH2. split; intros [Ho H]; (split; [exact Ho|]).
        -- intros b' [<-|Hin]; [rewrite Es; discriminate|now apply H].
        -- intros b' Hin. apply H. now right.
    + destruct (String.eqb_spec (Side b) "opposing") as [Eo|Eo].
      * destruct (IH s (Some b)) as [IH1 IH2]. split.
        -- rewrite IH1. split; intros [Hs H]; (split; [exact Hs|]).
           ++ intros b' [<-|Hin]; [exact Es|now apply H].
           ++ intros b' Hin. apply H. now right.
        -- split; [intros H; apply IH2 in H; destruct H; discriminate|].
           intros [_ H]. exfalso. apply (H b); [now left|exact Eo].
      * destruct (IH s o) as [IH1 IH2]. split.
        -- rewrite IH1. split; intros [Hs H]; (split; [exact Hs|]).
           ++ intros b' [<-|Hin]; [exact Es|now apply H].
           ++ intros b' Hin. apply H. now right.
        -- rewrite IH2. split; intros [Ho H]; (split; [exact Ho|]).
           ++ intros b' [<-|Hin]; [exact Eo|now apply H].
           ++ intros b' Hin. apply H. now right.
Qed.

Lemma pickSides_None (bots : list Bot) :
  (fst (pickSides bots) = None ↔ ∀ b, In b bots → Side b ≠ "supporting")
  ∧ (snd (pickSides bots) = None ↔ ∀ b, In b bots → Side b ≠ "opposing").
Proof.
  destruct (pickSides_from bots None None) as [H1 H2]. unfold pickSides.
  split; [rewrite H1|rewrite H2]; tauto.
Qed.

Lemma pickSides_from_Some (bots : list Bot) (s0 o0 : option Bot) :
  let r := fold_left (λ '(supportingBot, opposingBot) bot,
               if String.eqb (Side bot) "supporting" then (Some bot, opposingBot)
               else if String.eqb (Side bot) "opposing" then (supportingBot, Some bot)
               else (supportingBot, opposingBot))
            bots (s0, o0) in
  (∀ s, fst r = Some s → s0 = Some s ∨ (In s bots ∧ Side s = "supporting"))
  ∧ (∀ o, snd r = Some o → o0 = Some o ∨ (In o bots ∧ Side o = "opposing")).
Proof.
  revert s0 o0. induction bots as [|b bots IH]; intros s0 o0; simpl.
  - split; intros x H; now left.
  - destruct (String.eqb_spec (Side b) "supporting") as [Es|Es];
      [|destruct (String.eqb_spec (Side b) "opposing") as [Eo|Eo]].
    + destruct (IH (Some b) o0) as [IH1 IH2]. split.
      * intros s H. destruct (IH1 s H) as [[= <-]|[Hin Hs]];
          [right; split; [now left|exact Es]|right; split; [now right|exact Hs]].
      * intros o H. destruct (IH2 o H) as [Ho|[Hin Ho]];
          [now left|right; split; [now right|exact Ho]].
    + destruct (IH s0 (Some b)) as [IH1 IH2]. split.
      * intros s H. destruct (IH1 s H) as [Hs|[Hin Hs]];
          [now left|right; split; [now right|exact Hs]].
      * intros o H. destruct (IH2 o H) as [[= <-]|[Hin Ho]];
          [right; split; [now left|exact Eo]|right; split; [now right|exact Ho]].
    + destruct (IH s0 o0) as [IH1 IH2]. split.
      * intros s H. destruct (IH1 s H) as [Hs|[Hin Hs]];
          [now left|right; split; [now right|exact Hs]].
      * intros o H. destruct (IH2 o H) as [Ho|[Hin Ho]];
          [now left|right; split; [now right|exact Ho]].
Qed.

Lemma pickSides_Some (bots : list Bot) (s o : Bot) :
  pickSides bots = (Some s, Some o) →
  In s bots ∧ Side s = "supporting" ∧ In o bots ∧ Side o = "opposing".
Proof.
  intros H. destruct (pickSides_from_Some bots None None) as [H1 H2].
  fold (pickSides bots) in H1, H2. rewrite H in H1, H2. simpl in H1, H2.
  destruct (H1 s eq_refl) as [[=]|[Hs1 Hs2]].
  destruct (H2 o eq_refl) as [[=]|[Ho1 Ho2]].
  auto.
Qed.

(** X28.  The snapshot sent to an observer that subscribes.  It is built
    from storage alone and changes nothing but the subscriber's
    connection, on which it writes one frame or none.  For a debate that
    is not stored nothing is sent.  For a stored debate the frame depends
    on the stored status: waiting gives [debate_waiting] with the topic,
    the number of rounds and the identifiers of the stored bots, in the
    order [GetBots] returns them; active gives [debate_update] with the
    stored round, the stored transcript, the configured length bounds and
    the identifiers of a stored bot of side supporting and of one of side
    opposing, and nothing if there is no such pair; completed and timeout
    give [debate_end] with the stored status, transcript and result and
    the two identifiers, and nothing if no result is stored (a debate
    whose join wait timed out); any other status gives nothing.  The call
    panics, on a nil side, exactly when the stored debate is completed or
    timed out, has a stored result, and the stored bots do not include one
    of side supporting and one of side opposing. *)
Theorem sendCurrentDebateState_snapshot (env : Env) (conn : Conn) (debateID : string)
    (w : World) :
  let bots := DbRead.GetBots (db w) debateID in
  let debateLog := DbRead.GetDebateLog (db w) debateID in
  let ended debate :=
    Status debate = "completed" ∨ Status debate = "timeout" in
  let sent msg := Ok () (set_written (written w ++ [(conn, msg)])%list w) in
  (Db.GetDebate (db w) debateID = None →
   sendCurrentDebateState env conn debateID w = Ok () w)
  ∧ (∀ debate, Db.GetDebate (db w) debateID = Some debate →
       (Status debate = "waiting" →
        sendCurrentDebateState env conn debateID w
        = sent (createMessage "debate_waiting" (DataDebateWaiting
                  {| dw_DebateID := debateID;
                     dw_Topic := Topic debate;
                     dw_TotalRounds := TotalRounds debate;
                     dw_Status := "waiting";
                     dw_JoinedBots := map BotIdentifier bots |})))
       ∧ (Status debate = "active" →
          (∀ s o, pickSides bots = (Some s, Some o) →
             In s bots ∧ Side s = "supporting" ∧ In o bots ∧ Side o = "opposing"
             ∧ sendCurrentDebateState env conn debateID w
               = sent (createMessage "debate_update" (DataDebateUpdate
                         {| du_DebateID := debateID;
                            du_Topic := Topic debate;
                            du_SupportingSide := BotIdentifier s;
                            du_OpposingSide := BotIdentifier o;
                            du_TotalRounds := TotalRounds debate;
                            du_CurrentRound := CurrentRound debate;
                            du_YourSide := "";
                            du_YourIdentifier := "";
                            du_NextSpeaker := "";
                            du_TimeoutSeconds := 0;
                            du_MinContentLength := MinContentLength (config env);
                            du_MaxContentLength := MaxContentLength (config env);
                            du_DebateLog := debateLog |})))
          ∧ ((∀ b, In b bots → Side b ≠ "supporting")
             ∨ (∀ b, In b bots → Side b ≠ "opposing") →
             sendCurrentDebateState env conn debateID w = Ok () w))
       ∧ (ended debate →
          (DbRead.GetDebateResult (db w) debateID = None →
           sendCurrentDebateState env conn debateID w = Ok () w)
          ∧ (∀ result s o,
               DbRead.GetDebateResult (db w) debateID = Some result →
               pickSides bots = (Some s, Some o) →
               In s bots ∧ Side s = "supporting" ∧ In o bots ∧ Side o = "opposing"
               ∧ sendCurrentDebateState env conn debateID w
                 = sent (createMessage "debate_end" (DataDebateEnd
                           {| de_DebateID := debateID;
                              de_Topic := Topic debate;
                              de_SupportingSide := BotIdentifier s;
                              de_OpposingSide := BotIdentifier o;
                              de_TotalRounds := TotalRounds debate;
                              de_Status := Status debate;
                              de_DebateLog := debateLog;
                              de_DebateResult := result |}))))
       ∧ (¬ ended debate → Status debate ≠ "active" → Status debate ≠ "waiting" →
          sendCurrentDebateState env conn debateID w = Ok () w))
  ∧ (sendCurrentDebateState env conn debateID w = Panic
     ↔ ∃ debate,
         Db.GetDebate (db w) debateID = Some debate
         ∧ ended debate
         ∧ is_Some (Db.GetDebateResult (db w) debateID)
         ∧ ((∀ b, In b bots → Side b ≠ "supporting")
            ∨ (∀ b, In b bots → Side b ≠ "opposing"))).
Proof.
  intros bots debateLog ended sent. subst bots debateLog sent.
  destruct (pickSides_None (DbRead.GetBots (db w) debateID)) as [Hs Ho].
  pose proof (pickSides_Some (DbRead.GetBots (db w) debateID)) as Hpick.
  unfold sendCurrentDebateState, gets, mbind, M_bind, WriteJSON, modify.
  unfold DbRead.GetDebateResult.
  destruct (Db.GetDebate (db w) debateID) as [debate|] eqn:Hd.
  2:{ split; [reflexivity|]. split; [intros debate [=]|].
      split; [discriminate|]. intros (debate & [=] & _). }
  split; [discriminate|].
  destruct (pickSides (DbRead.GetBots (db w) debateID)) as [s o]. simpl in Hs, Ho.
  assert (Hended : (String.eqb (Status debate) "completed"
                    || String.eqb (Status debate) "timeout") = true ↔ ended debate).
  { subst ended. cbv beta. rewrite orb_true_iff, !String.eqb_eq. tauto. }
  assert (Hnone : (∀ b, In b (DbRead.GetBots (db w) debateID) → Side b ≠ "supporting")
                  ∨ (∀ b, In b (DbRead.GetBots (db w) debateID) → Side b ≠ "opposing")
                  ↔ s = None ∨ o = None) by tauto.
  split.
  - intros d' [= <-].
    destruct (String.eqb (Status debate) "completed"
              || String.eqb (Status debate) "timeout") eqn:He.
    + assert (He' : ended debate) by now apply Hended.
      assert (Hw : Status debate ≠ "waiting")
        by (destruct He' as [E|E]; rewrite E; discriminate).
      assert (Ha : Status debate ≠ "active")
        by (destruct He' as [E|E]; rewrite E; discriminate).
      split; [intros E; contradiction|]. split; [intros E; contradiction|].
      split; [|intros E; contradiction].
      intros _. destruct (Db.GetDebateResult (db w) debateID) as [row|].
      * split; [discriminate|]. intros result s' o' [= <-] [= -> ->].
        destruct (Hpick s' o' eq_refl) as (P1 & P2 & P3 & P4).
        repeat split; assumption.
      * split; [reflexivity|]. intros result s' o' [=].
    + assert (He' : ¬ ended debate) by (intros H; apply Hended in H; discriminate).
      split; [|split; [|split; [intros E; contradiction|]]].
      * intros Hw. rewrite Hw. simpl.
        destruct s as [s|], o as [o|]; reflexivity.
      * intros Ha. rewrite Ha. simpl. split.
        -- intros s' o' [= -> ->].
           destruct (Hpick s' o' eq_refl) as (P1 & P2 & P3 & P4).
           repeat split; assumption.
        -- intros Hn. apply Hnone in Hn.
           destruct Hn as [-> | ->]; [|destruct s]; reflexivity.
      * intros _ Ha Hw.
        apply String.eqb_neq in Ha. apply String.eqb_neq in Hw. rewrite Ha, Hw.
        destruct s, o; reflexivity.
  - destruct (String.eqb (Status debate) "completed"
              || String.eqb (Status debate) "timeout") eqn:He.
    + destruct (Db.GetDebateResult (db w) debateID) as [row|] eqn:Hr.
      * destruct s as [s|], o as [o|]; simpl.
        -- split; [discriminate|]. intros (d' & _ & _ & _ & Hn).
           apply Hnone in Hn. destruct Hn; discriminate.
        -- split; [|reflexivity]. intros _.
           exists debate. repeat split; eauto. { now apply Hended. } right. now apply Ho.
        -- split; [|reflexivity]. intros _.
           exists debate. repeat split; eauto. { now apply Hended. } left. now apply Hs.
        -- split; [|reflexivity]. intros _.
           exists debate. repeat split; eauto. { now apply Hended. } left. now apply Hs.
      * split; [discriminate|]. intros (d' & _ & _ & [r [=]] & _).
    + assert (Hnot : ¬ ended debate) by (intros H; apply Hended in H; discriminate).
      split.
      * destruct (String.eqb (Status debate) "active"), s as [s|], o as [o|];
          try destruct (String.eqb (Status debate) "waiting"); discriminate.
      * intros (d' & [= <-] & H & _). contradiction.
Qed.

Lemma sendCurrentDebateState_snapshot_witness :
  (∃ msg, sendCurrentDebateState envNoJudge 9%nat "debate-u1"
            (worldAfter envNoJudge (joinedOnce 1) emptyWorld)
          = Ok () (set_written [(9%nat, msg)]
                               (worldAfter envNoJudge (joinedOnce 1) emptyWorld))
          ∧ msg = createMessage "debate_waiting" (DataDebateWaiting
                    {| dw_DebateID := "debate-u1"; dw_Topic := "T";
                       dw_TotalRounds := 1; dw_Status := "waiting";
                       dw_JoinedBots := ["alpha-aaaaaaaa"] |}))
  ∧ (let w := worldAfter envNoJudge (started 2 ++ [EvSpeech alphaSpeaks 14]) emptyWorld in
     ∃ u, sendCurrentDebateState envNoJudge 9%nat "debate-u1" w
          = Ok () (set_written (written w ++ [(9%nat, createMessage "debate_update"
                                                       (DataDebateUpdate u))])%list w)
          ∧ du_SupportingSide u = "alpha-aaaaaaaa"
          ∧ du_OpposingSide u = "beta-bbbbbbbb"
          ∧ du_CurrentRound u = 1
          ∧ map e_Speaker (du_DebateLog u) = ["alpha-aaaaaaaa"])
  ∧ (let w := worldAfter envNoJudge finishedOnce emptyWorld in
     ∃ e, sendCurrentDebateState envNoJudge 9%nat "debate-u1" w
          = Ok () (set_written (written w ++ [(9%nat, createMessage "debate_end"
                                                       (DataDebateEnd e))])%list w)
          ∧ de_Status e = "completed"
          ∧ length (de_DebateLog e) = 2%nat
          ∧ Winner (de_DebateResult e) = "none")
  ∧ sendCurrentDebateState envNoJudge 9%nat "debate-u1"
      (worldAfter envNoJudge twinsTimedOut emptyWorld) = Panic.
Proof.
  split; [|split; [|split]].
  - destruct (sendCurrentDebateState_snapshot envNoJudge 9%nat "debate-u1"
                (worldAfter envNoJudge (joinedOnce 1) emptyWorld)) as (_ & H & _).
    edestruct (H _ ltac:(vm_compute; reflexivity)) as (Hw & _).
    eexists. split; [rewrite (Hw eq_refl); vm_compute; reflexivity|reflexivity].
  - cbv zeta.
    destruct (sendCurrentDebateState_snapshot envNoJudge 9%nat "debate-u1"
                (worldAfter envNoJudge (started 2 ++ [EvSpeech alphaSpeaks 14])
                            emptyWorld)) as (_ & H & _).
    edestruct (H _ ltac:(vm_compute; reflexivity)) as (_ & Ha & _).
    destruct (Ha eq_refl) as [Hu _].
    edestruct (Hu _ _ ltac:(vm_compute; reflexivity)) as (_ & _ & _ & _ & Hsent).
    eexists. split; [exact Hsent|]. repeat split; vm_compute; reflexivity.
  - cbv zeta.
    destruct (sendCurrentDebateState_snapshot envNoJudge 9%nat "debate-u1"
                (worldAfter envNoJudge finishedOnce emptyWorld)) as (_ & H & _).
    edestruct (H _ ltac:(vm_compute; reflexivity)) as (_ & _ & He & _).
    destruct (He ltac:(left; reflexivity)) as [_ Hr].
    edestruct (Hr _ _ _ ltac:(vm_compute; reflexivity) ltac:(vm_compute; reflexivity))
      as (_ & _ & _ & _ & Hsent).
    eexists. split; [exact Hsent|]. repeat split; vm_compute; reflexivity.
  - apply (proj2 (proj2 (sendCurrentDebateState_snapshot envNoJudge 9%nat "debate-u1"
                           (worldAfter envNoJudge twinsTimedOut emptyWorld)))).
    eexists. split; [vm_compute; reflexivity|].
    split; [right; reflexivity|]. split; [vm_compute; eauto|].
    left. intros b Hb. vm_compute in Hb.
    destruct Hb as [<-|[<-|[]]]; discriminate.
Defined.
(** ** The registry agrees with storage *)

Lemma rows_le_refl (d : Database) : rows_le d d.
Proof. intros id row H. exists row. split; [exact H|trivial]. Qed.

Lemma rows_le_trans (d1 d2 d3 : Database) :
  rows_le d1 d2 → rows_le d2 d3 → rows_le d1 d3.
Proof.
  intros H12 H23 id row H.
  destruct (H12 id row H) as (row2 & H2 & S2).
  destruct (H23 id row2 H2) as (row3 & H3 & S3).
  exists row3. split; [exact H3|]. intros Hw. apply S2, S3, Hw.
Qed.

Lemma sound_refl (w : World) : sound w w.
Proof.
  split; [apply rows_le_refl|]. split; [|trivial].
  intros id Hn [a Ha]. congruence.
Qed.

Lemma sound_trans (w1 w2 w3 : World) : sound w1 w2 → sound w2 w3 → sound w1 w3.
Proof.
  intros (R12 & B12 & C12) (R23 & B23 & C23).
  split; [eapply rows_le_trans; eauto|]. split; [|auto].
  intros id Hn Hs row Hrow.
  destruct (debates w2 !! id) as [a2|] eqn:H2.
  - apply (B12 id Hn (mk_is_Some _ _ H2) row Hrow).
  - destruct (R12 id row Hrow) as (row2 & Hrow2 & S2).
    apply S2. apply (B23 id H2 Hs row2 Hrow2).
Qed.

(** Rules for the handler monad. *)
Section Keeps.

Variable R : World → World → Prop.
Hypothesis R_refl : ∀ w, R w w.
Hypothesis R_trans : ∀ w1 w2 w3, R w1 w2 → R w2 w3 → R w1 w3.

Lemma keepsRel_ret {A} (w : World) (a : A) : keepsRel R w (mret a).
Proof. intros x w' [= _ <-]. apply R_refl. Qed.

Lemma keepsRel_panic {A} (w : World) : keepsRel R w (@panic A).
Proof. intros x w'. discriminate. Qed.

Lemma keepsRel_bind {A B} (w : World) (m : M A) (k : A → M B) :
  keepsRel R w m →
  (∀ x w1, m w = Ok x w1 → keepsRel R w1 (k x)) →
  keepsRel R w (m ≫= k).
Proof.
  intros Hm Hk y w'. unfold mbind, M_bind.
  destruct (m w) as [x w1|] eqn:E; [|discriminate].
  intros H. eapply R_trans; [eapply Hm; eauto|eapply Hk; eauto].
Qed.

Lemma keepsRel_gets_bind {A B} (w : World) (f : World → A) (k : A → M B) :
  keepsRel R w (k (f w)) → keepsRel R w (gets f ≫= k).
Proof. intros H y w'. unfold mbind, M_bind, gets. apply H. Qed.

Lemma keepsRel_gets {A} (w : World) (f : World → A) : keepsRel R w (gets f).
Proof. intros x w' [= _ <-]. apply R_refl. Qed.

End Keeps.

(** What the primitive actions do to the registry and to storage. *)
Lemma consistent_ext (w w' : World) :
  debates w' = debates w → db w' = db w → consistent w → consistent w'.
Proof. unfold consistent. intros -> ->. trivial. Qed.

Lemma sound_ext (w w' : World) :
  debates w' = debates w → db w' = db w → sound w w'.
Proof.
  intros Hd Hdb. split; [rewrite Hdb; apply rows_le_refl|]. split.
  - intros id Hn [a Ha]. rewrite Hd in Ha. congruence.
  - now apply consistent_ext.
Qed.

Lemma sound_alter (w : World) (debateID : string) (f : ActiveDebate → ActiveDebate) :
  (∀ a, debates w !! debateID = Some a → DebateLog (f a) = DebateLog a) →
  sound w (set_debates (alter f debateID (debates w)) w).
Proof.
  intros Hf. split; [apply rows_le_refl|]. split.
  - intros id Hn [a Ha]. simpl in Ha.
    destruct (decide (debateID = id)) as [->|Hne].
    + rewrite lookup_alter_eq, Hn in Ha. discriminate.
    + rewrite lookup_alter_ne in Ha by exact Hne. congruence.
  - intros (I1 & I2 & I3). split; [|split]; simpl.
    + intros id [a Ha]. apply I1.
      destruct (decide (debateID = id)) as [->|Hne].
      * rewrite lookup_alter_eq in Ha. destruct (debates w !! id); [eauto|discriminate].
      * rewrite lookup_alter_ne in Ha by exact Hne. eauto.
    + intros id a Ha.
      destruct (decide (debateID = id)) as [->|Hne].
      * rewrite lookup_alter_eq in Ha.
        destruct (debates w !! id) as [a0|] eqn:E; [|discriminate].
        injection Ha as <-. rewrite (Hf a0 eq_refl). now apply I2.
      * rewrite lookup_alter_ne in Ha by exact Hne. now apply I2.
    + intros id Hn. apply I3.
      destruct (decide (debateID = id)) as [->|Hne].
      * rewrite lookup_alter_eq in Hn. destruct (debates w !! id); [discriminate|reflexivity].
      * now rewrite lookup_alter_ne in Hn by exact Hne.
Qed.

Lemma sound_db (w : World) (d' : Database) :
  db_safe (db w) d' → sound w (set_db d' w).
Proof.
  intros [Hr Hlog]. split; [exact Hr|]. split.
  - intros id Hn [a Ha]. simpl in Ha. congruence.
  - intros (I1 & I2 & I3). split; [|split]; simpl.
    + intros id Hl. destruct (I1 id Hl) as [row Hrow].
      destruct (Hr id row Hrow) as (row' & Hrow' & _). eauto.
    + intros id a Ha. unfold DbRead.GetDebateLog. rewrite Hlog. now apply I2.
    + intros id Hn Hw. unfold DbRead.GetDebateLog. rewrite Hlog. apply I3; [exact Hn|].
      intros row Hrow. destruct (Hr id row Hrow) as (row' & Hrow' & S).
      apply S, (Hw row' Hrow').
Qed.

Lemma update_debates_rows (f : Debate → Debate) (debateID : string) (d : Database) :
  (∀ r, ID (f r) = ID r) →
  (∀ r, Status (f r) = "waiting" → Status r = "waiting") →
  rows_le d (Db.update_debates f debateID d).
Proof.
  intros Hid Hst id row Hrow. unfold Db.GetDebate, Db.update_debates in *. simpl.
  rewrite find_map_update by exact Hid. rewrite Hrow. simpl.
  eexists. split; [reflexivity|].
  destruct (String.eqb (ID row) debateID); [apply Hst|trivial].
Qed.

Lemma UpdateDebateStatus_safe (d : Database) (debateID status : string) (now : Time) :
  status ≠ "waiting" → db_safe d (Db.UpdateDebateStatus d debateID status now).
Proof.
  intros Hs. split; [|reflexivity].
  apply update_debates_rows; [reflexivity|]. intros r H. simpl in H. contradiction.
Qed.

Lemma UpdateDebateRound_safe (d : Database) (debateID : string) (round : Z) (now : Time) :
  db_safe d (Db.UpdateDebateRound d debateID round now).
Proof.
  split; [|reflexivity]. apply update_debates_rows; [reflexivity|trivial].
Qed.

Lemma rows_le_same (d d' : Database) : tbl_debates d' = tbl_debates d → rows_le d d'.
Proof.
  intros E id row H. exists row. split; [|trivial].
  unfold Db.GetDebate in *. now rewrite E.
Qed.

Lemma UpdateBotSide_safe (d : Database) (debateID botIdentifier side : string) :
  db_safe d (Db.UpdateBotSide d debateID botIdentifier side).
Proof. split; [now apply rows_le_same|reflexivity]. Qed.

Lemma SaveDebateResult_safe (d : Database) (debateID : string) (result : DebateResult) :
  db_safe d (default d (Db.SaveDebateResult d debateID result)).
Proof.
  unfold Db.SaveDebateResult. destruct (existsb _ _); simpl;
    (split; [now apply rows_le_same|reflexivity]).
Qed.

Lemma AddBot_safe (d d' : Database) (bot : Bot) :
  Db.AddBot d bot = Some d' → db_safe d d'.
Proof.
  unfold Db.AddBot. destruct (existsb _ _); [discriminate|]. intros [= <-].
  split; [now apply rows_le_same|reflexivity].
Qed.

Lemma CreateDebate_safe (d d' : Database) (debate : Debate) :
  Db.CreateDebate d debate = Some d' → db_safe d d'.
Proof.
  unfold Db.CreateDebate. destruct (existsb _ _); [discriminate|]. intros [= <-].
  split; [|reflexivity]. intros id row Hrow. exists row. split; [|trivial].
  unfold Db.GetDebate in *. simpl. now apply find_app_Some.
Qed.

(** The primitive actions. *)
Lemma keeps_sound_ext (w : World) (f : World → World) :
  (∀ w, debates (f w) = debates w ∧ db (f w) = db w) →
  keepsRel sound w (modify f).
Proof. intros H x w' [= _ <-]. apply sound_ext; apply H. Qed.

Lemma keeps_sound_Stop (w : World) (h : option nat) : keepsRel sound w (Stop h).
Proof.
  destruct h as [tid|]; [|apply keepsRel_ret, sound_refl].
  apply keeps_sound_ext. intros u. split; reflexivity.
Qed.

Lemma keeps_sound_AfterFunc (w : World) (kind : TimerKind) (debateID : string) :
  keepsRel sound w (AfterFunc kind debateID).
Proof. intros x w' [= _ <-]. now apply sound_ext. Qed.

Lemma keeps_sound_WriteJSON (w : World) (conn : option Conn) (msg : Message) :
  keepsRel sound w (WriteJSON conn msg).
Proof.
  destruct conn as [c|]; [|apply keepsRel_panic].
  apply keeps_sound_ext. intros u. split; reflexivity.
Qed.

Lemma keeps_sound_send_broadcast (w : World) (debateID : string) (msg : Message) :
  keepsRel sound w (send_broadcast debateID msg).
Proof. apply keeps_sound_ext. intros u. split; reflexivity. Qed.

Lemma keeps_sound_goroutines (w : World) (g : World → list Task) :
  keepsRel sound w (modify (λ w, set_goroutines (g w) w)).
Proof. apply keeps_sound_ext. intros u. split; reflexivity. Qed.

Lemma keeps_sound_timers (w : World) (g : World → list Timer) :
  keepsRel sound w (modify (λ w, set_timers (g w) w)).
Proof. apply keeps_sound_ext. intros u. split; reflexivity. Qed.

Lemma keeps_sound_assign (w : World) (debateID : string)
    (f : ActiveDebate → ActiveDebate) :
  (∀ a, DebateLog (f a) = DebateLog a) →
  keepsRel sound w (assign debateID f).
Proof. intros Hf x w' [= _ <-]. apply sound_alter. intros a _. apply Hf. Qed.

Lemma keeps_sound_db_exec (w : World) (f : Database → Database) :
  (∀ d, db_safe d (f d)) → keepsRel sound w (db_exec f).
Proof. intros H x w' [= _ <-]. apply sound_db, H. Qed.

Lemma keeps_sound_db_try (w : World) (f : Database → option Database) :
  (∀ d, db_safe d (default d (f d))) → keepsRel sound w (db_try f).
Proof. intros H x w' [= _ <-]. apply sound_db, H. Qed.

Lemma keeps_sound_set_db (w : World) (d' : Database) :
  db_safe (db w) d' → keepsRel sound w (modify (set_db d')).
Proof. intros H x w' [= _ <-]. now apply sound_db. Qed.

Create HintDb sound.
#[local] Hint Resolve sound_refl keeps_sound_Stop keeps_sound_AfterFunc
  keeps_sound_WriteJSON keeps_sound_send_broadcast keeps_sound_goroutines
  keeps_sound_timers keeps_sound_db_exec keeps_sound_db_try keeps_sound_set_db
  UpdateDebateRound_safe UpdateBotSide_safe SaveDebateResult_safe AddBot_safe
  CreateDebate_safe : sound.

Ltac sound_step :=
  first
    [ progress cbv zeta
    | solve [eauto with sound]
    | apply keeps_sound_assign;
      solve [ intros []; reflexivity | reflexivity
            | intros []; match goal with s : Slot |- _ => destruct s; reflexivity end ]
    | apply keepsRel_ret; apply sound_refl
    | apply keepsRel_panic
    | apply keepsRel_gets; apply sound_refl
    | apply keepsRel_gets_bind; cbv beta
    | apply (keepsRel_bind sound sound_trans); [ | intros ? ? _ ]
    | apply keeps_sound_db_exec; intros ?; apply UpdateDebateStatus_safe; discriminate
    | match goal with
      | |- keepsRel _ _ (match ?x with _ => _ end) => destruct x eqn:?
      end ].

Ltac sound_steps := cbv zeta; repeat sound_step.

Lemma keeps_sound_startTimeout (w : World) (debateID speaker : string) :
  keepsRel sound w (startTimeout debateID speaker).
Proof. unfold startTimeout, getDebate. sound_steps. Qed.

Lemma keeps_sound_startInactivityTimer (w : World) (debateID : string) :
  keepsRel sound w (startInactivityTimer debateID).
Proof. unfold startInactivityTimer, getDebate. sound_steps. Qed.

Lemma keeps_sound_startMaxDurationTimer (w : World) (debateID : string) :
  keepsRel sound w (startMaxDurationTimer debateID).
Proof. unfold startMaxDurationTimer, getDebate. sound_steps. Qed.

Lemma keeps_sound_startWaitingTimer (w : World) (debateID : string) :
  keepsRel sound w (startWaitingTimer debateID).
Proof. unfold startWaitingTimer, getDebate. sound_steps. Qed.

#[local] Hint Resolve keeps_sound_startTimeout keeps_sound_startInactivityTimer
  keeps_sound_startMaxDurationTimer keeps_sound_startWaitingTimer : sound.

Lemma keeps_sound_resetInactivityTimer (w : World) (debateID : string) :
  keepsRel sound w (resetInactivityTimer debateID).
Proof. unfold resetInactivityTimer, getDebate. sound_steps. Qed.

Lemma keeps_sound_sendDebateUpdate (env : Env) (w : World)
    (debateID nextSpeaker : string) :
  keepsRel sound w (sendDebateUpdate env debateID nextSpeaker).
Proof. unfold sendDebateUpdate, deref, getDebate. sound_steps. Qed.

Lemma keeps_sound_endDebate (env : Env) (w : World) (debateID status reason : string)
    (now : Time) :
  status ≠ "waiting" →
  keepsRel sound w (endDebate env debateID status reason now).
Proof.
  intros Hs. unfold endDebate, deref, getDebate.
  assert (Hsafe : ∀ d, db_safe d (Db.UpdateDebateStatus d debateID status now))
    by (intros d; now apply UpdateDebateStatus_safe).
  sound_steps.
Qed.

#[local] Hint Resolve keeps_sound_resetInactivityTimer keeps_sound_sendDebateUpdate
  : sound.

Lemma keeps_sound_HandleBotDisconnect (env : Env) (w : World)
    (debateID botIdentifier reason : string) (now : Time) :
  keepsRel sound w (HandleBotDisconnect env debateID botIdentifier reason now).
Proof.
  unfold HandleBotDisconnect, getDebate. sound_steps.
Qed.

Lemma keeps_sound_startDebate (env : Env) (w : World) (debateID : string) (coin : bool)
    (now : Time) :
  keepsRel sound w (startDebate env debateID coin now).
Proof. unfold startDebate, deref, getDebate. sound_steps. Qed.

#[local] Hint Resolve keeps_sound_HandleBotDisconnect keeps_sound_startDebate : sound.

Lemma sound_alter_ext (w w' : World) (debateID : string)
    (f : ActiveDebate → ActiveDebate) :
  debates w' = alter f debateID (debates w) → db w' = db w →
  (∀ a, DebateLog (f a) = DebateLog a) →
  sound w w'.
Proof.
  intros Hd Hdb Hf.
  apply (sound_trans _ (set_debates (alter f debateID (debates w)) w)).
  - apply sound_alter. intros a _. apply Hf.
  - apply sound_ext; [exact Hd|exact Hdb].
Qed.

Lemma GetDebateLog_AddDebateLog (d : Database) (entry : DebateLogEntry)
    (debateID other : string) :
  DbRead.GetDebateLog (Db.AddDebateLog d entry debateID) other
  = (DbRead.GetDebateLog d other
     ++ if String.eqb debateID other then [entry] else [])%list.
Proof.
  unfold DbRead.GetDebateLog, Db.AddDebateLog. simpl.
  rewrite List.filter_app, map_app. simpl.
  destruct (String.eqb debateID other); reflexivity.
Qed.

(** The three statements of [HandleSpeech] that record an accepted speech. *)
Lemma sound_speech (w : World) (debateID speaker : string) (entry : DebateLogEntry)
    (a : ActiveDebate) :
  debates w !! debateID = Some a →
  sound w
    (set_db (Db.AddDebateLog (db w) entry debateID)
       (set_debates
          (alter (set_LastSpeaker speaker) debateID
             (alter (λ a, set_DebateLog (DebateLog a ++ [entry]) a) debateID
                (debates w))) w)).
Proof.
  intros Hl. split; [now apply rows_le_same|]. split.
  - intros id Hn [a' Ha']. simpl in Ha'.
    destruct (decide (debateID = id)) as [->|Hne]; [congruence|].
    rewrite !lookup_alter_ne in Ha' by exact Hne. congruence.
  - intros (I1 & I2 & I3). split; [|split]; simpl.
    + intros id [a' Ha']. apply I1.
      destruct (decide (debateID = id)) as [->|Hne]; [eauto|].
      rewrite !lookup_alter_ne in Ha' by exact Hne. eauto.
    + intros id a' Ha'. rewrite GetDebateLog_AddDebateLog.
      destruct (decide (debateID = id)) as [->|Hne].
      * rewrite !lookup_alter_eq, Hl in Ha'. injection Ha' as <-.
        rewrite String.eqb_refl. simpl. now rewrite (I2 id a Hl).
      * rewrite !lookup_alter_ne in Ha' by exact Hne.
        apply String.eqb_neq in Hne. rewrite Hne, app_nil_r. now apply I2.
    + intros id Hn Hw. rewrite GetDebateLog_AddDebateLog.
      destruct (decide (debateID = id)) as [->|Hne].
      * rewrite !lookup_alter_eq, Hl in Hn. discriminate.
      * rewrite !lookup_alter_ne in Hn by exact Hne.
        apply String.eqb_neq in Hne. rewrite Hne, app_nil_r. now apply I3.
Qed.

Lemma keeps_sound_HandleSpeech (env : Env) (w : World) (speech : DebateSpeech)
    (now : Time) :
  keepsRel sound w (HandleSpeech env speech now).
Proof.
  intros r w'. unfold HandleSpeech, getDebate, gets.
  unfold mbind at 1. unfold M_bind at 1.
  destruct (debates w !! sp_DebateID speech) as [a|] eqn:Hl.
  2:{ intros [= _ <-]. apply sound_refl. }
  destruct (speakerOf a (sp_Speaker speech)) as [bot|].
  2:{ intros [= _ <-]. apply sound_refl. }
  destruct (negb (String.eqb (DebateKey (cb_Bot bot)) (sp_DebateKey speech))).
  { intros [= _ <-]. apply sound_refl. }
  destruct (getNextSpeaker a) as [expected|]; [|discriminate].
  destruct (negb (String.eqb (sp_Speaker speech) expected)).
  { intros [= _ <-]. apply sound_refl. }
  rewrite (bind_Ok _ _ _ _ _ (Stop_spec _ _)).
  rewrite (bind_Ok _ _ _ _ _ (assign_spec _ _ _)).
  erewrite bind_Ok.
  2:{ apply resetInactivityTimer_spec. simpl. rewrite lookup_alter_eq, Hl. reflexivity. }
  match goal with |- context [armed ?k ?i ?s ?u] => set (w2 := armed k i s u) end.
  assert (Hl2 : is_Some (debates w2 !! sp_DebateID speech)).
  { subst w2. unfold armed. simpl. rewrite !lookup_alter_eq, Hl. simpl. eauto. }
  assert (S2 : sound w w2).
  { subst w2. unfold armed. 
    eapply sound_alter_ext; simpl; [apply alter_alter_eq|reflexivity|].
    intros []. reflexivity. }
  clearbody w2. destruct Hl2 as [a2 Hl2].
  destruct (_ <? MinContentLength (config env)).
  { intros [= _ <-]. exact S2. }
  destruct (MaxContentLength (config env) <? _).
  { intros [= _ <-]. exact S2. }
  rewrite (bind_Ok _ _ _ _ _ (assign_spec _ _ _)).
  rewrite (bind_Ok _ _ _ _ _ (assign_spec _ _ _)).
  rewrite (bind_Ok _ _ _ _ _ (db_exec_spec _ _)).
  match goal with |- (_ ≫= _) ?u = _ → _ => set (w3 := u) end.
  assert (S3 : sound w2 w3).
  { subst w3. apply (sound_speech w2 _ _ _ a2 Hl2). }
  clearbody w3. intros H.
  apply (sound_trans _ w2); [exact S2|]. apply (sound_trans _ w3); [exact S3|].
  revert r w' H.
  match goal with
  | |- ∀ r w', ?m w3 = Ok r w' → _ => change (keepsRel sound w3 m)
  end.
  unfold deref, getDebate. sound_steps.
Qed.

Lemma sound_birth (w : World) (debateID : string) (a : ActiveDebate) (row : Debate) :
  debates w !! debateID = None →
  Db.GetDebate (db w) debateID = Some row → Status row = "waiting" →
  DebateLog a = [] →
  sound w (set_debates (<[debateID := a]> (debates w)) w).
Proof.
  intros Hn Hrow Hst Hlog. split; [apply rows_le_refl|]. split.
  - intros id Hn' [a' Ha'] row' Hrow'. simpl in Ha'.
    destruct (decide (debateID = id)) as [->|Hne]; [congruence|].
    rewrite lookup_insert_ne in Ha' by exact Hne. congruence.
  - intros (I1 & I2 & I3). split; [|split]; simpl.
    + intros id [a' Ha'].
      destruct (decide (debateID = id)) as [->|Hne]; [eauto|].
      rewrite lookup_insert_ne in Ha' by exact Hne. apply I1. eauto.
    + intros id a' Ha'.
      destruct (decide (debateID = id)) as [->|Hne].
      * rewrite lookup_insert_eq in Ha'. injection Ha' as <-. rewrite Hlog.
        apply I3; [exact Hn|]. congruence.
      * rewrite lookup_insert_ne in Ha' by exact Hne. now apply I2.
    + intros id Hn'.
      destruct (decide (debateID = id)) as [->|Hne].
      * rewrite lookup_insert_eq in Hn'. discriminate.
      * rewrite lookup_insert_ne in Hn' by exact Hne. now apply I3.
Qed.

Lemma resolveDebate_sound (w w1 : World) (loginReq : LoginRequest)
    (r : LoginRejected + string * ActiveDebate) :
  resolveDebate loginReq w = Ok r w1 →
  sound w w1
  ∧ ∀ debateID a, r = inr (debateID, a) → debates w1 !! debateID = Some a.
Proof.
  unfold resolveDebate, getDebate, gets, mbind, M_bind.
  destruct (if String.eqb (lr_DebateID loginReq) "" then
              match Db.GetAvailableDebate (db w) with
              | Some availableDebate => Some (ID availableDebate)
              | None => None
              end
            else Some (lr_DebateID loginReq)) as [debateID|].
  2:{ intros [= <- <-]. split; [apply sound_refl|discriminate]. }
  destruct (debates w !! debateID) as [a|] eqn:Hl.
  { intros [= <- <-]. split; [apply sound_refl|]. intros ? ? [= <- <-]. exact Hl. }
  destruct (Db.GetDebate (db w) debateID) as [debate|] eqn:Hrow.
  2:{ intros [= <- <-]. split; [apply sound_refl|discriminate]. }
  destruct (String.eqb_spec (Status debate) "waiting") as [Hst|Hst]; simpl.
  - intros [= <- <-]. split.
    + now apply (sound_birth w debateID _ debate).
    + intros ? ? [= <- <-]. simpl. apply lookup_insert_eq.
  - intros [= <- <-]. split; [apply sound_refl|discriminate].
Qed.

Lemma keeps_sound_BotLogin (w : World) (loginReq : LoginRequest) (conn : Conn)
    (debateKey : string) (now : Time) :
  keepsRel sound w (BotLogin loginReq conn debateKey now).
Proof.
  intros r w' H. unfold BotLogin in H.
  apply bind_inv in H. destruct H as (res & w1 & Hres & H).
  destruct (resolveDebate_sound _ _ _ _ Hres) as [S1 Hlive].
  apply (sound_trans _ w1); [exact S1|]. clear S1 Hres.
  destruct res as [rej|[debateID a]].
  { injection H as _ <-. apply sound_refl. }
  specialize (Hlive debateID a eq_refl).
  destruct (bool_decide (is_Some (BotA a)) && bool_decide (is_Some (BotB a))).
  { injection H as _ <-. apply sound_refl. }
  destruct (slice (lr_BotUUID loginReq) 0 8) as [prefix|]; [|discriminate].
  cbv zeta in H. unfold gets in H. unfold mbind at 1 in H. unfold M_bind at 1 in H.
  match type of H with
  | match Db.AddBot _ ?b with _ => _ end _ = _ => set (bot := b) in *
  end.
  destruct (Db.AddBot (db w1) bot) as [d'|] eqn:Hadd.
  2:{ injection H as _ <-. apply sound_refl. }
  apply bind_inv in H. destruct H as ([] & w2 & H2 & H).
  injection H2 as <-.
  apply (sound_trans _ (set_db d' w1)); [apply sound_db; eapply AddBot_safe; eauto|].
  apply bind_inv in H. destruct H as ([] & w3 & H3 & H).
  injection H3 as <-.
  match goal with
  | |- sound ?u _ =>
      apply (sound_trans _
               (set_debates
                  (alter (λ _, match BotA a with
                               | None => set_BotA (Some {| cb_Bot := bot;
                                                           cb_Conn := Some conn |}) a
                               | Some _ => set_BotB (Some {| cb_Bot := bot;
                                                             cb_Conn := Some conn |}) a
                               end) debateID (debates u)) u))
  end.
  { apply sound_alter. simpl. intros a0 Ha0. rewrite Hlive in Ha0. injection Ha0 as <-.
    destruct (BotA a); reflexivity. }
  revert r w' H.
  match goal with
  | |- ∀ r w', ?m ?u = Ok r w' → _ => change (keepsRel sound u m)
  end.
  sound_steps.
Qed.

Lemma keeps_sound_waitingTimeout (w : World) (debateID : string) (now : Time) :
  keepsRel sound w (waitingTimeout debateID now).
Proof.
  intros [] w'. unfold waitingTimeout, getDebate, gets.
  unfold mbind at 1. unfold M_bind at 1.
  destruct (debates w !! debateID) as [a|] eqn:Hl.
  2:{ intros [= <-]. apply sound_refl. }
  destruct (String.eqb (Status (Debate_ a)) "waiting").
  2:{ intros [= <-]. apply sound_refl. }
  intros [= <-]. simpl.
  assert (Hsafe : db_safe (db w) (Db.UpdateDebateStatus (db w) debateID "timeout" now))
    by (apply UpdateDebateStatus_safe; discriminate).
  destruct Hsafe as [Hrows Hlog].
  assert (Hlook : ∀ id a', delete debateID (alter (set_Status "timeout") debateID
                                              (debates w)) !! id = Some a' →
                           id ≠ debateID ∧ debates w !! id = Some a').
  { intros id a' H. destruct (decide (debateID = id)) as [->|Hne].
    - rewrite lookup_delete_eq in H. discriminate.
    - rewrite lookup_delete_ne, lookup_alter_ne in H by exact Hne. split; congruence. }
  split; [exact Hrows|]. split.
  - intros id Hn [a' Ha']. simpl in Ha'. apply Hlook in Ha'. destruct Ha'. congruence.
  - intros (I1 & I2 & I3). split; [|split]; simpl.
    + intros id [a' Ha']. apply Hlook in Ha'. destruct Ha' as [_ Ha'].
      destruct (I1 id (mk_is_Some _ _ Ha')) as [row Hrow].
      destruct (Hrows id row Hrow) as (row' & Hrow' & _). eauto.
    + intros id a' Ha'. apply Hlook in Ha'. destruct Ha' as [_ Ha'].
      unfold DbRead.GetDebateLog. simpl. now apply I2.
    + intros id Hn Hw. unfold DbRead.GetDebateLog. simpl.
      destruct (decide (debateID = id)) as [<-|Hne].
      * exfalso. destruct (I1 debateID (mk_is_Some _ _ Hl)) as [row Hrow].
        specialize (Hw (Db.set_status "timeout" now row)).
        assert (Hrow' : Db.GetDebate (Db.UpdateDebateStatus (db w) debateID "timeout" now)
                          debateID = Some (Db.set_status "timeout" now row)).
        { unfold Db.GetDebate, Db.UpdateDebateStatus, Db.update_debates in *. simpl.
          rewrite find_map_update by reflexivity. rewrite Hrow. simpl.
          apply List.find_some in Hrow. destruct Hrow as [_ ->]. reflexivity. }
        specialize (Hw Hrow'). discriminate.
      * rewrite lookup_delete_ne, lookup_alter_ne in Hn by exact Hne.
        apply I3; [exact Hn|]. intros row Hrow.
        destruct (Hrows id row Hrow) as (row' & Hrow' & S). apply S, (Hw row' Hrow').
Qed.

Lemma keeps_sound_CreateDebate (w : World) (uuid topic : string) (totalRounds : Z)
    (now : Time) :
  keepsRel sound w (CreateDebate uuid topic totalRounds now).
Proof.
  intros r w' H. unfold CreateDebate in H. cbv zeta in H.
  unfold gets in H. unfold mbind at 1 in H. unfold M_bind at 1 in H.
  match type of H with
  | match Db.CreateDebate _ ?b with _ => _ end _ = _ => set (debate := b) in *
  end.
  destruct (Db.CreateDebate (db w) debate) as [d'|] eqn:Hins.
  2:{ injection H as _ <-. apply sound_refl. }
  apply bind_inv in H. destruct H as ([] & w1 & H1 & H). injection H1 as <-.
  apply bind_inv in H. destruct H as ([] & w2 & H2 & H). injection H2 as <-.
  pose proof (CreateDebate_safe _ _ _ Hins) as [Hrows Hlog].
  assert (Hfree : Db.GetDebate (db w) (ID debate) = None).
  { unfold Db.CreateDebate in Hins. unfold Db.GetDebate.
    apply existsb_find_None. destruct (existsb _ _); [discriminate|reflexivity]. }
  assert (Hnew : Db.GetDebate d' (ID debate) = Some debate).
  { unfold Db.CreateDebate in Hins. unfold Db.GetDebate in *.
    destruct (existsb _ _); [discriminate|]. injection Hins as <-. simpl.
    rewrite find_app_None by exact Hfree. simpl. now rewrite String.eqb_refl. }
  match goal with |- sound _ _ => idtac end.
  apply (sound_trans _ (set_debates (<[ID debate := newActiveDebate debate]> (debates w))
                          (set_db d' w))).
  - split; [exact Hrows|]. split.
    + intros id Hn [a' Ha'] row Hrow. simpl in Ha'.
      destruct (decide (ID debate = id)) as [<-|Hne]; [congruence|].
      rewrite lookup_insert_ne in Ha' by exact Hne. congruence.
    + intros (I1 & I2 & I3).
      assert (Hn : debates w !! ID debate = None).
      { destruct (debates w !! ID debate) as [a0|] eqn:E; [|reflexivity].
        destruct (I1 _ (mk_is_Some _ _ E)) as [row Hrow]. congruence. }
      split; [|split]; simpl.
      * intros id [a' Ha'].
        destruct (decide (ID debate = id)) as [<-|Hne]; [eauto|].
        rewrite lookup_insert_ne in Ha' by exact Hne.
        destruct (I1 id (mk_is_Some _ _ Ha')) as [row Hrow].
        destruct (Hrows id row Hrow) as (row' & Hrow' & _). eauto.
      * intros id a' Ha'. unfold DbRead.GetDebateLog. rewrite Hlog.
        destruct (decide (ID debate = id)) as [<-|Hne].
        -- rewrite lookup_insert_eq in Ha'. injection Ha' as <-.
           cbn [DebateLog newActiveDebate].
           apply I3; [exact Hn|]. intros row Hrow. rewrite Hfree in Hrow. discriminate.
        -- rewrite lookup_insert_ne in Ha' by exact Hne. now apply I2.
      * intros id Hn' Hw. unfold DbRead.GetDebateLog. rewrite Hlog.
        destruct (decide (ID debate = id)) as [<-|Hne].
        -- rewrite lookup_insert_eq in Hn'. discriminate.
        -- rewrite lookup_insert_ne in Hn' by exact Hne.
           apply I3; [exact Hn'|]. intros row Hrow.
           destruct (Hrows id row Hrow) as (row' & Hrow' & S). apply S, (Hw row' Hrow').
  - revert r w' H.
    match goal with
    | |- ∀ r w', ?m ?u = Ok r w' → _ => change (keepsRel sound u m)
    end.
    sound_steps.
Qed.

#[local] Hint Resolve keeps_sound_HandleSpeech keeps_sound_BotLogin
  keeps_sound_waitingTimeout keeps_sound_CreateDebate : sound.

Lemma keeps_sound_handleCreateDebate (w : World) (uuid topic : string)
    (totalRounds : Z) (now : Time) :
  keepsRel sound w (handleCreateDebate uuid topic totalRounds now).
Proof. unfold handleCreateDebate. sound_steps. Qed.

Lemma keeps_sound_timerCallback (env : Env) (w : World) (t : Timer) (now : Time) :
  keepsRel sound w (timerCallback env t now).
Proof.
  unfold timerCallback.
  destruct (t_kind t); try (apply keeps_sound_endDebate; discriminate).
  apply keeps_sound_waitingTimeout.
Qed.

Lemma keeps_sound_expire (w : World) (tid : nat) : keepsRel sound w (expire tid).
Proof. unfold expire. sound_steps. Qed.

#[local] Hint Resolve keeps_sound_handleCreateDebate keeps_sound_timerCallback
  keeps_sound_expire : sound.

Lemma keeps_sound_runTask (env : Env) (w : World) (i : nat) (coin : bool) (now : Time) :
  keepsRel sound w (runTask env i coin now).
Proof. unfold runTask. sound_steps. Qed.

#[local] Hint Resolve keeps_sound_runTask : sound.

Lemma keeps_sound_step (env : Env) (w : World) (ev : Event) :
  keepsRel sound w (step env ev).
Proof. unfold step. sound_steps. Qed.

Lemma run_sound (env : Env) (evs : list Event) (w w' : World) :
  run env evs w = Ok () w' → sound w w'.
Proof.
  revert w. induction evs as [|ev evs IH]; intros w; simpl.
  - intros [= <-]. apply sound_refl.
  - unfold mbind, M_bind. destruct (step env ev w) as [[] w1|] eqn:E; [|discriminate].
    intros H. eapply sound_trans; [eapply keeps_sound_step; eauto|apply IH, H].
Qed.

Lemma consistent_emptyWorld : consistent emptyWorld.
Proof.
  split; [|split].
  - intros id [a Ha]. simpl in Ha. rewrite lookup_empty in Ha. discriminate.
  - intros id a Ha. simpl in Ha. rewrite lookup_empty in Ha. discriminate.
  - reflexivity.
Qed.

(** X29.  Memory and storage agree on every live session.  In a server
    started from the empty state, after any sequence of events (requests,
    speeches accepted or rejected, disconnects, timer expiries, goroutine
    runs in any order), every session in the registry belongs to a stored
    debate, and its transcript in memory is exactly the transcript that
    [GetDebateLog] returns for it: what the observers' snapshot and the
    HTTP surface read from storage is what the bots were sent. *)
Theorem live_transcript_is_stored (env : Env) (evs : list Event) (w : World)
    (debateID : string) (a : ActiveDebate) :
  run env evs emptyWorld = Ok () w →
  debates w !! debateID = Some a →
  DbRead.GetDebateLog (db w) debateID = DebateLog a
  ∧ is_Some (Db.GetDebate (db w) debateID).
Proof.
  intros Hrun Hl. apply run_sound in Hrun. destruct Hrun as (_ & _ & Hc).
  destruct (Hc consistent_emptyWorld) as (I1 & I2 & _).
  split; [now apply I2|]. apply I1. eauto.
Qed.

Lemma live_transcript_is_stored_witness :
  ∃ a, debates (worldAfter envNoJudge anotherRound emptyWorld) !! "debate-u1" = Some a
       ∧ DbRead.GetDebateLog (db (worldAfter envNoJudge anotherRound emptyWorld))
           "debate-u1" = DebateLog a
       ∧ length (DebateLog a) = 4%nat.
Proof.
  destruct (debates (worldAfter envNoJudge anotherRound emptyWorld) !! "debate-u1")
    as [a|] eqn:Hl; [|vm_compute in Hl; discriminate].
  exists a. split; [reflexivity|]. split.
  - apply (live_transcript_is_stored envNoJudge anotherRound _ _ _); [|exact Hl].
    vm_compute. reflexivity.
  - vm_compute in Hl. injection Hl as <-. reflexivity.
Defined.

(** X30.  A debate that has left the registry never comes back.  Once a
    stored debate has no session and is not waiting (its join wait timed
    out, or it ended before a restart), no sequence of events gives it a
    session again: it stays out of the registry and its stored status
    never returns to waiting, so every later login that names it is
    rejected with [debate_not_ready] and every later speech for it is
    answered [DEBATE_NOT_FOUND], without any effect. *)
Theorem gone_for_good (env : Env) (evs : list Event) (w w' : World)
    (debateID : string) :
  gone w debateID →
  run env evs w = Ok () w' →
  gone w' debateID
  ∧ (debateID ≠ "" →
     ∀ loginReq conn debateKey now, lr_DebateID loginReq = debateID →
       BotLogin loginReq conn debateKey now w'
       = Ok (inr (rejected "debate_not_ready" "Debate not ready yet, try later"
                           debateID 5)) w')
  ∧ (∀ speech now, sp_DebateID speech = debateID →
       HandleSpeech env speech now w'
       = Ok (Some (errorMessage "DEBATE_NOT_FOUND" "Debate not found" debateID false))
            w').
Proof.
  intros (Hn & row & Hrow & Hst) Hrun.
  apply run_sound in Hrun. destruct Hrun as (Hrows & Hbirths & _).
  destruct (Hrows debateID row Hrow) as (row' & Hrow' & S).
  assert (Hst' : Status row' ≠ "waiting") by (intros H; apply Hst, S, H).
  assert (Hn' : debates w' !! debateID = None).
  { destruct (debates w' !! debateID) as [a|] eqn:E; [|reflexivity].
    exfalso. apply Hst. apply (Hbirths debateID Hn (mk_is_Some _ _ E) row Hrow). }
  split; [split; [exact Hn'|eauto]|]. split.
  - intros Hne loginReq conn debateKey now Hid.
    unfold BotLogin, resolveDebate, getDebate, gets, mbind, M_bind.
    rewrite Hid. apply String.eqb_neq in Hne. rewrite Hne, Hn', Hrow'.
    apply String.eqb_neq in Hst'. rewrite Hst'. reflexivity.
  - intros speech now Hid.
    unfold HandleSpeech, getDebate, gets, mbind, M_bind.
    rewrite Hid, Hn'. reflexivity.
Qed.

Lemma gone_for_good_witness :
  gone (worldAfter envNoJudge
          (waitedOut ++ [EvLogin loginGamma 3%nat "key-c" 30; EvCreate "u2" "T2" 2 40;
                         EvLogin loginAlpha 1%nat "key-a" 41])
          emptyWorld) "debate-u1".
Proof.
  apply (gone_for_good envNoJudge
           [EvLogin loginGamma 3%nat "key-c" 30; EvCreate "u2" "T2" 2 40;
            EvLogin loginAlpha 1%nat "key-a" 41]
           (worldAfter envNoJudge waitedOut emptyWorld)).
  - split; [vm_compute; reflexivity|]. eexists. split; [vm_compute; reflexivity|].
    discriminate.
  - vm_compute. reflexivity.
Defined.
